(** * The Talking Heads networks ([network/network.py]): wiring, shapes and construction

    A shallow embedding of the Python module that assembles the Embedder, the
    Generator, the Discriminator, the Motion Encoder and the Dynamic Adder out
    of [torch] primitives and of the residual / attention blocks of
    [network/components.py].

    - Python integers are [Z]; a raised exception is a value of [result].
    - A tensor is its shape together with its elements, read through a
      multi-index.  Elements are real numbers: rounding is not modelled.
    - The tensor functions of [torch] that the source calls are written out
      (shape rules and element maps).  Learned layers ([nn.Module] objects) are
      opaque: what calling one returns is a field of the [Runtime] class
      below. *)

From Stdlib Require Import ZArith List String Reals QArith Lia Lra Bool.
From stdpp Require Import base option list gmap strings.

Local Open Scope string_scope.
Local Open Scope list_scope.
Local Open Scope Z_scope.

(** ** Exceptions *)

Inductive exn : Type :=
| AssertionError | AttributeError | IndexError | KeyError
| RuntimeError | TypeError | ValueError.

Inductive result (A : Type) : Type :=
| Ok (a : A)
| Raise (e : exn).
Arguments Ok {A} a.
Arguments Raise {A} e.

#[export] Instance result_ret : MRet result := λ A a, Ok a.
#[export] Instance result_bind : MBind result :=
  λ A B k r, match r with Ok a => k a | Raise e => Raise e end.

(** [assert c] *)
Definition assert (c : bool) : result unit :=
  if c then Ok tt else Raise AssertionError.

Definition is_ok {A} (r : result A) : Prop := ∃ a, r = Ok a.


(** ** Tensors *)

Record Tensor : Type := mkTensor {
  shape : list Z;
  data : list Z → R
}.

Definition dim (t : Tensor) : Z := Z.of_nat (length (shape t)).

Fixpoint prod (l : list Z) : Z :=
  match l with
  | [] => 1
  | d :: l' => d * prod l'
  end.

Definition numel (t : Tensor) : Z := prod (shape t).

(** Python's rule for one bound of a slice [a:b] over a dimension of size [n]. *)
Definition clamp_index (n i : Z) : Z :=
  if i <? 0 then Z.max 0 (i + n) else Z.min i n.

(** [t[:, start:stop]]; [None] is an omitted bound. *)
Definition slice_dim1 (t : Tensor) (start stop : option Z) : result Tensor :=
  match shape t with
  | b :: n :: rest =>
      let lo := clamp_index n (default 0 start) in
      let hi := clamp_index n (default n stop) in
      Ok {| shape := b :: Z.max 0 (hi - lo) :: rest;
            data := λ idx, match idx with
                           | i :: j :: r => data t (i :: (lo + j) :: r)
                           | _ => data t idx
                           end |}
  | _ => Raise IndexError
  end.

(** A dimension argument that may count from the end, over [r] positions. *)
Definition wrap_dim (r d : Z) : result nat :=
  if (0 <=? d) && (d <? r) then Ok (Z.to_nat d)
  else if (- r <=? d) && (d <? 0) then Ok (Z.to_nat (d + r))
  else Raise IndexError.

(** [t.unsqueeze(d)] *)
Definition unsqueeze (t : Tensor) (d : Z) : result Tensor :=
  k ← wrap_dim (dim t + 1) d;
  Ok {| shape := take k (shape t) ++ 1 :: drop k (shape t);
        data := λ idx, data t (take k idx ++ drop (S k) idx) |}.

(** [t.squeeze(d)]: drops dimension [d] when its size is 1. *)
Definition squeeze (t : Tensor) (d : Z) : result Tensor :=
  k ← wrap_dim (dim t) d;
  if bool_decide (shape t !! k = Some 1) then
    Ok {| shape := take k (shape t) ++ drop (S k) (shape t);
          data := λ idx, data t (take k idx ++ 0 :: drop k idx) |}
  else Ok t.

Definition swap {A} (i j : nat) (l : list A) : list A :=
  match l !! i, l !! j with
  | Some a, Some b => <[i := b]> (<[j := a]> l)
  | _, _ => l
  end.

(** [t.transpose(d0, d1)] *)
Definition transpose (t : Tensor) (d0 d1 : Z) : result Tensor :=
  i ← wrap_dim (dim t) d0;
  j ← wrap_dim (dim t) d1;
  Ok {| shape := swap i j (shape t);
        data := λ idx, data t (swap i j idx) |}.

(** Row-major position of a multi-index, and back. *)
Fixpoint ravel (s idx : list Z) : Z :=
  match s, idx with
  | _ :: s', i :: idx' => i * prod s' + ravel s' idx'
  | _, _ => 0
  end.

Fixpoint unravel (s : list Z) (off : Z) : list Z :=
  match s with
  | [] => []
  | _ :: s' => off `div` prod s' :: unravel s' (off `mod` prod s')
  end.

(** The sizes of a [view] or [reshape] of [n] elements; one size may be [-1]. *)
Definition infer_size (sizes : list Z) (n : Z) : result (list Z) :=
  if existsb (λ s, s <? -1) sizes then Raise RuntimeError
  else match length (filter (λ s, s = -1) sizes) with
       | O => if prod sizes =? n then Ok sizes else Raise RuntimeError
       | 1%nat =>
           let p := prod (filter (λ s, s ≠ -1) sizes) in
           if (0 <? p) && (n `mod` p =? 0)
           then Ok ((λ s, if s =? -1 then n `div` p else s) <$> sizes)
           else Raise RuntimeError
       | _ => Raise RuntimeError
       end.

(** [t.view( *sizes )] *)
Definition view (t : Tensor) (sizes : list Z) : result Tensor :=
  s ← infer_size sizes (numel t);
  Ok {| shape := s;
        data := λ idx, data t (unravel (shape t) (ravel s idx)) |}.

(** [t.reshape( *sizes )] *)
Definition reshape (t : Tensor) (sizes : list Z) : result Tensor :=
  view t sizes.

(** [t.expand( *sizes )], for as many sizes as [t] has dimensions: a size-1
    dimension is repeated; [-1] keeps a size. *)
Definition expand (t : Tensor) (sizes : list Z) : result Tensor :=
  if bool_decide (length sizes = length (shape t)) &&
     forallb (λ p, (p.2 =? -1) || (p.2 =? p.1) || ((p.1 =? 1) && (0 <=? p.2)))
             (zip (shape t) sizes)
  then Ok {| shape := zip_with (λ d s, if s =? -1 then d else s) (shape t) sizes;
             data := λ idx, data t (zip_with (λ d i, if d =? 1 then 0 else i)
                                             (shape t) idx) |}
  else Raise RuntimeError.

(** [torch.cat((x, y), dim=1)] *)
Definition cat1 (x y : Tensor) : result Tensor :=
  match shape x, shape y with
  | b :: c :: r, b' :: c' :: r' =>
      if bool_decide (b = b' ∧ r = r') then
        Ok {| shape := b :: (c + c') :: r;
              data := λ idx, match idx with
                             | i :: j :: k =>
                                 if j <? c then data x idx
                                 else data y (i :: (j - c) :: k)
                             | _ => data x idx
                             end |}
      else Raise RuntimeError
  | _, _ => Raise IndexError
  end.

(** Broadcasting, on shapes read from the last dimension. *)
Fixpoint broadcast_rev (s1 s2 : list Z) : result (list Z) :=
  match s1, s2 with
  | [], s => Ok s
  | s, [] => Ok s
  | a :: s1', b :: s2' =>
      rest ← broadcast_rev s1' s2';
      if a =? b then Ok (a :: rest)
      else if a =? 1 then Ok (b :: rest)
      else if b =? 1 then Ok (a :: rest)
      else Raise RuntimeError
  end.

Definition broadcast_shapes (s1 s2 : list Z) : result (list Z) :=
  r ← broadcast_rev (rev s1) (rev s2); Ok (rev r).

(** The index an operand of shape [s] is read at for index [idx] of the
    broadcast result. *)
Definition bcast_index (s idx : list Z) : list Z :=
  zip_with (λ d i, if d =? 1 then 0 else i) s
           (drop (length idx - length s) idx).

(** [x + y] *)
Definition add (x y : Tensor) : result Tensor :=
  s ← broadcast_shapes (shape x) (shape y);
  Ok {| shape := s;
        data := λ idx, (data x (bcast_index (shape x) idx) +
                        data y (bcast_index (shape y) idx))%R |}.

(** [x += y]: the sum must keep the shape of [x]. *)
Definition iadd (x y : Tensor) : result Tensor :=
  r ← add x y;
  if bool_decide (shape r = shape x) then Ok r else Raise RuntimeError.

Definition Rsum (l : list R) : R := foldr Rplus 0%R l.

(** [torch.bmm(a, b)] *)
Definition bmm (a b : Tensor) : result Tensor :=
  match shape a, shape b with
  | [ba; n; m], [bb; m'; p] =>
      if (ba =? bb) && (m =? m') then
        Ok {| shape := [ba; n; p];
              data := λ idx, match idx with
                             | [i; j; k] =>
                                 Rsum ((λ l, data a [i; j; l] * data b [i; l; k])%R
                                         <$> seqZ 0 m)
                             | _ => 0%R
                             end |}
      else Raise RuntimeError
  | _, _ => Raise RuntimeError
  end.

Definition pointwise (f : R → R) (t : Tensor) : Tensor :=
  {| shape := shape t; data := λ idx, f (data t idx) |}.

(** [torch.sigmoid] *)
Definition sigmoid (t : Tensor) : Tensor :=
  pointwise (λ v, / (1 + exp (- v)))%R t.

(** [F.relu] *)
Definition relu (t : Tensor) : Tensor := pointwise (Rmax 0) t.

(** The video index handed to the Discriminator: a Python integer, or a
    one-dimensional tensor of integers. *)
Inductive Index : Type :=
| IntIndex (i : Z)
| TensorIndex (l : list Z).

(** One index into a dimension of size [n]; negative ones count from the end. *)
Definition wrap_index (n i : Z) : result Z :=
  if (0 <=? i) && (i <? n) then Ok i
  else if (- n <=? i) && (i <? 0) then Ok (i + n)
  else Raise IndexError.

(** The column an index selects: counted from the end when negative. *)
Definition selected_column (n i : Z) : Z := if i <? 0 then i + n else i.

(** [t[:, i]] *)
Definition select_columns (t : Tensor) (i : Index) : result Tensor :=
  match shape t with
  | r :: n :: rest =>
      match i with
      | IntIndex i =>
          c ← wrap_index n i;
          Ok {| shape := r :: rest;
                data := λ idx, match idx with
                               | a :: k => data t (a :: c :: k)
                               | [] => data t idx
                               end |}
      | TensorIndex l =>
          cols ← mapM (wrap_index n) l;
          Ok {| shape := r :: Z.of_nat (length l) :: rest;
                data := λ idx, match idx with
                               | a :: j :: k =>
                                   data t (a :: nth (Z.to_nat j) cols 0 :: k)
                               | _ => data t idx
                               end |}
      end
  | _ => Raise IndexError
  end.

(** Every element of [t] lies in the closed unit interval. *)
Definition unit_valued (t : Tensor) : Prop :=
  ∀ idx, (0 <= data t idx <= 1)%R.

(** ** The psi slice table of the Generator *)

(** An [OrderedDict] of layer name to (input width, output width): its items
    in insertion order.  Keys of a dictionary are distinct. *)
Abbreviation OrderedDict := (list (string * (Z * Z))).

Definition od_valid (d : OrderedDict) : Prop := NoDup (d.*1).

(** [d[key]] *)
Fixpoint od_get (d : OrderedDict) (key : string) : result (Z * Z) :=
  match d with
  | [] => Raise KeyError
  | (k, v) :: d' => if String.eqb key k then Ok v else od_get d' key
  end.

Definition ADAIN_LAYERS : OrderedDict :=
  [ ("deconv6", (512, 512));
    ("deconv5", (512, 512));
    ("deconv4", (512, 256));
    ("deconv3", (256, 128));
    ("deconv2", (128, 64));
    ("deconv1", (64, 3)) ].

(** The loop of [define_psi_slices]: [layers] are the keys still to visit. *)
Fixpoint psi_loop (d : OrderedDict) (layers : list string)
    (out : gmap string (Z * Z)) (start_idx end_idx : Z)
    : result (gmap string (Z * Z) * Z) :=
  match layers with
  | [] => Ok (out, end_idx)
  | layer :: rest =>
      '(w_in, w_out) ← od_get d layer;
      let end_idx := start_idx + w_in * 2 + w_out * 2 in
      let out := <[layer := (start_idx, end_idx)]> out in
      let start_idx := end_idx in
      psi_loop d rest out start_idx end_idx
  end.

Definition define_psi_slices (d : OrderedDict)
    : result (gmap string (Z * Z) * Z) :=
  psi_loop d (d.*1) ∅ 0 0.

(** [self.PSI_PORTIONS[portion]] *)
Definition dict_get (m : gmap string (Z * Z)) (key : string) : result (Z * Z) :=
  match m !! key with
  | Some v => Ok v
  | None => Raise KeyError
  end.

(** [Generator.slice_psi], over the two tables it reads from [self]. *)
Definition slice_psi (PSI_PORTIONS : gmap string (Z * Z)) (ADAIN : OrderedDict)
    (psi : Tensor) (portion : string)
    : result (Tensor * Tensor * Tensor * Tensor) :=
  '(idx0, idx1) ← dict_get PSI_PORTIONS portion;
  '(len1, len2) ← od_get ADAIN portion;
  seg ← slice_dim1 psi (Some idx0) (Some idx1);
  aux ← unsqueeze seg (-1);
  mean1 ← slice_dim1 aux (Some 0) (Some len1);
  std1 ← slice_dim1 aux (Some len1) (Some (2 * len1));
  mean2 ← slice_dim1 aux (Some (2 * len1)) (Some (2 * len1 + len2));
  std2 ← slice_dim1 aux (Some (2 * len1 + len2)) None;
  Ok (mean1, std1, mean2, std2).

(** Offset at which the [k]-th layer of the table starts when every layer
    takes [2 * w_in + 2 * w_out] consecutive positions. *)
Fixpoint psi_offset (d : OrderedDict) (k : nat) : Z :=
  match k, d with
  | S k', (_, (w_in, w_out)) :: d' => 2 * w_in + 2 * w_out + psi_offset d' k'
  | _, _ => 0
  end.

Definition widths_nonneg (d : OrderedDict) : Prop :=
  Forall (λ item, 0 ≤ item.2.1 ∧ 0 ≤ item.2.2) d.

(** ** [nn.Module] objects *)

(** An in-place initialiser applied to the [.data] of a weight or a bias. *)
Inductive Init : Type :=
| Normal (mean std : Q)
| XavierUniform
| Fill (c : Z).

(** A layer object, as far as construction is concerned: its class name, its
    constructor arguments, the initialisers applied to its [weight] and [bias]
    since the layer's own constructor returned (newest first; [None] when the
    attribute is absent or is Python's [None]), and its sub-layers in
    registration order. *)
#[local] Unset Elimination Schemes.
Inductive nnModule : Type := mkModule {
  class_name : string;
  ctor_args : list Z;
  weight : option (list Init);
  bias : option (list Init);
  children : list nnModule
}.
#[local] Set Elimination Schemes.

(** [s.find(sub)] *)
Definition find (s sub : string) : Z :=
  match index 0 sub s with
  | Some n => Z.of_nat n
  | None => -1
  end.

(** [m.weight.data.normal_(mean, std)] and its siblings. *)
Definition weight_init (i : Init) (m : nnModule) : result nnModule :=
  match weight m with
  | Some h => Ok (mkModule (class_name m) (ctor_args m) (Some (i :: h)) (bias m)
                           (children m))
  | None => Raise AttributeError
  end.

Definition bias_init (i : Init) (m : nnModule) : result nnModule :=
  match bias m with
  | Some h => Ok (mkModule (class_name m) (ctor_args m) (weight m) (Some (i :: h))
                           (children m))
  | None => Raise AttributeError
  end.

Definition weights_init (m : nnModule) : result nnModule :=
  let classname := class_name m in
  m ← (if negb (find classname "Conv2d" =? -1)
       then weight_init (Normal 0.0 0.02) m
       else Ok m);
  if negb (find classname "Linear" =? -1) then
    m ← weight_init XavierUniform m;
    bias_init (Fill 0) m
  else if negb (find classname "InstanceNorm2d" =? -1) then
    m ← weight_init (Normal 1.0 0.02) m;
    bias_init (Fill 0) m
  else Ok m.

(** [m] with its sub-layers replaced by [cs]. *)
Definition with_children (m : nnModule) (cs : list nnModule) : nnModule :=
  mkModule (class_name m) (ctor_args m) (weight m) (bias m) cs.

(** [m.apply(fn)]: the sub-layers first, in order, then [m] itself. *)
Fixpoint Module_apply (fn : nnModule → result nnModule) (m : nnModule)
    : result nnModule :=
  cs ← (fix each (l : list nnModule) : result (list nnModule) :=
          match l with
          | [] => Ok []
          | c :: l' =>
              c' ← Module_apply fn c;
              l'' ← each l';
              Ok (c' :: l'')
          end) (children m);
  fn (with_children m cs).

(** [Module_apply fn m] computes [m'] when [m'] is [m] with [fn] run once on
    every layer, sub-layers first. *)
#[local] Unset Elimination Schemes.
Inductive applied (fn : nnModule → result nnModule)
    : nnModule → nnModule → Prop :=
| applied_node m cs' m' :
    Forall2 (applied fn) (children m) cs' →
    fn (with_children m cs') = Ok m' →
    applied fn m m'.
#[local] Set Elimination Schemes.

(** All layers of a tree, in the order [apply] visits them. *)
Fixpoint modules (m : nnModule) : list nnModule :=
  flat_map modules (children m) ++ [m].

(** A tree of layers without the record of initialisations: classes,
    constructor arguments, which attributes exist, and the sub-layers. *)
Fixpoint skeleton (m : nnModule) : nnModule :=
  mkModule (class_name m) (ctor_args m)
           ((λ _, []) <$> weight m) ((λ _, []) <$> bias m)
           (skeleton <$> children m).

(** [weights_init] returns on every layer of the tree. *)
Definition initialisable (m : nnModule) : Prop :=
  Forall (λ a, is_ok (weights_init a)) (modules m).

(** Values passed as positional arguments where the callee decides by type. *)
Inductive pyval : Type :=
| PyNone
| PyBool (b : bool)
| PyInt (z : Z)
| PyTensor (t : Tensor)
| PySelf.

(** [nn.Module.__init__(self, *extra)]: it accepts no positional argument
    besides [self]. *)
Definition Module___init__ (extra : list pyval) : result unit :=
  match extra with
  | [] => Ok tt
  | _ :: _ => Raise TypeError
  end.

(** [nn.Parameter(data, requires_grad)]: [data] has to be a tensor (the
    exception is a [TypeError]; [torch] releases that first call
    [data.detach()] report an [AttributeError] at the same place). *)
Definition nn_Parameter (d requires_grad : pyval) : result Tensor :=
  match d with
  | PyTensor t => Ok t
  | PyNone => Ok {| shape := [0]; data := λ _, 0%R |}
  | _ => Raise TypeError
  end.

Definition nn_Linear (in_features out_features : Z) : nnModule :=
  mkModule "Linear" [in_features; out_features] (Some []) (Some []) [].

Definition nn_InstanceNorm2d (num_features : Z) (affine : bool) : nnModule :=
  mkModule "InstanceNorm2d" [num_features]
           (if affine then Some [] else None)
           (if affine then Some [] else None) [].

Definition nn_AdaptiveMaxPool2d (h w : Z) : nnModule :=
  mkModule "AdaptiveMaxPool2d" [h; w] None None [].

Definition nn_GRU (input_size hidden_size : Z) (batch_first : bool)
    : nnModule :=
  mkModule "GRU" [input_size; hidden_size; if batch_first then 1 else 0]
           None None [].

(** ** What the module takes from elsewhere *)

(** [config.py] *)
Class Config : Type := {
  E_VECTOR_LENGTH : Z
}.

(** [network/components.py], the learned layers of [torch.nn], the random
    number generator and the devices:
    - [block_children cls args]: the sub-layers a block of class [cls] builds
      for constructor arguments [args];
    - [call m x]: [m(x)] for a layer [m];
    - [call_adaptive m x (mean1, std1, mean2, std2)]: an adaptive block;
    - [call_gru m x]: a recurrent layer returns a pair;
    - [uniform_draw], [normal_draw]: the numbers drawn for a tensor of a shape;
    - [cuda_available dev]: whether device [dev] can be used. *)
Class Runtime : Type := {
  block_children : string → list Z → list nnModule;
  call : nnModule → Tensor → result Tensor;
  call_adaptive : nnModule → Tensor → Tensor * Tensor * Tensor * Tensor →
                  result Tensor;
  call_gru : nnModule → Tensor → result (Tensor * Tensor);
  uniform_draw : list Z → list Z → R;
  normal_draw : Q → Q → list Z → list Z → R;
  cuda_available : Z → bool
}.

Section Primitives.
Context `{RT : Runtime}.

Definition block (cls : string) (args : list Z) : nnModule :=
  mkModule cls args None None (block_children cls args).

Definition ResidualBlock (channels : Z) : nnModule :=
  block "ResidualBlock" [channels].
Definition ResidualBlockDown (in_channels out_channels : Z) : nnModule :=
  block "ResidualBlockDown" [in_channels; out_channels].
Definition ResidualBlockUp (in_channels out_channels upsample : Z) : nnModule :=
  block "ResidualBlockUp" [in_channels; out_channels; upsample].
Definition AdaptiveResidualBlockUp (in_channels out_channels upsample : Z)
    : nnModule :=
  block "AdaptiveResidualBlockUp" [in_channels; out_channels; upsample].
Definition SelfAttention (in_channels : Z) : nnModule :=
  block "SelfAttention" [in_channels].

(** [torch.rand( *sizes )] *)
Definition torch_rand (sizes : list Z) : result Tensor :=
  if forallb (λ n, 0 <=? n) sizes
  then Ok {| shape := sizes; data := uniform_draw sizes |}
  else Raise RuntimeError.

(** [t.normal_(mean, std)] *)
Definition normal_ (mean std : Q) (t : Tensor) : Tensor :=
  {| shape := shape t; data := normal_draw mean std (shape t) |}.

(** [t.cuda(dev)], for a tensor or for a whole module. *)
Definition cuda {A} (dev : Z) (a : A) : result A :=
  if cuda_available dev then Ok a else Raise RuntimeError.

(** [if self.gpu is not None: x = x.cuda(self.gpu)] *)
Definition to_gpu {A} (gpu : option Z) (a : A) : result A :=
  match gpu with
  | Some dev => cuda dev a
  | None => Ok a
  end.

(** [fn(self)] at the end of [self.apply(fn)], for a network whose own class
    is [cls]: such an object has neither [weight] nor [bias]. *)
Definition apply_self (fn : nnModule → result nnModule) (cls : string)
    : result unit :=
  _ ← fn (mkModule cls [] None None []); Ok tt.

(** *** Shape contracts of the layers

    Modelled from the spec: [network/components.py] is not part of the
    sources at hand.  The spec gives each block "a fixed tensor-shape
    contract (channel-in, channel-out, optional resample factor)", the
    down blocks halve and the up blocks double the spatial size (the shapes
    are also written next to each call in [network.py]), attention and the
    plain residual block keep the shape, and the pooling layer reduces
    every feature map to 1x1.  A block with 3x3 convolutions is only asked
    to work on maps of at least 2x2. *)
Definition maps (m : nnModule) (s_in s_out : list Z) : Prop :=
  ∀ x, shape x = s_in → ∃ y, call m x = Ok y ∧ shape y = s_out.

Definition is_layer (m : nnModule) (cls : string) (args : list Z) : Prop :=
  class_name m = cls ∧ ctor_args m = args.

Record shape_contracts : Prop := {
  down_contract : ∀ m c_in c_out B H W,
    is_layer m "ResidualBlockDown" [c_in; c_out] →
    0 ≤ B → 2 ≤ H → 2 ≤ W →
    maps m [B; c_in; H; W] [B; c_out; H `div` 2; W `div` 2];
  attention_contract : ∀ m c B H W,
    is_layer m "SelfAttention" [c] →
    0 ≤ B → 1 ≤ H → 1 ≤ W →
    maps m [B; c; H; W] [B; c; H; W];
  residual_contract : ∀ m c B H W,
    is_layer m "ResidualBlock" [c] →
    0 ≤ B → 2 ≤ H → 2 ≤ W →
    maps m [B; c; H; W] [B; c; H; W];
  pooling_contract : ∀ m B C H W,
    is_layer m "AdaptiveMaxPool2d" [1; 1] →
    0 ≤ B → 1 ≤ C → 1 ≤ H → 1 ≤ W →
    maps m [B; C; H; W] [B; C; 1; 1]
}.

(** The layers of the decoder.  Modelled from the spec: an adaptive up block
    of [components.py] takes the feature map and the four slices of psi
    ("mean1 (len1), std1 (len1), mean2 (len2), std2 (len2)") and multiplies the
    spatial size by its [upsample] factor.  Instance normalization keeps the
    shape and needs more than one value per channel; a linear layer maps the
    last dimension. *)
Record decoder_contracts : Prop := {
  adaptive_up_contract : ∀ m c_in c_out up B H W x mean1 std1 mean2 std2,
    is_layer m "AdaptiveResidualBlockUp" [c_in; c_out; up] →
    0 ≤ B → 1 ≤ H → 1 ≤ W →
    shape x = [B; c_in; H; W] →
    shape mean1 = [B; c_in; 1] → shape std1 = [B; c_in; 1] →
    shape mean2 = [B; c_out; 1] → shape std2 = [B; c_out; 1] →
    ∃ y, call_adaptive m x (mean1, std1, mean2, std2) = Ok y ∧
         shape y = [B; c_out; up * H; up * W];
  instance_norm_contract : ∀ m c B H W,
    is_layer m "InstanceNorm2d" [c] →
    0 ≤ B → 1 < H * W →
    maps m [B; c; H; W] [B; c; H; W];
  linear_contract : ∀ m i o pre,
    is_layer m "Linear" [i; o] →
    maps m (pre ++ [i]) (pre ++ [o])
}.

(** Modelled from the spec: each block of [components.py] has "a fixed
    tensor-shape contract (channel-in, channel-out, optional resample
    factor)", so a down block built for [c_in] channels takes no input with
    another channel count; [nn.InstanceNorm2d] with [affine=True] has [c]
    scales and refuses an input whose second dimension is not [c]. *)
Record channel_checks : Prop := {
  down_rejects : ∀ m c_in c_out x,
    is_layer m "ResidualBlockDown" [c_in; c_out] →
    nth 1 (shape x) 0 ≠ c_in → ¬ is_ok (call m x);
  norm_rejects : ∀ m c x,
    is_layer m "InstanceNorm2d" [c] →
    nth 1 (shape x) 0 ≠ c → ¬ is_ok (call m x)
}.
End Primitives.

(** [t.shape[k]] *)
Definition size (t : Tensor) (k : nat) : result Z :=
  match shape t !! k with
  | Some n => Ok n
  | None => Raise IndexError
  end.

(** ** MotionEncoder *)
Module MotionEncoder.
Section MotionEncoder.
Context `{RT : Runtime}.

Record t : Type := {
  conv1 : nnModule; in1_e : nnModule;
  conv2 : nnModule; in2_e : nnModule;
  conv3 : nnModule; in3_e : nnModule;
  conv4 : nnModule; in4_e : nnModule;
  pooling : nnModule;
  gru : nnModule;
  fc : nnModule
}.

Definition __init__ (gpu : option Z) : result t :=
  _ ← Module___init__ [];
  Ok {| conv1 := ResidualBlockDown 3 128;
        in1_e := nn_InstanceNorm2d 128 true;
        conv2 := ResidualBlockDown 128 256;
        in2_e := nn_InstanceNorm2d 256 true;
        conv3 := ResidualBlockDown 256 512;
        in3_e := nn_InstanceNorm2d 512 true;
        conv4 := ResidualBlockDown 512 512;
        in4_e := nn_InstanceNorm2d 512 true;
        pooling := nn_AdaptiveMaxPool2d 1 1;
        gru := nn_GRU 512 512 true;
        fc := nn_Linear 512 128 |}.

Definition forward (self : t) (x : Tensor)
    : result ((Tensor * Tensor) * Tensor) :=
  '(B, K, C, H, W) ← match shape x with
                      | [B; K; C; H; W] => Ok (B, K, C, H, W)
                      | _ => Raise ValueError
                      end;
  x ← view x [-1; C; H; W];
  (* Encode *)
  out ← call (conv1 self) x;
  out ← call (in1_e self) x;
  out ← call (conv2 self) x;
  out ← call (in2_e self) x;
  out ← call (conv3 self) x;
  out ← call (in3_e self) x;
  out ← call (conv4 self) x;
  out ← call (in4_e self) x;
  p ← call (pooling self) out;
  let out := relu p in
  x ← view x [B; K; -1];
  early ← call (fc self) x;
  static ← call_gru (gru self) out;
  Ok (static, early).

(** The encoder as section 4.2 of the specification words it: "four
    downsampling residual stages each followed by instance normalization",
    every stage fed by the one before. *)
Definition forward_chained (self : t) (x : Tensor)
    : result ((Tensor * Tensor) * Tensor) :=
  '(B, K, C, H, W) ← match shape x with
                      | [B; K; C; H; W] => Ok (B, K, C, H, W)
                      | _ => Raise ValueError
                      end;
  x ← view x [-1; C; H; W];
  out ← call (conv1 self) x;
  out ← call (in1_e self) out;
  out ← call (conv2 self) out;
  out ← call (in2_e self) out;
  out ← call (conv3 self) out;
  out ← call (in3_e self) out;
  out ← call (conv4 self) out;
  out ← call (in4_e self) out;
  p ← call (pooling self) out;
  let out := relu p in
  x ← view x [B; K; -1];
  early ← call (fc self) x;
  static ← call_gru (gru self) out;
  Ok (static, early).

End MotionEncoder.
End MotionEncoder.

(** ** DynamicAdder *)
Module DynamicAdder.
Section DynamicAdder.
Context `{RT : Runtime}.

Record t : Type := {
  fc : nnModule;
  deconv2 : nnModule; in2_d : nnModule;
  deconv1 : nnModule; in1_d : nnModule
}.

Definition __init__ (gpu : option Z) : result t :=
  (* super(DynamicAdder, self).__init__(self) *)
  _ ← Module___init__ [PySelf];
  Ok {| fc := nn_Linear 1 16;
        deconv2 := ResidualBlockUp 128 128 4;
        in2_d := nn_InstanceNorm2d 128 true;
        deconv1 := ResidualBlockUp 128 128 4;
        in1_d := nn_InstanceNorm2d 128 true |}.

Definition forward (self : t) (x : Tensor) : result Tensor :=
  B ← match shape x with
      | [B; _] => Ok B
      | _ => Raise ValueError
      end;
  u ← unsqueeze x 2;
  out ← call (fc self) u;
  out ← view out [B; 4; 4];
  out ← call (deconv2 self) out;
  out ← call (in2_d self) out;
  out ← call (deconv1 self) out;
  call (in1_d self) out.
End DynamicAdder.
End DynamicAdder.

(** ** Embedder *)
Module Embedder.
Section Embedder.
Context `{CF : Config} `{RT : Runtime}.

Record t : Type := {
  conv1 : nnModule; conv2 : nnModule; conv3 : nnModule;
  att : nnModule;
  conv4 : nnModule; conv5 : nnModule; conv6 : nnModule;
  pooling : nnModule;
  gpu : option Z
}.

(** [self.children()] *)
Definition children (self : t) : list nnModule :=
  [conv1 self; conv2 self; conv3 self; att self;
   conv4 self; conv5 self; conv6 self; pooling self].

(** [self.apply(fn)] *)
Definition apply (fn : nnModule → result nnModule) (self : t) : result t :=
  c1 ← Module_apply fn (conv1 self);
  c2 ← Module_apply fn (conv2 self);
  c3 ← Module_apply fn (conv3 self);
  a ← Module_apply fn (att self);
  c4 ← Module_apply fn (conv4 self);
  c5 ← Module_apply fn (conv5 self);
  c6 ← Module_apply fn (conv6 self);
  p ← Module_apply fn (pooling self);
  _ ← apply_self fn "Embedder";
  Ok {| conv1 := c1; conv2 := c2; conv3 := c3; att := a;
        conv4 := c4; conv5 := c5; conv6 := c6; pooling := p;
        gpu := gpu self |}.

Definition set_gpu (g : option Z) (self : t) : t :=
  {| conv1 := conv1 self; conv2 := conv2 self; conv3 := conv3 self;
     att := att self;
     conv4 := conv4 self; conv5 := conv5 self; conv6 := conv6 self;
     pooling := pooling self; gpu := g |}.

(** The layers as the constructor creates them, before [apply]. *)
Definition layers : t :=
  {| conv1 := ResidualBlockDown 3 64;
     conv2 := ResidualBlockDown 64 128;
     conv3 := ResidualBlockDown 128 256;
     att := SelfAttention 256;
     conv4 := ResidualBlockDown 256 512;
     conv5 := ResidualBlockDown 512 512;
     conv6 := ResidualBlockDown 512 512;
     pooling := nn_AdaptiveMaxPool2d 1 1;
     gpu := None |}.

Definition __init__ (gpu : option Z) : result t :=
  _ ← Module___init__ [];
  let self := layers in
  self ← apply weights_init self;
  let self := set_gpu gpu self in
  to_gpu gpu self.

Definition forward (self : t) (x : Tensor) : result Tensor :=
  _ ← assert ((dim x =? 4) && (nth 1 (shape x) 0 =? 3));
  x ← to_gpu (gpu self) x;
  (* Encode *)
  out ← call (conv1 self) x;
  out ← call (conv2 self) out;
  out ← call (conv3 self) out;
  out ← call (att self) out;
  out ← call (conv4 self) out;
  out ← call (conv5 self) out;
  out ← call (conv6 self) out;
  (* Vectorize *)
  p ← call (pooling self) out;
  v ← view p [-1; E_VECTOR_LENGTH];
  Ok (relu v).
End Embedder.
End Embedder.

(** ** Generator *)
Module Generator.
Section Generator.
Context `{CF : Config} `{RT : Runtime}.

Record t : Type := {
  PSI_PORTIONS : gmap string (Z * Z);
  psi_length : Z;
  projection : Tensor;
  static_fc : Tensor;
  fc : nnModule;
  deconv6 : nnModule; in6_d : nnModule;
  deconv5 : nnModule; in5_d : nnModule;
  deconv4 : nnModule; in4_d : nnModule;
  deconv3 : nnModule; in3_d : nnModule;
  att2 : nnModule;
  deconv2 : nnModule; in2_d : nnModule;
  deconv1 : nnModule; in1_d : nnModule;
  gpu : option Z
}.

(** [self.children()] *)
Definition children (self : t) : list nnModule :=
  [fc self; deconv6 self; in6_d self; deconv5 self; in5_d self;
   deconv4 self; in4_d self; deconv3 self; in3_d self; att2 self;
   deconv2 self; in2_d self; deconv1 self; in1_d self].

(** [self.apply(fn)] *)
Definition apply (fn : nnModule → result nnModule) (self : t) : result t :=
  f ← Module_apply fn (fc self);
  d6 ← Module_apply fn (deconv6 self);
  i6 ← Module_apply fn (in6_d self);
  d5 ← Module_apply fn (deconv5 self);
  i5 ← Module_apply fn (in5_d self);
  d4 ← Module_apply fn (deconv4 self);
  i4 ← Module_apply fn (in4_d self);
  d3 ← Module_apply fn (deconv3 self);
  i3 ← Module_apply fn (in3_d self);
  a2 ← Module_apply fn (att2 self);
  d2 ← Module_apply fn (deconv2 self);
  i2 ← Module_apply fn (in2_d self);
  d1 ← Module_apply fn (deconv1 self);
  i1 ← Module_apply fn (in1_d self);
  _ ← apply_self fn "Generator";
  Ok {| PSI_PORTIONS := PSI_PORTIONS self; psi_length := psi_length self;
        projection := projection self; static_fc := static_fc self;
        fc := f;
        deconv6 := d6; in6_d := i6; deconv5 := d5; in5_d := i5;
        deconv4 := d4; in4_d := i4; deconv3 := d3; in3_d := i3;
        att2 := a2;
        deconv2 := d2; in2_d := i2; deconv1 := d1; in1_d := i1;
        gpu := gpu self |}.

Definition set_gpu (g : option Z) (self : t) : t :=
  {| PSI_PORTIONS := PSI_PORTIONS self; psi_length := psi_length self;
     projection := projection self; static_fc := static_fc self;
     fc := fc self;
     deconv6 := deconv6 self; in6_d := in6_d self;
     deconv5 := deconv5 self; in5_d := in5_d self;
     deconv4 := deconv4 self; in4_d := in4_d self;
     deconv3 := deconv3 self; in3_d := in3_d self;
     att2 := att2 self;
     deconv2 := deconv2 self; in2_d := in2_d self;
     deconv1 := deconv1 self; in1_d := in1_d self;
     gpu := g |}.

(** The first two statements of the constructor ("projection layer"), for
    the table [d] found in [self.ADAIN_LAYERS]. *)
Definition projection_layer (d : OrderedDict)
    : result (gmap string (Z * Z) * Z * Tensor) :=
  '(PSI_PORTIONS, psi_length) ← define_psi_slices d;
  r ← torch_rand [psi_length; E_VECTOR_LENGTH];
  projection ← nn_Parameter (PyTensor (normal_ 0.0 0.02 r)) (PyBool true);
  Ok (PSI_PORTIONS, psi_length, projection).

(** The layers as the constructor creates them, before [apply]. *)
Definition layers (PSI_PORTIONS : gmap string (Z * Z)) (psi_length : Z)
    (projection static_fc : Tensor) : t :=
  {| PSI_PORTIONS := PSI_PORTIONS; psi_length := psi_length;
     projection := projection; static_fc := static_fc;
     fc := nn_Linear 1 16;
     deconv6 := AdaptiveResidualBlockUp 512 512 2;
     in6_d := nn_InstanceNorm2d 512 true;
     deconv5 := AdaptiveResidualBlockUp 512 512 2;
     in5_d := nn_InstanceNorm2d 512 true;
     deconv4 := AdaptiveResidualBlockUp 512 256 2;
     in4_d := nn_InstanceNorm2d 256 true;
     deconv3 := AdaptiveResidualBlockUp 256 128 2;
     in3_d := nn_InstanceNorm2d 128 true;
     att2 := SelfAttention 128;
     deconv2 := AdaptiveResidualBlockUp 128 64 2;
     in2_d := nn_InstanceNorm2d 64 true;
     deconv1 := AdaptiveResidualBlockUp 64 3 2;
     in1_d := nn_InstanceNorm2d 3 true;
     gpu := None |}.

(** The constructor from "decoding layers" to its end, given the attributes
    set before. *)
Definition decoding_layers (PSI_PORTIONS : gmap string (Z * Z))
    (psi_length : Z) (projection static_fc : Tensor) (gpu : option Z)
    : result t :=
  let self := layers PSI_PORTIONS psi_length projection static_fc in
  self ← apply weights_init self;
  let self := set_gpu gpu self in
  to_gpu gpu self.

Definition __init__ (gpu : option Z) : result t :=
  _ ← Module___init__ [];
  (* projection layer *)
  '(PSI_PORTIONS, psi_length, projection) ← projection_layer ADAIN_LAYERS;
  static_fc ← nn_Parameter (PyInt 512) (PyInt 512);
  (* decoding layers *)
  decoding_layers PSI_PORTIONS psi_length projection static_fc gpu.

(** One decoder stage: [norm(deconv(out, *self.slice_psi(psi_hat, name)))] *)
Definition stage (self : t) (deconv norm : nnModule) (name : string)
    (psi_hat out : Tensor) : result Tensor :=
  p ← slice_psi (PSI_PORTIONS self) ADAIN_LAYERS psi_hat name;
  out ← call_adaptive deconv out p;
  call norm out.

Definition forward (self : t) (y e : Tensor) (s d : option Tensor)
    : result Tensor :=
  e ← to_gpu (gpu self) e;
  y ← to_gpu (gpu self) y;
  '(B, H, W) ← match shape y with
                | [B; _; H; W] => Ok (B, H, W)
                | _ => Raise ValueError
                end;
  let out := y in
  (* [self.static_fc] is a parameter: it cannot be called *)
  _ ← match s with
      | Some _ => Raise TypeError
      | None => Ok tt
      end;
  (* Calculate psi_hat parameters *)
  P ← unsqueeze (projection self) 0;
  n0 ← size e 0;
  n1 ← size P 1;
  n2 ← size P 2;
  P ← expand P [n0; n1; n2];
  e2 ← unsqueeze e 2;
  psi_hat ← bmm P e2;
  psi_hat ← squeeze psi_hat 2;
  (* Decode *)
  out ← unsqueeze out 2;
  out ← call (fc self) out;
  out ← view out [B; -1; 4; 4];
  out ← stage self (deconv6 self) (in6_d self) "deconv6" psi_hat out;
  out ← stage self (deconv5 self) (in5_d self) "deconv5" psi_hat out;
  out ← stage self (deconv4 self) (in4_d self) "deconv4" psi_hat out;
  out ← stage self (deconv3 self) (in3_d self) "deconv3" psi_hat out;
  out ← match d with
        | Some d => iadd out d
        | None => Ok out
        end;
  out ← call (att2 self) out;
  out ← stage self (deconv2 self) (in2_d self) "deconv2" psi_hat out;
  out ← stage self (deconv1 self) (in1_d self) "deconv1" psi_hat out;
  Ok (sigmoid out).
End Generator.
End Generator.

(** ** Discriminator *)
Module Discriminator.
Section Discriminator.
Context `{RT : Runtime}.

Record t : Type := {
  conv1 : nnModule; conv2 : nnModule; conv3 : nnModule;
  att : nnModule;
  conv4 : nnModule; conv5 : nnModule; conv6 : nnModule;
  res_block : nnModule;
  pooling : nnModule;
  W : Tensor;
  w_0 : Tensor;
  b : Tensor;
  gpu : option Z
}.

(** [self.children()] *)
Definition children (self : t) : list nnModule :=
  [conv1 self; conv2 self; conv3 self; att self;
   conv4 self; conv5 self; conv6 self; res_block self; pooling self].

(** [self.apply(fn)]; [W], [w_0] and [b] are parameters of the network
    itself, not layers, and [fn] is not handed them. *)
Definition apply (fn : nnModule → result nnModule) (self : t) : result t :=
  c1 ← Module_apply fn (conv1 self);
  c2 ← Module_apply fn (conv2 self);
  c3 ← Module_apply fn (conv3 self);
  a ← Module_apply fn (att self);
  c4 ← Module_apply fn (conv4 self);
  c5 ← Module_apply fn (conv5 self);
  c6 ← Module_apply fn (conv6 self);
  r ← Module_apply fn (res_block self);
  p ← Module_apply fn (pooling self);
  _ ← apply_self fn "Discriminator";
  Ok {| conv1 := c1; conv2 := c2; conv3 := c3; att := a;
        conv4 := c4; conv5 := c5; conv6 := c6; res_block := r;
        pooling := p;
        W := W self; w_0 := w_0 self; b := b self; gpu := gpu self |}.

Definition set_gpu (g : option Z) (self : t) : t :=
  {| conv1 := conv1 self; conv2 := conv2 self; conv3 := conv3 self;
     att := att self;
     conv4 := conv4 self; conv5 := conv5 self; conv6 := conv6 self;
     res_block := res_block self; pooling := pooling self;
     W := W self; w_0 := w_0 self; b := b self; gpu := g |}.

(** The layers as the constructor creates them, before [apply]. *)
Definition layers (W w_0 b : Tensor) : t :=
  {| conv1 := ResidualBlockDown 6 64;
     conv2 := ResidualBlockDown 64 128;
     conv3 := ResidualBlockDown 128 256;
     att := SelfAttention 256;
     conv4 := ResidualBlockDown 256 512;
     conv5 := ResidualBlockDown 512 512;
     conv6 := ResidualBlockDown 512 512;
     res_block := ResidualBlock 512;
     pooling := nn_AdaptiveMaxPool2d 1 1;
     W := W; w_0 := w_0; b := b; gpu := None |}.

Definition __init__ (training_videos : Z) (gpu : option Z) : result t :=
  _ ← Module___init__ [];
  r ← torch_rand [512; training_videos];
  W ← nn_Parameter (PyTensor (normal_ 0.0 0.02 r)) (PyBool true);
  r ← torch_rand [512; 1];
  w_0 ← nn_Parameter (PyTensor (normal_ 0.0 0.02 r)) (PyBool true);
  r ← torch_rand [1];
  b ← nn_Parameter (PyTensor (normal_ 0.0 0.02 r)) (PyBool true);
  let self := layers W w_0 b in
  self ← apply weights_init self;
  let self := set_gpu gpu self in
  to_gpu gpu self.

(** The statements of [forward] under "Calculate Realism Score", from the
    pooled features [out] to the reshaped score. *)
Definition realism_score (self : t) (x out : Tensor) (i : Index)
    : result Tensor :=
  _out ← transpose out 1 2;
  c ← select_columns (W self) i;
  c ← unsqueeze c (-1);
  _W_i ← transpose c 0 1;
  w ← add _W_i (w_0 self);
  out ← bmm _out w;
  out ← add out (b self);
  let out := sigmoid out in
  n ← size x 0;
  reshape out [n].

Definition forward (self : t) (x y : Tensor) (i : Index)
    : result (Tensor * list Tensor) :=
  _ ← assert ((dim x =? 4) && (nth 1 (shape x) 0 =? 3));
  _ ← assert (bool_decide (shape x = shape y));
  x ← to_gpu (gpu self) x;
  y ← to_gpu (gpu self) y;
  (* Concatenate x & y *)
  out ← cat1 x y;
  (* Encode *)
  out_0 ← call (conv1 self) out;
  out_1 ← call (conv2 self) out_0;
  out_2 ← call (conv3 self) out_1;
  out_3 ← call (att self) out_2;
  out_4 ← call (conv4 self) out_3;
  out_5 ← call (conv5 self) out_4;
  out_6 ← call (conv6 self) out_5;
  out_7 ← call (res_block self) out_6;
  (* Vectorize *)
  p ← call (pooling self) out_7;
  out ← view (relu p) [-1; 512; 1];
  (* Calculate Realism Score *)
  out ← realism_score self x out i;
  Ok (out, [out_0; out_1; out_2; out_3; out_4; out_5; out_6; out_7]).
End Discriminator.
End Discriminator.

(** ** Reference instances, used to run the definitions on concrete inputs *)

Definition zeros (s : list Z) : Tensor := {| shape := s; data := λ _, 0%R |}.

(** Layers that follow the shape contracts and return zeros. *)
Definition shape_call (m : nnModule) (x : Tensor) : result Tensor :=
  let cls := class_name m in
  if String.eqb cls "ResidualBlockDown" then
    match ctor_args m, shape x with
    | [c_in; c_out], [B; C; H; W] =>
        if (C =? c_in) && (2 <=? H) && (2 <=? W)
        then Ok (zeros [B; c_out; H `div` 2; W `div` 2])
        else Raise RuntimeError
    | _, _ => Raise RuntimeError
    end
  else if String.eqb cls "SelfAttention" then
    match ctor_args m, shape x with
    | [c], [B; C; H; W] =>
        if (C =? c) && (1 <=? H) && (1 <=? W)
        then Ok (zeros [B; C; H; W])
        else Raise RuntimeError
    | _, _ => Raise RuntimeError
    end
  else if String.eqb cls "ResidualBlock" then
    match ctor_args m, shape x with
    | [c], [B; C; H; W] =>
        if (C =? c) && (2 <=? H) && (2 <=? W)
        then Ok (zeros [B; C; H; W])
        else Raise RuntimeError
    | _, _ => Raise RuntimeError
    end
  else if String.eqb cls "AdaptiveMaxPool2d" then
    match shape x with
    | [B; C; H; W] =>
        if (1 <=? C) && (1 <=? H) && (1 <=? W)
        then Ok (zeros [B; C; 1; 1])
        else Raise RuntimeError
    | _ => Raise RuntimeError
    end
  else if String.eqb cls "InstanceNorm2d" then
    match ctor_args m, shape x with
    | [c], [B; C; H; W] =>
        if (C =? c) && (1 <? H * W)
        then Ok (zeros [B; C; H; W])
        else Raise ValueError
    | _, _ => Raise ValueError
    end
  else if String.eqb cls "Linear" then
    match ctor_args m, rev (shape x) with
    | [i; o], n :: pre =>
        if n =? i then Ok (zeros (rev (o :: pre))) else Raise RuntimeError
    | _, _ => Raise RuntimeError
    end
  else Raise TypeError.

Definition shape_call_adaptive (m : nnModule) (x : Tensor)
    (p : Tensor * Tensor * Tensor * Tensor) : result Tensor :=
  let '(mean1, std1, mean2, std2) := p in
  match ctor_args m, shape x with
  | [c_in; c_out; up], [B; C; H; W] =>
      if String.eqb (class_name m) "AdaptiveResidualBlockUp" && (C =? c_in) &&
         bool_decide (shape mean1 = [B; c_in; 1] ∧ shape std1 = [B; c_in; 1] ∧
                      shape mean2 = [B; c_out; 1] ∧ shape std2 = [B; c_out; 1])
      then Ok (zeros [B; c_out; up * H; up * W])
      else Raise RuntimeError
  | _, _ => Raise RuntimeError
  end.

Definition shape_call_gru (m : nnModule) (x : Tensor)
    : result (Tensor * Tensor) :=
  match ctor_args m, shape x with
  | [i; h; _], [B; L; n] =>
      if n =? i then Ok (zeros [B; L; h], zeros [1; B; h])
      else Raise RuntimeError
  | _, _ => Raise RuntimeError
  end.

(** Every block registers one convolution, one linear layer and one
    normalization layer. *)
Definition sample_children (cls : string) (args : list Z) : list nnModule :=
  [ mkModule "Conv2d" args (Some []) (Some []) [];
    nn_Linear 1 1;
    nn_InstanceNorm2d 1 true ].

Definition reference_runtime : Runtime :=
  {| block_children := sample_children;
     call := shape_call;
     call_adaptive := shape_call_adaptive;
     call_gru := shape_call_gru;
     uniform_draw := λ _ _, 0%R;
     normal_draw := λ _ _ _ _, 0%R;
     cuda_available := λ _, false |}.

(** The layers the constructor of [DynamicAdder] lists. *)
Definition sample_adder : @DynamicAdder.t :=
  {| DynamicAdder.fc := nn_Linear 1 16;
     DynamicAdder.deconv2 := @ResidualBlockUp reference_runtime 128 128 4;
     DynamicAdder.in2_d := nn_InstanceNorm2d 128 true;
     DynamicAdder.deconv1 := @ResidualBlockUp reference_runtime 128 128 4;
     DynamicAdder.in1_d := nn_InstanceNorm2d 128 true |}.

Definition config_512 : Config := {| E_VECTOR_LENGTH := 512 |}.
Definition config_256 : Config := {| E_VECTOR_LENGTH := 256 |}.

(** * Properties *)

(** ** Generic facts *)

Lemma bind_Ok {A B} (a : A) (k : A → result B) : (Ok a ≫= k) = k a.
Proof. reflexivity. Qed.

Lemma bind_Raise {A B} (e : exn) (k : A → result B) : (Raise e ≫= k) = Raise e.
Proof. reflexivity. Qed.

Lemma bind_inv {A B} (r : result A) (k : A → result B) (b : B) :
  (r ≫= k) = Ok b → ∃ a, r = Ok a ∧ k a = Ok b.
Proof. destruct r as [a|e]; [eauto | discriminate]. Qed.

(** ** The psi slice table *)

Lemma od_get_lookup (d : OrderedDict) k name v :
  od_valid d → d !! k = Some (name, v) → od_get d name = Ok v.
Proof.
  unfold od_valid. revert k.
  induction d as [|[k0 v0] d IH]; intros k Hnd Hk; [done|].
  rewrite fmap_cons in Hnd. apply NoDup_cons in Hnd as [Hnotin Hnd].
  destruct k as [|k]; simpl in *.
  - injection Hk as -> ->. by rewrite String.eqb_refl.
  - destruct (String.eqb_spec name k0) as [->|_]; [|by eapply IH].
    exfalso. apply Hnotin. apply list_elem_of_fmap.
    exists (k0, v). split; [done|]. by eapply list_elem_of_lookup_2.
Qed.

Lemma od_get_inv (d : OrderedDict) name v :
  od_get d name = Ok v → ∃ k, d !! k = Some (name, v).
Proof.
  induction d as [|[k0 v0] d IH]; simpl; [done|].
  destruct (String.eqb_spec name k0) as [->|_].
  - intros [= ->]. by exists 0%nat.
  - intros H. destruct (IH H) as [k Hk]. by exists (S k).
Qed.

Lemma psi_offset_S (d : OrderedDict) k name w_in w_out :
  d !! k = Some (name, (w_in, w_out)) →
  psi_offset d (S k) = psi_offset d k + (2 * w_in + 2 * w_out).
Proof.
  revert k. induction d as [|[k0 [a b]] d IH]; intros k Hk; [done|].
  destruct k as [|k].
  - injection Hk as -> -> ->. cbn [psi_offset].
    destruct d as [|[? [? ?]] ?]; cbn [psi_offset]; lia.
  - simpl in Hk. specialize (IH _ Hk).
    change (psi_offset ((k0, (a, b)) :: d) (S (S k)))
      with (2 * a + 2 * b + psi_offset d (S k)).
    change (psi_offset ((k0, (a, b)) :: d) (S k))
      with (2 * a + 2 * b + psi_offset d k).
    lia.
Qed.

Lemma psi_offset_ge (d : OrderedDict) k :
  (length d ≤ k)%nat → psi_offset d k = psi_offset d (length d).
Proof.
  revert k. induction d as [|[k0 [a b]] d IH]; intros k Hk.
  - by destruct k.
  - destruct k as [|k]; simpl in Hk; [lia|].
    cbn [psi_offset length]. rewrite (IH k); [done | lia].
Qed.

Lemma psi_offset_mono (d : OrderedDict) k k' :
  widths_nonneg d → (k ≤ k')%nat → 0 ≤ psi_offset d k ≤ psi_offset d k'.
Proof.
  unfold widths_nonneg. intros Hw. revert k k'.
  induction Hw as [|[k0 [a b]] d [Ha Hb] Hw IH]; intros k k' Hk.
  - destruct k, k'; cbn [psi_offset]; lia.
  - simpl in Ha, Hb.
    destruct k as [|k], k' as [|k']; cbn [psi_offset]; try lia.
    + specialize (IH 0%nat k' ltac:(lia)). lia.
    + specialize (IH k k' ltac:(lia)). lia.
Qed.

(** The loop, started after [pre] has been visited. *)
Lemma psi_loop_spec (d pre suf : OrderedDict) (out : gmap string (Z * Z)) :
  od_valid d → d = pre ++ suf →
  (∀ k name v, pre !! k = Some (name, v) →
     out !! name = Some (psi_offset d k, psi_offset d (S k))) →
  (∀ name, name ∉ pre.*1 → out !! name = None) →
  ∃ out',
    psi_loop d (suf.*1) out (psi_offset d (length pre))
             (psi_offset d (length pre))
      = Ok (out', psi_offset d (length d)) ∧
    (∀ k name v, d !! k = Some (name, v) →
       out' !! name = Some (psi_offset d k, psi_offset d (S k))) ∧
    (∀ name, name ∉ d.*1 → out' !! name = None).
Proof.
  intros Hnd. revert pre out.
  induction suf as [|[name [a b]] suf IH]; intros pre out Hd Hin Hout.
  - rewrite app_nil_r in Hd. subst pre. simpl. eauto.
  - assert (Hk : d !! length pre = Some (name, (a, b))).
    { rewrite Hd. by apply list_lookup_middle. }
    simpl. rewrite (od_get_lookup _ _ _ _ Hnd Hk). rewrite bind_Ok.
    replace (psi_offset d (length pre) + a * 2 + b * 2)
      with (psi_offset d (S (length pre)))
      by (rewrite (psi_offset_S _ _ _ _ _ Hk); lia).
    assert (Hfresh : name ∉ pre.*1).
    { unfold od_valid in Hnd. rewrite Hd, fmap_app, fmap_cons in Hnd.
      apply NoDup_app in Hnd as (_ & Hdisj & _).
      intros Hin'. apply (Hdisj _ Hin'). simpl. left. }
    specialize (IH (pre ++ [(name, (a, b))])
                   (<[name := (psi_offset d (length pre),
                               psi_offset d (S (length pre)))]> out)).
    rewrite length_app in IH. simpl in IH.
    replace (length pre + 1)%nat with (S (length pre)) in IH by lia.
    apply IH.
    + by rewrite <- app_assoc.
    + intros k name' v Hk'.
      destruct (decide (k < length pre)%nat) as [Hlt|Hge].
      * rewrite lookup_app_l in Hk' by done.
        rewrite lookup_insert_ne; [by eapply Hin|].
        intros <-. apply Hfresh. apply list_elem_of_fmap.
        exists (name, v). split; [done|]. by eapply list_elem_of_lookup_2.
      * rewrite lookup_app_r in Hk' by lia.
        destruct (k - length pre)%nat as [|j] eqn:Hj; [|by destruct j].
        injection Hk' as <- <-.
        assert (k = length pre) as -> by lia.
        by rewrite lookup_insert_eq.
    + intros name' Hnot. rewrite fmap_app in Hnot. simpl in Hnot.
      rewrite lookup_insert_ne.
      * apply Hout. intros ?. apply Hnot. apply elem_of_app. by left.
      * intros <-. apply Hnot. apply elem_of_app. right. left.
Qed.

Lemma define_psi_slices_spec (d : OrderedDict) :
  od_valid d →
  ∃ out,
    define_psi_slices d = Ok (out, psi_offset d (length d)) ∧
    (∀ k name v, d !! k = Some (name, v) →
       out !! name = Some (psi_offset d k, psi_offset d (S k))) ∧
    (∀ name, name ∉ d.*1 → out !! name = None).
Proof.
  intros Hnd. unfold define_psi_slices.
  destruct (psi_loop_spec d [] d ∅ Hnd eq_refl) as (out & Hrun & H1 & H2).
  - intros k name v Hk. done.
  - intros name _. apply lookup_empty.
  - exists out. split; [|done].
    replace (psi_offset d (length (@nil (string * (Z * Z))))) with 0 in Hrun.
    + exact Hrun.
    + by destruct d as [|[? [? ?]] ?].
Qed.

Lemma psi_offset_0 (d : OrderedDict) : psi_offset d 0 = 0.
Proof. by destruct d as [|[? [? ?]] ?]. Qed.

Lemma psi_offset_find (d : OrderedDict) (n : nat) (p : Z) :
  0 ≤ p < psi_offset d n →
  ∃ k, (k < n)%nat ∧ (k < length d)%nat ∧
       psi_offset d k ≤ p < psi_offset d (S k).
Proof.
  induction n as [|n IH]; intros Hp.
  - rewrite psi_offset_0 in Hp. lia.
  - destruct (decide (p < psi_offset d n)) as [Hlt|Hge].
    + destruct IH as (k & ? & ? & ?); [lia|]. exists k. split; [lia | done].
    + exists n. split; [lia|]. split; [|lia].
      destruct (decide (n < length d)%nat) as [|Hn]; [done|].
      rewrite (psi_offset_ge d n), (psi_offset_ge d (S n)) in * by lia. lia.
Qed.

Lemma psi_range_unique (d : OrderedDict) (k k' : nat) (p : Z) :
  widths_nonneg d →
  psi_offset d k ≤ p < psi_offset d (S k) →
  psi_offset d k' ≤ p < psi_offset d (S k') →
  k = k'.
Proof.
  intros Hw Hk Hk'.
  destruct (Nat.lt_trichotomy k k') as [Hlt|[->|Hgt]]; [|done|].
  - pose proof (psi_offset_mono d (S k) k' Hw ltac:(lia)). lia.
  - pose proof (psi_offset_mono d (S k') k Hw ltac:(lia)). lia.
Qed.

Lemma psi_table_entry (d : OrderedDict) (out : gmap string (Z * Z)) name lo hi :
  od_valid d →
  (∀ k name v, d !! k = Some (name, v) →
     out !! name = Some (psi_offset d k, psi_offset d (S k))) →
  (∀ name, name ∉ d.*1 → out !! name = None) →
  out !! name = Some (lo, hi) →
  ∃ k v, d !! k = Some (name, v) ∧
         lo = psi_offset d k ∧ hi = psi_offset d (S k).
Proof.
  intros Hnd Hin Hout Hl.
  destruct (decide (name ∈ d.*1)) as [Hd|Hd].
  - apply list_elem_of_fmap in Hd as ([name' v] & -> & Hd).
    apply list_elem_of_lookup in Hd as [k Hk].
    pose proof (Hin _ _ _ Hk) as Hl'. simpl in Hl, Hl'.
    rewrite Hl in Hl'. injection Hl' as -> ->. eauto.
  - rewrite (Hout _ Hd) in Hl. discriminate.
Qed.

Section PsiTable.
Context `{CF : Config} `{RT : Runtime}.

(** C2.  For a table with distinct layer names and non-negative widths,
    [define_psi_slices] returns a table and a total length such that: the
    [k]-th layer of the table, in table order, owns the range
    [psi_offset d k, psi_offset d (S k)), of length
    [2 * w_in + 2 * w_out]; the first range starts at 0, each range starts
    where the previous one ends and the last one ends at the total; the
    table holds nothing else; every position below the total lies in the
    range of exactly one layer; and the projection matrix the constructor
    then creates has the total as its first (output) dimension. *)
Theorem psi_slice_table_partition (d : OrderedDict) :
  od_valid d → widths_nonneg d → 0 ≤ E_VECTOR_LENGTH →
  ∃ out total P,
    define_psi_slices d = Ok (out, total) ∧
    Generator.projection_layer d = Ok (out, total, P) ∧
    shape P = [total; E_VECTOR_LENGTH] ∧
    total = psi_offset d (length d) ∧
    psi_offset d 0 = 0 ∧
    (∀ k name w_in w_out, d !! k = Some (name, (w_in, w_out)) →
       out !! name = Some (psi_offset d k, psi_offset d (S k)) ∧
       psi_offset d (S k) - psi_offset d k = 2 * w_in + 2 * w_out) ∧
    (∀ k name v name' v' lo hi lo' hi',
       d !! k = Some (name, v) → d !! S k = Some (name', v') →
       out !! name = Some (lo, hi) → out !! name' = Some (lo', hi') →
       lo' = hi) ∧
    (∀ name lo hi, out !! name = Some (lo, hi) →
       name ∈ d.*1 ∧ 0 ≤ lo ∧ lo ≤ hi ∧ hi ≤ total) ∧
    (∀ p, 0 ≤ p < total →
       ∃ name lo hi,
         out !! name = Some (lo, hi) ∧ lo ≤ p < hi ∧
         ∀ name' lo' hi', out !! name' = Some (lo', hi') →
                          lo' ≤ p < hi' → name' = name).
Proof.
  intros Hnd Hw HE.
  destruct (define_psi_slices_spec d Hnd) as (out & Hrun & Hin & Hout).
  pose proof (psi_offset_mono d 0 (length d) Hw ltac:(lia)) as Htot.
  exists out, (psi_offset d (length d)).
  eexists. split; [exact Hrun|].
  split.
  { unfold Generator.projection_layer. rewrite Hrun, bind_Ok.
    unfold torch_rand. cbn [forallb].
    replace (0 <=? psi_offset d (length d)) with true
      by (symmetry; apply Z.leb_le; lia).
    replace (0 <=? E_VECTOR_LENGTH) with true
      by (symmetry; apply Z.leb_le; lia).
    reflexivity. }
  split; [reflexivity|]. split; [reflexivity|].
  split; [apply psi_offset_0|].
  split.
  { intros k name w_in w_out Hk. split; [by eapply Hin|].
    rewrite (psi_offset_S _ _ _ _ _ Hk). lia. }
  split.
  { intros k name v name' v' lo hi lo' hi' Hk Hk' Hl Hl'.
    rewrite (Hin _ _ _ Hk) in Hl. rewrite (Hin _ _ _ Hk') in Hl'.
    congruence. }
  split.
  { intros name lo hi Hl.
    destruct (psi_table_entry d out name lo hi Hnd Hin Hout Hl)
      as (k & v & Hk & -> & ->).
    split.
    { apply list_elem_of_fmap. exists (name, v). split; [done|].
      by eapply list_elem_of_lookup_2. }
    pose proof (psi_offset_mono d k (S k) Hw ltac:(lia)).
    apply lookup_lt_Some in Hk.
    pose proof (psi_offset_mono d (S k) (length d) Hw ltac:(lia)). lia. }
  intros p Hp.
  destruct (psi_offset_find d (length d) p Hp) as (k & _ & Hlen & Hk).
  destruct (lookup_lt_is_Some_2 d k Hlen) as [[name v] Hd].
  exists name, (psi_offset d k), (psi_offset d (S k)).
  split; [by eapply Hin|]. split; [done|].
  intros name' lo' hi' Hl' Hp'.
  destruct (psi_table_entry d out name' lo' hi' Hnd Hin Hout Hl')
    as (k' & v' & Hk' & -> & ->).
  assert (k = k') as -> by (by eapply psi_range_unique).
  congruence.
Qed.
End PsiTable.

(** The fixed table of the Generator: six layers, 6918 positions. *)
Lemma psi_slice_table_partition_witness :
  ∃ out total P,
    define_psi_slices ADAIN_LAYERS = Ok (out, total) ∧
    @Generator.projection_layer config_512 reference_runtime ADAIN_LAYERS
      = Ok (out, total, P) ∧
    shape P = [total; 512] ∧
    total = 6918 ∧
    out !! "deconv6" = Some (0, 2048) ∧
    out !! "deconv1" = Some (6784, 6918).
Proof.
  destruct (@psi_slice_table_partition config_512 reference_runtime ADAIN_LAYERS)
    as (out & total & P & Hrun & Hproj & HP & Htot & _ & Hin & _).
  - unfold od_valid. apply (bool_decide_unpack _). by vm_compute.
  - unfold widths_nonneg, ADAIN_LAYERS. repeat (constructor; [simpl; lia|]).
    constructor.
  - simpl. lia.
  - exists out, total, P.
    split; [exact Hrun|]. split; [exact Hproj|]. split; [exact HP|].
    split; [rewrite Htot; reflexivity|].
    split.
    + exact (proj1 (Hin 0%nat "deconv6" 512 512 eq_refl)).
    + exact (proj1 (Hin 5%nat "deconv1" 64 3 eq_refl)).
Defined.

(** ** Slicing the psi vector *)

Lemma clamp_index_id (n i : Z) : 0 ≤ i ≤ n → clamp_index n i = i.
Proof.
  intros Hi. unfold clamp_index.
  destruct (Z.ltb_spec i 0); lia.
Qed.

Lemma slice_dim1_spec (t : Tensor) (b n : Z) (rest : list Z) (lo hi : Z) :
  shape t = b :: n :: rest → 0 ≤ lo → lo ≤ hi → hi ≤ n →
  ∃ t', slice_dim1 t (Some lo) (Some hi) = Ok t' ∧
        shape t' = b :: (hi - lo) :: rest ∧
        ∀ i j r, data t' (i :: j :: r) = data t (i :: (lo + j) :: r).
Proof.
  intros Hs Hlo Hhi Hn. unfold slice_dim1. rewrite Hs.
  cbn [from_option]. unfold Datatypes.id.
  rewrite (clamp_index_id n lo), (clamp_index_id n hi) by lia.
  eexists. split; [reflexivity|]. split; [|reflexivity].
  cbn [shape]. f_equal. f_equal. lia.
Qed.

Lemma slice_dim1_to_end (t : Tensor) (b n : Z) (rest : list Z) (lo : Z) :
  shape t = b :: n :: rest → 0 ≤ lo → lo ≤ n →
  ∃ t', slice_dim1 t (Some lo) None = Ok t' ∧
        shape t' = b :: (n - lo) :: rest ∧
        ∀ i j r, data t' (i :: j :: r) = data t (i :: (lo + j) :: r).
Proof.
  intros Hs Hlo Hn. unfold slice_dim1. rewrite Hs.
  cbn [from_option]. unfold Datatypes.id.
  rewrite (clamp_index_id n lo), (clamp_index_id n n) by lia.
  eexists. split; [reflexivity|]. split; [|reflexivity].
  cbn [shape]. f_equal. f_equal. lia.
Qed.

Lemma unsqueeze_last_2 (t : Tensor) (b n : Z) :
  shape t = [b; n] →
  ∃ t', unsqueeze t (-1) = Ok t' ∧ shape t' = [b; n; 1] ∧
        ∀ i j k, data t' [i; j; k] = data t [i; j].
Proof.
  intros Hs. unfold unsqueeze, dim. rewrite Hs.
  eexists. split; [reflexivity|]. split; reflexivity.
Qed.

(** The row of a layer in a valid table, and its range in the psi table. *)
Lemma psi_table_segment (d : OrderedDict) (out : gmap string (Z * Z))
      (total : Z) (L : string) (len1 len2 : Z) :
    od_valid d → widths_nonneg d →
    define_psi_slices d = Ok (out, total) →
    od_get d L = Ok (len1, len2) →
    ∃ lo hi, out !! L = Some (lo, hi) ∧
             0 ≤ lo ∧ hi = lo + 2 * len1 + 2 * len2 ∧ hi ≤ total ∧
             0 ≤ len1 ∧ 0 ≤ len2.
Proof.
    intros Hnd Hw Hrun HL.
    destruct (define_psi_slices_spec d Hnd) as (out' & Hrun' & Hin & _).
    rewrite Hrun in Hrun'. injection Hrun' as <- ->.
    destruct (od_get_inv _ _ _ HL) as [k Hk].
    pose proof (psi_offset_S _ _ _ _ _ Hk) as HS.
    pose proof (psi_offset_mono d 0 k Hw ltac:(lia)) as Hlo.
    pose proof (lookup_lt_Some _ _ _ Hk) as Hlt.
    pose proof (psi_offset_mono d (S k) (length d) Hw ltac:(lia)) as Hhi.
    assert (0 ≤ len1 ∧ 0 ≤ len2) as [H1 H2].
    { unfold widths_nonneg in Hw. rewrite Forall_lookup in Hw.
      exact (Hw _ _ Hk). }
    exists (psi_offset d k), (psi_offset d (S k)).
    split; [by eapply Hin|]. lia.
Qed.

(** [slice_psi] on a segment [lo, hi) of the right length. *)
Lemma slice_psi_segment (d : OrderedDict) (out : gmap string (Z * Z))
      (psi : Tensor) (L : string) (lo hi len1 len2 B total : Z) :
    out !! L = Some (lo, hi) → od_get d L = Ok (len1, len2) →
    shape psi = [B; total] →
    0 ≤ lo → hi = lo + 2 * len1 + 2 * len2 → hi ≤ total →
    0 ≤ len1 → 0 ≤ len2 →
    ∃ mean1 std1 mean2 std2,
      slice_psi out d psi L = Ok (mean1, std1, mean2, std2) ∧
      shape mean1 = [B; len1; 1] ∧ shape std1 = [B; len1; 1] ∧
      shape mean2 = [B; len2; 1] ∧ shape std2 = [B; len2; 1] ∧
      (∀ i j, data mean1 [i; j; 0] = data psi [i; lo + j]) ∧
      (∀ i j, data std1 [i; j; 0] = data psi [i; lo + len1 + j]) ∧
      (∀ i j, data mean2 [i; j; 0] = data psi [i; lo + 2 * len1 + j]) ∧
      (∀ i j, data std2 [i; j; 0] = data psi [i; lo + 2 * len1 + len2 + j]).
Proof.
    intros Hout HL Hpsi Hlo Hhi Htot H1 H2.
    destruct (slice_dim1_spec psi B _ [] lo hi Hpsi)
      as (seg & Hseg & Hsegs & Hsegd); [lia..|].
    destruct (unsqueeze_last_2 seg _ _ Hsegs) as (aux & Haux & Hauxs & Hauxd).
    destruct (slice_dim1_spec aux B _ [1] 0 len1 Hauxs)
      as (mean1 & Hm1 & Hm1s & Hm1d); [lia..|].
    destruct (slice_dim1_spec aux B _ [1] len1 (2 * len1) Hauxs)
      as (std1 & Hs1 & Hs1s & Hs1d); [lia..|].
    destruct (slice_dim1_spec aux B _ [1] (2 * len1) (2 * len1 + len2) Hauxs)
      as (mean2 & Hm2 & Hm2s & Hm2d); [lia..|].
    destruct (slice_dim1_to_end aux B _ [1] (2 * len1 + len2) Hauxs)
      as (std2 & Hs2 & Hs2s & Hs2d); [lia..|].
    exists mean1, std1, mean2, std2.
    split.
    { unfold slice_psi, dict_get. rewrite Hout, bind_Ok. rewrite HL, bind_Ok.
      rewrite Hseg, bind_Ok, Haux, bind_Ok, Hm1, bind_Ok, Hs1, bind_Ok.
      by rewrite Hm2, bind_Ok, Hs2, bind_Ok. }
    split; [rewrite Hm1s; do 2 f_equal; lia|].
    split; [rewrite Hs1s; do 2 f_equal; lia|].
    split; [rewrite Hm2s; do 2 f_equal; lia|].
    split; [rewrite Hs2s; do 2 f_equal; lia|].
    repeat split; intros i j.
    - rewrite Hm1d, Hauxd, Hsegd. do 3 f_equal; lia.
    - rewrite Hs1d, Hauxd, Hsegd. do 3 f_equal; lia.
    - rewrite Hm2d, Hauxd, Hsegd. do 3 f_equal; lia.
    - rewrite Hs2d, Hauxd, Hsegd. do 3 f_equal; lia.
Qed.

(** C3.  Let the psi table be the one [define_psi_slices] builds from a valid
      table [d], let [psi] hold one psi vector of the table's total length per
      sample, and let layer [L] have widths [(len1, len2)] in [d].  Then
      [slice_psi] returns four tensors of sizes [len1], [len1], [len2], [len2]
      along the sliced dimension, and they are consecutive pieces of the
      segment [lo, hi) the table reserves for [L]: [mean1] starts at [lo],
      [std1] at [lo + len1], [mean2] at [lo + 2 len1], [std2] at
      [lo + 2 len1 + len2], and [std2] ends at [hi]. *)
Theorem slice_psi_four_parts (d : OrderedDict) (out : gmap string (Z * Z))
      (total : Z) (psi : Tensor) (L : string) (len1 len2 B : Z) :
    od_valid d → widths_nonneg d →
    define_psi_slices d = Ok (out, total) →
    shape psi = [B; total] →
    od_get d L = Ok (len1, len2) →
    ∃ lo hi mean1 std1 mean2 std2,
      out !! L = Some (lo, hi) ∧
      slice_psi out d psi L = Ok (mean1, std1, mean2, std2) ∧
      shape mean1 = [B; len1; 1] ∧ shape std1 = [B; len1; 1] ∧
      shape mean2 = [B; len2; 1] ∧ shape std2 = [B; len2; 1] ∧
      lo + len1 + len1 + len2 + len2 = hi ∧
      (∀ i j, data mean1 [i; j; 0] = data psi [i; lo + j]) ∧
      (∀ i j, data std1 [i; j; 0] = data psi [i; lo + len1 + j]) ∧
      (∀ i j, data mean2 [i; j; 0] = data psi [i; lo + 2 * len1 + j]) ∧
      (∀ i j, data std2 [i; j; 0] = data psi [i; lo + 2 * len1 + len2 + j]).
Proof.
    intros Hnd Hw Hrun Hpsi HL.
    destruct (psi_table_segment d out total L len1 len2 Hnd Hw Hrun HL)
      as (lo & hi & Hout & Hlo & Hhi & Htot & H1 & H2).
    destruct (slice_psi_segment d out psi L lo hi len1 len2 B total
                Hout HL Hpsi Hlo Hhi Htot H1 H2)
      as (mean1 & std1 & mean2 & std2 & Hs & S1 & S2 & S3 & S4 & Hd).
    exists lo, hi, mean1, std1, mean2, std2.
    split; [exact Hout|]. split; [exact Hs|].
    split; [exact S1|]. split; [exact S2|]. split; [exact S3|].
    split; [exact S4|]. split; [lia | exact Hd].
Qed.

(** The segment of "deconv1" in the fixed table, for a batch of two. *)
Lemma slice_psi_four_parts_witness :
  ∃ out mean1 std1 mean2 std2,
    define_psi_slices ADAIN_LAYERS = Ok (out, 6918) ∧
    slice_psi out ADAIN_LAYERS (zeros [2; 6918]) "deconv1"
      = Ok (mean1, std1, mean2, std2) ∧
    shape mean1 = [2; 64; 1] ∧ shape std1 = [2; 64; 1] ∧
    shape mean2 = [2; 3; 1] ∧ shape std2 = [2; 3; 1].
Proof.
  destruct (define_psi_slices ADAIN_LAYERS) as [[out total]|] eqn:Hrun;
    [|by vm_compute in Hrun].
  assert (total = 6918) as ->.
  { vm_compute in Hrun. by injection Hrun as _ <-. }
  destruct (slice_psi_four_parts ADAIN_LAYERS out 6918 (zeros [2; 6918])
              "deconv1" 64 3 2)
    as (lo & hi & mean1 & std1 & mean2 & std2 & _ & Hs & H1 & H2 & H3 & H4 & _).
  - unfold od_valid. apply (bool_decide_unpack _). by vm_compute.
  - unfold widths_nonneg, ADAIN_LAYERS. repeat (constructor; [simpl; lia|]).
    constructor.
  - exact Hrun.
  - reflexivity.
  - reflexivity.
  - exists out, mean1, std1, mean2, std2. by repeat split.
Defined.

(** ** Construction failures *)

(** C7.  The constructor of [DynamicAdder] raises for every argument: no
    [DynamicAdder] is ever created.  The exception comes from
    [super(DynamicAdder, self).__init__(self)], which hands [nn.Module.__init__]
    a positional argument it does not take. *)
Theorem DynamicAdder_construction_raises `{RT : Runtime} (gpu : option Z) :
  DynamicAdder.__init__ gpu = Raise TypeError ∧
  ¬ is_ok (DynamicAdder.__init__ gpu).
Proof.
  split; [reflexivity|]. intros [self Hself]. discriminate Hself.
Qed.

(** The sibling constructor, which calls [super().__init__()] without the
    extra argument, returns. *)
Lemma MotionEncoder_construction_returns `{RT : Runtime} (gpu : option Z) :
  is_ok (MotionEncoder.__init__ gpu).
Proof. eexists. reflexivity. Qed.

Lemma define_psi_slices_fixed :
  ∃ out, define_psi_slices ADAIN_LAYERS = Ok (out, 6918).
Proof. eexists. vm_compute. reflexivity. Qed.

(** C1.  The constructor of [Generator] raises for every argument and every
    configuration: with a non-negative embedding length it gets as far as
    [nn.Parameter(512, 512)], which is handed an integer where a tensor is
    due. *)
Theorem Generator_construction_raises `{CF : Config} `{RT : Runtime}
    (gpu : option Z) :
  Generator.__init__ gpu
    = Raise (if 0 <=? E_VECTOR_LENGTH then TypeError else RuntimeError) ∧
  ¬ is_ok (Generator.__init__ gpu).
Proof.
  assert (Generator.__init__ gpu
    = Raise (if 0 <=? E_VECTOR_LENGTH then TypeError else RuntimeError)) as H.
  { unfold Generator.__init__, Generator.projection_layer.
    destruct define_psi_slices_fixed as [out Hout].
    cbn [Module___init__]. rewrite bind_Ok, Hout, bind_Ok.
    unfold torch_rand. cbn [forallb].
    change (0 <=? 6918) with true. cbn [andb].
    rewrite andb_true_r.
    destruct (0 <=? E_VECTOR_LENGTH); reflexivity. }
  split; [exact H|]. intros [self Hself]. rewrite Hself in H.
  destruct (0 <=? E_VECTOR_LENGTH); discriminate H.
Qed.

(** ** The Motion Encoder *)

(** With layers that check the number of channels, the encoder stops at its
    first normalization, which is handed the 3-channel input. *)
Example MotionEncoder_forward_stops :
  ∃ self, @MotionEncoder.__init__ reference_runtime None = Ok self ∧
    @MotionEncoder.forward reference_runtime self (zeros [1; 1; 3; 64; 64])
      = Raise ValueError.
Proof. eexists. split; reflexivity. Qed.

(** On the same input the chained encoder of the specification gets past
    all four normalizations and stops later, at the linear layer. *)
Example MotionEncoder_forward_not_chained :
  ∃ self, @MotionEncoder.__init__ reference_runtime None = Ok self ∧
    @MotionEncoder.forward_chained reference_runtime self
      (zeros [1; 1; 3; 64; 64]) = Raise RuntimeError ∧
    @MotionEncoder.forward reference_runtime self (zeros [1; 1; 3; 64; 64])
    ≠ @MotionEncoder.forward_chained reference_runtime self
        (zeros [1; 1; 3; 64; 64]).
Proof.
  eexists. split; [reflexivity|]. split; [reflexivity | discriminate].
Qed.

(** ** Weight initialisation *)

Lemma nnModule_ind (P : nnModule → Prop) :
  (∀ cls args w b cs, Forall P cs → P (mkModule cls args w b cs)) →
  ∀ m, P m.
Proof.
  intros Hnode. fix IH 1. intros [cls args w b cs]. apply Hnode.
  induction cs as [|c cs IHcs]; constructor; [apply IH | exact IHcs].
Qed.

(** What one call of [weights_init] does to a layer, by the substrings of its
    class name. *)
Lemma weights_init_spec (m m' : nnModule) :
  weights_init m = Ok m' →
  class_name m' = class_name m ∧ ctor_args m' = ctor_args m ∧
  children m' = children m ∧
  weight m' =
    (λ h, (if negb (find (class_name m) "Linear" =? -1) then [XavierUniform]
           else if negb (find (class_name m) "InstanceNorm2d" =? -1)
                then [Normal 1.0 0.02] else []) ++
          (if negb (find (class_name m) "Conv2d" =? -1)
           then [Normal 0.0 0.02] else []) ++ h) <$> weight m ∧
  bias m' =
    (λ h, (if negb (find (class_name m) "Linear" =? -1) ||
              negb (find (class_name m) "InstanceNorm2d" =? -1)
           then [Fill 0] else []) ++ h) <$> bias m.
Proof.
  unfold weights_init, weight_init, bias_init.
  destruct m as [cls args w b cs]. cbn [class_name ctor_args weight bias children].
  destruct (negb (find cls "Conv2d" =? -1)),
           (negb (find cls "Linear" =? -1)),
           (negb (find cls "InstanceNorm2d" =? -1)),
           w as [h|], b as [hb|];
    cbn; intros Hm; try discriminate Hm; injection Hm as <-; by cbn.
Qed.

Lemma weights_init_untouched (m : nnModule) :
  find (class_name m) "Conv2d" = -1 →
  find (class_name m) "Linear" = -1 →
  find (class_name m) "InstanceNorm2d" = -1 →
  weights_init m = Ok m.
Proof.
  intros Hc Hl Hn. unfold weights_init. rewrite Hc, Hl, Hn.
  by destruct m.
Qed.

Lemma Module_apply_applied (fn : nnModule → result nnModule) (m m' : nnModule) :
  Module_apply fn m = Ok m' → applied fn m m'.
Proof.
  revert m'. induction m as [cls args w b cs IH] using nnModule_ind.
  intros m' Hm. cbn [Module_apply] in Hm.
  apply bind_inv in Hm as (cs' & Hcs & Hfn).
  apply (applied_node fn _ cs'); [|exact Hfn].
  cbn [children] in *. clear Hfn. revert cs' Hcs.
  induction IH as [|c cs Hc _ IHcs]; intros cs' Hcs.
  - injection Hcs as <-. constructor.
  - apply bind_inv in Hcs as (c' & Hc' & Hcs).
    apply bind_inv in Hcs as (cs'' & Hcs'' & Hcs).
    injection Hcs as <-. constructor; [by apply Hc | by apply IHcs].
Qed.

(** The root of a tree keeps its class and its constructor arguments. *)
Lemma Module_apply_root (m m' : nnModule) :
  Module_apply weights_init m = Ok m' →
  class_name m' = class_name m ∧ ctor_args m' = ctor_args m.
Proof.
  intros Hm. apply Module_apply_applied in Hm.
  destruct Hm as [m cs' m' _ Hfn].
  apply weights_init_spec in Hfn as (Hc & Ha & _). by destruct m.
Qed.

(** After [apply(weights_init)], the layers of the tree are those it had
    before, in the same order, each one initialised by one call. *)
Lemma applied_modules (m m' : nnModule) :
  applied weights_init m m' →
  Forall2 (λ a a', weights_init (with_children a (children a')) = Ok a')
          (modules m) (modules m').
Proof.
  revert m'. induction m as [cls args w b cs IH] using nnModule_ind.
  intros m' Hm. inversion Hm as [m0 cs' m1 Hcs Hfn]; subst.
  pose proof (weights_init_spec _ _ Hfn) as (_ & _ & Hch & _).
  cbn [children with_children] in Hch, Hcs.
  destruct m' as [cls1 args1 w1 b1 cs1].
  cbn [children] in *. subst cs1.
  cbn [modules children].
  apply Forall2_app.
  - clear Hfn Hm. revert cs' Hcs.
    induction IH as [|c cs2 Hc _ IHcs]; intros cs' Hcs.
    + inversion Hcs. constructor.
    + inversion Hcs as [|? c' ? cs'' Hc' Hcs']; subst.
      cbn [flat_map]. apply Forall2_app; [by apply Hc | by apply IHcs].
  - constructor; [exact Hfn | constructor].
Qed.

Section Construction.
Context `{CF : Config} `{RT : Runtime}.

Lemma to_gpu_inv {A} (gpu : option Z) (a a' : A) :
  to_gpu gpu a = Ok a' →
  a' = a ∧ ∀ B (b : B), to_gpu gpu b = Ok b.
Proof.
  unfold to_gpu, cuda. destruct gpu as [dev|].
  - destruct (cuda_available dev); [|discriminate].
    intros [= <-]. done.
  - intros [= <-]. done.
Qed.

Lemma Embedder_apply_children fn (s s' : Embedder.t) :
  Embedder.apply fn s = Ok s' →
  Forall2 (λ a a', Module_apply fn a = Ok a')
          (Embedder.children s) (Embedder.children s').
Proof.
  unfold Embedder.apply. intros H.
  repeat (apply bind_inv in H as (? & ? & H)).
  injection H as <-. unfold Embedder.children. cbn.
  repeat (constructor; [assumption|]). constructor.
Qed.

Lemma Discriminator_apply_children fn (s s' : Discriminator.t) :
  Discriminator.apply fn s = Ok s' →
  Forall2 (λ a a', Module_apply fn a = Ok a')
          (Discriminator.children s) (Discriminator.children s') ∧
  Discriminator.W s' = Discriminator.W s ∧
  Discriminator.w_0 s' = Discriminator.w_0 s ∧
  Discriminator.b s' = Discriminator.b s.
Proof.
  unfold Discriminator.apply. intros H.
  repeat (apply bind_inv in H as (? & ? & H)).
  injection H as <-. unfold Discriminator.children. cbn.
  split; [|done].
  repeat (constructor; [assumption|]). constructor.
Qed.

Lemma Generator_apply_children fn (s s' : Generator.t) :
  Generator.apply fn s = Ok s' →
  Forall2 (λ a a', Module_apply fn a = Ok a')
          (Generator.children s) (Generator.children s').
Proof.
  unfold Generator.apply. intros H.
  repeat (apply bind_inv in H as (? & ? & H)).
  injection H as <-. unfold Generator.children. cbn.
  repeat (constructor; [assumption|]). constructor.
Qed.

Lemma Embedder_init_inv (gpu : option Z) (self : Embedder.t) :
  Embedder.__init__ gpu = Ok self →
  Forall2 (λ a a', Module_apply weights_init a = Ok a')
          (Embedder.children Embedder.layers) (Embedder.children self) ∧
  Embedder.gpu self = gpu ∧
  ∀ B (b : B), to_gpu gpu b = Ok b.
Proof.
  unfold Embedder.__init__. cbn [Module___init__]. rewrite bind_Ok.
  intros H. apply bind_inv in H as (s0 & Happ & H).
  apply to_gpu_inv in H as [-> Hgpu].
  split; [|done]. exact (Embedder_apply_children _ _ _ Happ).
Qed.

Lemma Discriminator_init_inv (n : Z) (gpu : option Z) (self : Discriminator.t) :
  Discriminator.__init__ n gpu = Ok self →
  Forall2 (λ a a', Module_apply weights_init a = Ok a')
          (Discriminator.children
             (Discriminator.layers (Discriminator.W self)
                (Discriminator.w_0 self) (Discriminator.b self)))
          (Discriminator.children self) ∧
  0 ≤ n ∧
  shape (Discriminator.W self) = [512; n] ∧
  shape (Discriminator.w_0 self) = [512; 1] ∧
  shape (Discriminator.b self) = [1] ∧
  Discriminator.gpu self = gpu ∧
  ∀ B (b : B), to_gpu gpu b = Ok b.
Proof.
  unfold Discriminator.__init__. cbn [Module___init__]. rewrite bind_Ok.
  unfold torch_rand. cbn [forallb].
  destruct (Z.leb_spec 0 n) as [Hn|Hn]; [|discriminate].
  change (0 <=? 512) with true. change (0 <=? 1) with true.
  cbn [andb nn_Parameter]. rewrite !bind_Ok.
  intros H. apply bind_inv in H as (s0 & Happ & H).
  apply to_gpu_inv in H as [-> Hgpu].
  apply Discriminator_apply_children in Happ as (Hch & HW & Hw0 & Hb).
  cbn [Discriminator.set_gpu Discriminator.W Discriminator.w_0
       Discriminator.b Discriminator.gpu].
  rewrite HW, Hw0, Hb. cbn [Discriminator.layers Discriminator.W
       Discriminator.w_0 Discriminator.b normal_ shape].
  repeat split; try done.
Qed.

Lemma Generator_decoding_layers_inv P n proj sfc (gpu : option Z)
    (self : Generator.t) :
  Generator.decoding_layers P n proj sfc gpu = Ok self →
  Forall2 (λ a a', Module_apply weights_init a = Ok a')
          (Generator.children (Generator.layers P n proj sfc))
          (Generator.children self).
Proof.
  unfold Generator.decoding_layers. intros H.
  apply bind_inv in H as (s0 & Happ & H).
  apply to_gpu_inv in H as [-> Hgpu].
  exact (Generator_apply_children _ _ _ Happ).
Qed.

(** The constructor of [Generator] returns for no argument: it stops at
    [nn.Parameter(512, 512)], or before it at [torch.rand] when the configured
    embedding length is negative. *)
Lemma Generator_init_never_returns (gpu : option Z) :
  ¬ is_ok (Generator.__init__ gpu).
Proof.
  intros [self Hself]. revert Hself.
  unfold Generator.__init__, Generator.projection_layer.
  destruct define_psi_slices_fixed as [out Hout].
  cbn [Module___init__]. rewrite bind_Ok, Hout, bind_Ok.
  unfold torch_rand. cbn [forallb].
  change (0 <=? 6918) with true. cbn [andb]. rewrite andb_true_r.
  destruct (0 <=? E_VECTOR_LENGTH); discriminate.
Qed.

(** C9.  [weights_init] writes a convolution's weight from Normal(0, 0.02)
    and leaves its bias alone, writes a linear layer's weight with the
    Xavier-uniform initialiser and fills its bias with 0, and writes an
    instance normalization's weight from Normal(1, 0.02) and fills its bias
    with 0; a layer fresh from its own constructor thus carries exactly one
    initialisation of each touched attribute.  [apply(weights_init)] runs it
    once on every layer of a tree of layers.  The constructors of the
    Embedder and of the Discriminator, when they return, hold for every
    layer they created the outcome of that [apply].  The constructor of the
    Generator does not: it returns for no argument, raising before it
    reaches its [self.apply(weights_init)], so that no layer of a Generator
    is ever initialised; only the statements of the constructor from
    "decoding layers" on, run by themselves on attributes supplied from
    outside, would apply the policy to the fourteen layers. *)
Theorem weights_init_policy_applied_once :
  (∀ args h b cs,
     weights_init (mkModule "Conv2d" args (Some h) b cs)
     = Ok (mkModule "Conv2d" args (Some (Normal 0.0 0.02 :: h)) b cs)) ∧
  (∀ args h hb cs,
     weights_init (mkModule "Linear" args (Some h) (Some hb) cs)
     = Ok (mkModule "Linear" args (Some (XavierUniform :: h))
                    (Some (Fill 0 :: hb)) cs)) ∧
  (∀ args h hb cs,
     weights_init (mkModule "InstanceNorm2d" args (Some h) (Some hb) cs)
     = Ok (mkModule "InstanceNorm2d" args (Some (Normal 1.0 0.02 :: h))
                    (Some (Fill 0 :: hb)) cs)) ∧
  (∀ m m', Module_apply weights_init m = Ok m' →
     Forall2 (λ a a', weights_init (with_children a (children a')) = Ok a')
             (modules m) (modules m')) ∧
  (∀ gpu self, Embedder.__init__ gpu = Ok self →
     Forall2 (λ a a', Module_apply weights_init a = Ok a')
             (Embedder.children Embedder.layers) (Embedder.children self)) ∧
  (∀ n gpu self, Discriminator.__init__ n gpu = Ok self →
     Forall2 (λ a a', Module_apply weights_init a = Ok a')
             (Discriminator.children
                (Discriminator.layers (Discriminator.W self)
                   (Discriminator.w_0 self) (Discriminator.b self)))
             (Discriminator.children self)) ∧
  (∀ gpu, ¬ is_ok (Generator.__init__ gpu)) ∧
  (∀ P n proj sfc gpu self,
     Generator.decoding_layers P n proj sfc gpu = Ok self →
     Forall2 (λ a a', Module_apply weights_init a = Ok a')
             (Generator.children (Generator.layers P n proj sfc))
             (Generator.children self)).
Proof.
  split; [reflexivity|]. split; [reflexivity|]. split; [reflexivity|].
  split.
  { intros m m' Hm. by apply applied_modules, Module_apply_applied. }
  split.
  { intros gpu self Hself. by apply Embedder_init_inv in Hself as [? _]. }
  split.
  { intros n gpu self Hself.
    by apply Discriminator_init_inv in Hself as [? _]. }
  split; [exact Generator_init_never_returns|].
  intros P n proj sfc gpu self Hself.
  by eapply Generator_decoding_layers_inv.
Qed.
End Construction.

(** ** Shapes through the tensor functions *)

Lemma sigmoid_unit_valued (t : Tensor) : unit_valued (sigmoid t).
Proof.
  intros idx. cbn [sigmoid pointwise data].
  pose proof (exp_pos (- data t idx)).
  split.
  - left. apply Rinv_0_lt_compat. lra.
  - rewrite <- Rinv_1. apply Rinv_le_contravar; lra.
Qed.

Lemma view_unit_valued (t t' : Tensor) (sizes : list Z) :
  view t sizes = Ok t' → unit_valued t → unit_valued t'.
Proof.
  unfold view. intros H Ht.
  apply bind_inv in H as (s & _ & H). injection H as <-.
  intros idx. apply Ht.
Qed.

Lemma cat1_same (x y : Tensor) (B C H W : Z) :
  shape x = [B; C; H; W] → shape y = [B; C; H; W] →
  ∃ t, cat1 x y = Ok t ∧ shape t = [B; C + C; H; W].
Proof.
  intros Hx Hy. unfold cat1. rewrite Hx, Hy.
  rewrite bool_decide_eq_true_2 by done.
  eexists. split; reflexivity.
Qed.

Lemma infer_size_pooled (B : Z) :
  infer_size [-1; 512; 1] (B * (512 * (1 * (1 * 1)))) = Ok [B; 512; 1].
Proof.
  unfold infer_size.
  change (existsb _ [-1; 512; 1]) with false. cbv iota.
  change (length (filter (λ s, s = -1) [-1; 512; 1])) with 1%nat. cbv iota.
  change (filter (λ s, s ≠ -1) [-1; 512; 1]) with [512; 1].
  change (prod [512; 1]) with 512.
  replace (B * (512 * (1 * (1 * 1)))) with (B * 512) by lia.
  rewrite Z.mod_mul, Z.div_mul by lia.
  reflexivity.
Qed.

Lemma view_pooled (t : Tensor) (B : Z) :
  shape t = [B; 512; 1; 1] →
  ∃ t', view t [-1; 512; 1] = Ok t' ∧ shape t' = [B; 512; 1].
Proof.
  intros Hs. unfold view, numel. rewrite Hs. cbn [prod].
  rewrite infer_size_pooled, bind_Ok. eexists. split; reflexivity.
Qed.

Lemma transpose_12 (t : Tensor) (a b c : Z) :
  shape t = [a; b; c] →
  ∃ t', transpose t 1 2 = Ok t' ∧ shape t' = [a; c; b].
Proof.
  intros Hs. unfold transpose, dim. rewrite Hs.
  eexists. split; reflexivity.
Qed.

Lemma transpose_01_rank3 (t : Tensor) (a b c : Z) :
  shape t = [a; b; c] →
  ∃ t', transpose t 0 1 = Ok t' ∧ shape t' = [b; a; c].
Proof.
  intros Hs. unfold transpose, dim. rewrite Hs.
  eexists. split; reflexivity.
Qed.

Lemma transpose_01_rank2 (t : Tensor) (a b : Z) :
  shape t = [a; b] →
  ∃ t', transpose t 0 1 = Ok t' ∧ shape t' = [b; a].
Proof.
  intros Hs. unfold transpose, dim. rewrite Hs.
  eexists. split; reflexivity.
Qed.

Lemma unsqueeze_last_1 (t : Tensor) (a : Z) :
  shape t = [a] →
  ∃ t', unsqueeze t (-1) = Ok t' ∧ shape t' = [a; 1].
Proof.
  intros Hs. unfold unsqueeze, dim. rewrite Hs.
  eexists. split; reflexivity.
Qed.

Lemma wrap_index_in_range (n i : Z) :
  - n ≤ i < n → wrap_index n i = Ok (selected_column n i).
Proof.
  intros Hi. unfold wrap_index, selected_column.
  destruct (Z.leb_spec 0 i), (Z.ltb_spec i n), (Z.leb_spec (- n) i),
           (Z.ltb_spec i 0); cbn; try reflexivity; lia.
Qed.

Lemma wrap_index_out_of_range (n i : Z) :
  ¬ (- n ≤ i < n) → wrap_index n i = Raise IndexError.
Proof.
  intros Hi. unfold wrap_index.
  destruct (Z.leb_spec 0 i), (Z.ltb_spec i n), (Z.leb_spec (- n) i),
           (Z.ltb_spec i 0); cbn; try reflexivity; lia.
Qed.

Lemma mapM_wrap_index_in_range (n : Z) (l : list Z) :
  Forall (λ v, - n ≤ v < n) l →
  mapM (wrap_index n) l = Ok (selected_column n <$> l).
Proof.
  induction 1 as [|v l Hv _ IH]; [reflexivity|].
  cbn [mapM]. rewrite (wrap_index_in_range _ _ Hv), bind_Ok.
  cbn [mapM] in IH. rewrite IH. reflexivity.
Qed.

Lemma mapM_wrap_index_out_of_range (n : Z) (l : list Z) :
  Exists (λ v, ¬ (- n ≤ v < n)) l →
  mapM (wrap_index n) l = Raise IndexError.
Proof.
  induction 1 as [v l Hv|v l _ IH].
  - cbn [mapM]. by rewrite (wrap_index_out_of_range _ _ Hv).
  - cbn [mapM]. cbn [mapM] in IH.
    destruct (wrap_index n v) as [c|e] eqn:Hc.
    + rewrite bind_Ok, IH. reflexivity.
    + unfold wrap_index in Hc.
      destruct ((0 <=? v) && (v <? n)); [discriminate|].
      destruct ((- n <=? v) && (v <? 0)); [discriminate|].
      by injection Hc as <-.
Qed.

Lemma select_columns_tensor (t : Tensor) (r n : Z) (l : list Z) :
  shape t = [r; n] → Forall (λ v, - n ≤ v < n) l →
  ∃ c, select_columns t (TensorIndex l) = Ok c ∧
       shape c = [r; Z.of_nat (length l)] ∧
       ∀ a j, data c [a; j]
              = data t [a; nth (Z.to_nat j) (selected_column n <$> l) 0].
Proof.
  intros Hs Hl. unfold select_columns. rewrite Hs.
  rewrite (mapM_wrap_index_in_range _ _ Hl), bind_Ok.
  eexists. split; [reflexivity|]. split; reflexivity.
Qed.

Lemma select_columns_int (t : Tensor) (r n i : Z) :
  shape t = [r; n] → - n ≤ i < n →
  ∃ c, select_columns t (IntIndex i) = Ok c ∧ shape c = [r] ∧
       ∀ a, data c [a] = data t [a; selected_column n i].
Proof.
  intros Hs Hi. unfold select_columns. rewrite Hs.
  rewrite (wrap_index_in_range _ _ Hi), bind_Ok.
  eexists. split; [reflexivity|]. split; reflexivity.
Qed.

(** An index outside [-n, n), alone or among others, is an [IndexError]. *)
Lemma select_columns_out_of_range (t : Tensor) (r n : Z) (i : Index) :
  shape t = [r; n] →
  match i with
  | IntIndex v => ¬ (- n ≤ v < n)
  | TensorIndex l => Exists (λ v, ¬ (- n ≤ v < n)) l
  end →
  select_columns t i = Raise IndexError.
Proof.
  intros Hs Hi. unfold select_columns. rewrite Hs.
  destruct i as [v|l].
  - by rewrite (wrap_index_out_of_range _ _ Hi).
  - by rewrite (mapM_wrap_index_out_of_range _ _ Hi).
Qed.

Lemma add_shapes (x y : Tensor) (s : list Z) :
  broadcast_shapes (shape x) (shape y) = Ok s →
  ∃ t, add x y = Ok t ∧ shape t = s.
Proof.
  intros Hs. unfold add. rewrite Hs, bind_Ok.
  eexists. split; reflexivity.
Qed.

Lemma bmm_shapes (x y : Tensor) (B n m p : Z) :
  shape x = [B; n; m] → shape y = [B; m; p] →
  ∃ t, bmm x y = Ok t ∧ shape t = [B; n; p].
Proof.
  intros Hx Hy. unfold bmm. rewrite Hx, Hy, !Z.eqb_refl.
  eexists. split; reflexivity.
Qed.

(** [torch.bmm] takes three-dimensional tensors only. *)
Lemma bmm_rank2_raises (x y : Tensor) (r c : Z) :
  shape y = [r; c] → bmm x y = Raise RuntimeError.
Proof.
  intros Hy. unfold bmm. rewrite Hy.
  by destruct (shape x) as [|? [|? [|? [|? ?]]]].
Qed.

Lemma reshape_scores (t : Tensor) (B : Z) :
  shape t = [B; 1; 1] → 0 ≤ B →
  ∃ t', reshape t [B] = Ok t' ∧ shape t' = [B] ∧
        (unit_valued t → unit_valued t').
Proof.
  intros Hs HB.
  assert (infer_size [B] (numel t) = Ok [B]) as Hinf.
  { unfold infer_size, numel. rewrite Hs. cbn [existsb prod].
    replace (B <? -1) with false by (symmetry; apply Z.ltb_ge; lia).
    cbn [orb]. rewrite filter_cons_False by lia. rewrite filter_nil.
    cbn [length].
    replace (B * 1 =? B * (1 * (1 * 1))) with true
      by (symmetry; apply Z.eqb_eq; lia).
    reflexivity. }
  destruct (view t [B]) as [t'|e] eqn:Hv.
  - exists t'. split; [exact Hv|]. split.
    + unfold view in Hv. rewrite Hinf, bind_Ok in Hv. by injection Hv as <-.
    + by eapply view_unit_valued.
  - unfold view in Hv. rewrite Hinf, bind_Ok in Hv. discriminate Hv.
Qed.

(** ** The Discriminator *)

Section DiscriminatorForward.
Context `{RT : Runtime}.

(** The score of a batch of [B] pooled feature vectors, for one video index
    per sample. *)
Lemma realism_score_tensor (self : Discriminator.t) (x out : Tensor)
    (n B : Z) (rest l : list Z) :
  shape (Discriminator.W self) = [512; n] →
  shape (Discriminator.w_0 self) = [512; 1] →
  shape (Discriminator.b self) = [1] →
  shape x = B :: rest → 0 ≤ B →
  shape out = [B; 512; 1] →
  Z.of_nat (length l) = B → Forall (λ v, - n ≤ v < n) l →
  ∃ score, Discriminator.realism_score self x out (TensorIndex l) = Ok score ∧
           shape score = [B] ∧ unit_valued score.
Proof.
  intros HW Hw0 Hb Hx HB Hout Hlen Hl. unfold Discriminator.realism_score.
  destruct (transpose_12 _ _ _ _ Hout) as (_out & -> & Hs1). rewrite bind_Ok.
  destruct (select_columns_tensor _ _ _ _ HW Hl) as (c & -> & Hs2 & _). rewrite bind_Ok.
  rewrite Hlen in Hs2.
  destruct (unsqueeze_last_2 _ _ _ Hs2) as (c' & -> & Hs3 & _). rewrite bind_Ok.
  destruct (transpose_01_rank3 _ _ _ _ Hs3) as (_W_i & -> & Hs4). rewrite bind_Ok.
  destruct (add_shapes _W_i (Discriminator.w_0 self) [B; 512; 1])
    as (w & -> & Hs5); [by rewrite Hs4, Hw0|]. rewrite bind_Ok.
  destruct (bmm_shapes _ _ _ _ _ _ Hs1 Hs5) as (o & -> & Hs6). rewrite bind_Ok.
  destruct (add_shapes o (Discriminator.b self) [B; 1; 1])
    as (o' & -> & Hs7); [by rewrite Hs6, Hb|].
  rewrite bind_Ok. unfold size. rewrite Hx. cbn [lookup list_lookup].
  rewrite bind_Ok.
  destruct (reshape_scores (sigmoid o') B) as (score & -> & Hs8 & Hu);
    [exact Hs7 | exact HB |].
  exists score. split; [reflexivity|]. split; [exact Hs8|].
  apply Hu, sigmoid_unit_valued.
Qed.

(** With a Python integer for index the selected column has one dimension
    too few for the batched product. *)
Lemma realism_score_int (self : Discriminator.t) (x out : Tensor)
    (n B i : Z) :
  shape (Discriminator.W self) = [512; n] →
  shape (Discriminator.w_0 self) = [512; 1] →
  shape out = [B; 512; 1] →
  - n ≤ i < n →
  Discriminator.realism_score self x out (IntIndex i) = Raise RuntimeError.
Proof.
  intros HW Hw0 Hout Hi. unfold Discriminator.realism_score.
  destruct (transpose_12 _ _ _ _ Hout) as (_out & -> & Hs1). rewrite bind_Ok.
  destruct (select_columns_int _ _ _ _ HW Hi) as (c & -> & Hs2 & _). rewrite bind_Ok.
  destruct (unsqueeze_last_1 _ _ Hs2) as (c' & -> & Hs3). rewrite bind_Ok.
  destruct (transpose_01_rank2 _ _ _ Hs3) as (_W_i & -> & Hs4). rewrite bind_Ok.
  destruct (add_shapes _W_i (Discriminator.w_0 self) [512; 512])
    as (w & -> & Hs5); [by rewrite Hs4, Hw0|]. rewrite bind_Ok.
  by rewrite (bmm_rank2_raises _ _ _ _ Hs5).
Qed.

Lemma realism_score_out_of_range (self : Discriminator.t) (x out : Tensor)
    (n B : Z) (i : Index) :
  shape (Discriminator.W self) = [512; n] →
  shape out = [B; 512; 1] →
  match i with
  | IntIndex v => ¬ (- n ≤ v < n)
  | TensorIndex l => Exists (λ v, ¬ (- n ≤ v < n)) l
  end →
  Discriminator.realism_score self x out i = Raise IndexError.
Proof.
  intros HW Hout Hi. unfold Discriminator.realism_score.
  destruct (transpose_12 _ _ _ _ Hout) as (_out & -> & Hs1). rewrite bind_Ok.
  by rewrite (select_columns_out_of_range _ _ _ _ HW Hi).
Qed.
End DiscriminatorForward.

Lemma half_ge (k n : Z) : 2 * k ≤ n → k ≤ n `div` 2.
Proof. intros Hk. apply Z.div_le_lower_bound; lia. Qed.

Lemma assert_rank4_rgb (x : Tensor) (B H W : Z) :
  shape x = [B; 3; H; W] →
  assert ((dim x =? 4) && (nth 1 (shape x) 0 =? 3)) = Ok tt.
Proof. intros Hx. unfold dim. by rewrite Hx. Qed.

Lemma assert_rank4_rgb_fails (x : Tensor) :
  dim x ≠ 4 ∨ nth 1 (shape x) 0 ≠ 3 →
  assert ((dim x =? 4) && (nth 1 (shape x) 0 =? 3)) = Raise AssertionError.
Proof.
  intros Hx.
  destruct (Z.eqb_spec (dim x) 4), (Z.eqb_spec (nth 1 (shape x) 0) 3);
    cbn; try reflexivity.
  destruct Hx; contradiction.
Qed.

Section DiscriminatorTheorems.
Context `{RT : Runtime}.

Lemma Discriminator_layers_of_init (n : Z) (gpu : option Z)
    (self : Discriminator.t) :
  Discriminator.__init__ n gpu = Ok self →
  is_layer (Discriminator.conv1 self) "ResidualBlockDown" [6; 64] ∧
  is_layer (Discriminator.conv2 self) "ResidualBlockDown" [64; 128] ∧
  is_layer (Discriminator.conv3 self) "ResidualBlockDown" [128; 256] ∧
  is_layer (Discriminator.att self) "SelfAttention" [256] ∧
  is_layer (Discriminator.conv4 self) "ResidualBlockDown" [256; 512] ∧
  is_layer (Discriminator.conv5 self) "ResidualBlockDown" [512; 512] ∧
  is_layer (Discriminator.conv6 self) "ResidualBlockDown" [512; 512] ∧
  is_layer (Discriminator.res_block self) "ResidualBlock" [512] ∧
  is_layer (Discriminator.pooling self) "AdaptiveMaxPool2d" [1; 1].
Proof.
  intros Hinit.
  destruct (Discriminator_init_inv _ _ _ Hinit) as (Hch & _).
  unfold Discriminator.children, Discriminator.layers in Hch.
  cbn [Discriminator.conv1 Discriminator.conv2 Discriminator.conv3
       Discriminator.att Discriminator.conv4 Discriminator.conv5
       Discriminator.conv6 Discriminator.res_block Discriminator.pooling]
    in Hch.
  repeat (apply Forall2_cons_1 in Hch as [?Hm Hch]).
  repeat match goal with
         | H : Module_apply weights_init _ = Ok _ |- _ =>
             apply Module_apply_root in H as [? ?]
         end.
  unfold is_layer. repeat split; assumption.
Qed.

(** The encoder half of [forward]: eight feature maps, the last one pooled
    to one vector of 512 features per sample. *)
Lemma Discriminator_encode (n : Z) (gpu : option Z) (self : Discriminator.t)
    (x y : Tensor) (B H W : Z) :
  Discriminator.__init__ n gpu = Ok self → shape_contracts →
  shape x = [B; 3; H; W] → shape y = shape x →
  0 ≤ B → 128 ≤ H → 128 ≤ W →
  ∃ feats out,
    length feats = 8%nat ∧ shape out = [B; 512; 1] ∧
    ∀ i, Discriminator.forward self x y i
         = (score ← Discriminator.realism_score self x out i;
            Ok (score, feats)).
Proof.
  intros Hinit HC Hx Hy HB HH HW.
  destruct (Discriminator_layers_of_init _ _ _ Hinit)
    as (L1 & L2 & L3 & La & L4 & L5 & L6 & Lr & Lp).
  destruct (Discriminator_init_inv _ _ _ Hinit)
    as (_ & _ & _ & _ & _ & Hgpu & Hdev).
  destruct (cat1_same x y B 3 H W Hx ltac:(congruence)) as (c & Hc & Hcs).
  change (3 + 3) with 6 in Hcs.
  set (h1 := H `div` 2). set (w1 := W `div` 2).
  set (h2 := h1 `div` 2). set (w2 := w1 `div` 2).
  set (h3 := h2 `div` 2). set (w3 := w2 `div` 2).
  set (h4 := h3 `div` 2). set (w4 := w3 `div` 2).
  set (h5 := h4 `div` 2). set (w5 := w4 `div` 2).
  set (h6 := h5 `div` 2). set (w6 := w5 `div` 2).
  assert (64 ≤ h1) by (apply half_ge; lia).
  assert (32 ≤ h2) by (apply half_ge; lia).
  assert (16 ≤ h3) by (apply half_ge; lia).
  assert (8 ≤ h4) by (apply half_ge; lia).
  assert (4 ≤ h5) by (apply half_ge; lia).
  assert (2 ≤ h6) by (apply half_ge; lia).
  assert (64 ≤ w1) by (apply half_ge; lia).
  assert (32 ≤ w2) by (apply half_ge; lia).
  assert (16 ≤ w3) by (apply half_ge; lia).
  assert (8 ≤ w4) by (apply half_ge; lia).
  assert (4 ≤ w5) by (apply half_ge; lia).
  assert (2 ≤ w6) by (apply half_ge; lia).
  destruct (down_contract HC _ _ _ B H W L1 HB ltac:(lia) ltac:(lia) c Hcs)
    as (o0 & E0 & S0).
  destruct (down_contract HC _ _ _ B h1 w1 L2 HB ltac:(lia) ltac:(lia) o0 S0)
    as (o1 & E1 & S1).
  destruct (down_contract HC _ _ _ B h2 w2 L3 HB ltac:(lia) ltac:(lia) o1 S1)
    as (o2 & E2 & S2).
  destruct (attention_contract HC _ _ B h3 w3 La HB ltac:(lia) ltac:(lia)
              o2 S2) as (o3 & E3 & S3).
  destruct (down_contract HC _ _ _ B h3 w3 L4 HB ltac:(lia) ltac:(lia) o3 S3)
    as (o4 & E4 & S4).
  destruct (down_contract HC _ _ _ B h4 w4 L5 HB ltac:(lia) ltac:(lia) o4 S4)
    as (o5 & E5 & S5).
  destruct (down_contract HC _ _ _ B h5 w5 L6 HB ltac:(lia) ltac:(lia) o5 S5)
    as (o6 & E6 & S6).
  destruct (residual_contract HC _ _ B h6 w6 Lr HB ltac:(lia) ltac:(lia)
              o6 S6) as (o7 & E7 & S7).
  destruct (pooling_contract HC _ B 512 h6 w6 Lp HB ltac:(lia) ltac:(lia)
              ltac:(lia) o7 S7) as (p & Ep & Sp).
  destruct (view_pooled (relu p) B Sp) as (v & Ev & Sv).
  exists [o0; o1; o2; o3; o4; o5; o6; o7], v.
  split; [reflexivity|]. split; [exact Sv|].
  intros i. unfold Discriminator.forward.
  rewrite (assert_rank4_rgb x B H W Hx), bind_Ok.
  rewrite Hy. rewrite bool_decide_eq_true_2 by done.
  cbn [assert]. rewrite bind_Ok.
  rewrite Hgpu, !Hdev, !bind_Ok.
  rewrite Hc, bind_Ok, E0, bind_Ok, E1, bind_Ok, E2, bind_Ok, E3, bind_Ok.
  rewrite E4, bind_Ok, E5, bind_Ok, E6, bind_Ok, E7, bind_Ok, Ep, bind_Ok.
  rewrite Ev, bind_Ok. reflexivity.
Qed.
End DiscriminatorTheorems.

Section DiscriminatorClaims.
Context `{RT : Runtime}.

Lemma Discriminator_rejects (self : Discriminator.t) (x y : Tensor) (i : Index) :
  dim x ≠ 4 ∨ nth 1 (shape x) 0 ≠ 3 ∨ shape x ≠ shape y →
  Discriminator.forward self x y i = Raise AssertionError.
Proof.
  intros Hbad. unfold Discriminator.forward.
  destruct (decide (dim x ≠ 4 ∨ nth 1 (shape x) 0 ≠ 3)) as [H1|H1].
  - by rewrite (assert_rank4_rgb_fails x H1).
  - assert (dim x = 4 ∧ nth 1 (shape x) 0 = 3) as [Hd Hc].
    { split; apply dec_stable; tauto. }
    assert (shape x ≠ shape y) as Hne by tauto.
    rewrite Hd, Hc. cbn [Z.eqb Pos.eqb andb assert]. rewrite bind_Ok.
    by rewrite bool_decide_eq_false_2.
Qed.

(** A Python integer in range gets through the column selection and stops
    at the batched product. *)
Lemma Discriminator_int_index_raises (n : Z) (gpu : option Z)
    (self : Discriminator.t) (x y : Tensor) (B H W v : Z) :
  Discriminator.__init__ n gpu = Ok self → shape_contracts →
  shape x = [B; 3; H; W] → shape y = shape x →
  0 ≤ B → 128 ≤ H → 128 ≤ W → - n ≤ v < n →
  Discriminator.forward self x y (IntIndex v) = Raise RuntimeError.
Proof.
  intros Hinit HC Hx Hy HB HH HW Hv.
  destruct (Discriminator_encode n gpu self x y B H W Hinit HC Hx Hy HB HH HW)
    as (feats & out & Hfeats & Hout & Hfwd).
  destruct (Discriminator_init_inv _ _ _ Hinit)
    as (_ & Hn & HWs & Hw0 & Hb & _).
  rewrite Hfwd.
  by rewrite (realism_score_int self x out n B v HWs Hw0 Hout Hv).
Qed.

(** C5, as the code has it.  For a Discriminator built for [n] training
    videos and a well-formed pair of images: a video index of [n] or more
    raises [IndexError], given as a Python integer or as an entry of an
    index tensor; an index tensor with one entry per sample, each in
    [[0, n)], yields one score in [[0, 1]] per sample; a Python integer,
    whatever its value, yields none. *)
Theorem Discriminator_video_index_range (n : Z) (gpu : option Z)
    (self : Discriminator.t) (x y : Tensor) (B H W : Z) :
  Discriminator.__init__ n gpu = Ok self → shape_contracts →
  shape x = [B; 3; H; W] → shape y = shape x →
  0 ≤ B → 128 ≤ H → 128 ≤ W →
  (∀ v, n ≤ v →
     Discriminator.forward self x y (IntIndex v) = Raise IndexError) ∧
  (∀ l, Exists (λ v, n ≤ v) l →
     Discriminator.forward self x y (TensorIndex l) = Raise IndexError) ∧
  (∀ l, Z.of_nat (length l) = B → Forall (λ v, 0 ≤ v < n) l →
     ∃ score feats,
       Discriminator.forward self x y (TensorIndex l) = Ok (score, feats) ∧
       shape score = [B] ∧ unit_valued score) ∧
  (∀ v, ¬ is_ok (Discriminator.forward self x y (IntIndex v))).
Proof.
  intros Hinit HC Hx Hy HB HH HW.
  destruct (Discriminator_encode n gpu self x y B H W Hinit HC Hx Hy HB HH HW)
    as (feats & out & Hfeats & Hout & Hfwd).
  destruct (Discriminator_init_inv _ _ _ Hinit)
    as (_ & Hn & HWs & Hw0 & Hb & _).
  split; [|split; [|split]]; cycle 3.
  { intros v [r Hr].
    destruct (decide (- n ≤ v < n)) as [Hv|Hv].
    - rewrite (Discriminator_int_index_raises n gpu self x y B H W v
                 Hinit HC Hx Hy HB HH HW Hv) in Hr. discriminate Hr.
    - rewrite Hfwd in Hr.
      rewrite (realism_score_out_of_range self x out n B (IntIndex v)
                 HWs Hout Hv) in Hr. discriminate Hr. }
  - intros v Hv. rewrite Hfwd.
    rewrite (realism_score_out_of_range self x out n B (IntIndex v) HWs Hout);
      [reflexivity|]. cbn. lia.
  - intros l Hl. rewrite Hfwd.
    rewrite (realism_score_out_of_range self x out n B (TensorIndex l)
               HWs Hout); [reflexivity|].
    cbn. eapply Exists_impl; [exact Hl|]. cbn. intros; lia.
  - intros l Hlen Hl.
    destruct (realism_score_tensor self x out n B [3; H; W] l
                HWs Hw0 Hb Hx HB Hout Hlen) as (score & Hscore & Hs & Hu).
    { eapply Forall_impl; [exact Hl|]. cbn. intros; lia. }
    exists score, feats. rewrite Hfwd, Hscore, bind_Ok. done.
Qed.

(** C10, as the code has it.  For a Discriminator built for [n] training
    videos and a well-formed pair of images, an index tensor with one entry
    per sample, each in [[-n, -1]], does not make [forward] fail: it
    returns one score per sample.  The column selection [W[:, i]] takes
    column [n + i] for such an entry, and does the same, without raising,
    for a Python integer in that range; with the integer, [forward] then
    raises at the batched product. *)
Theorem Discriminator_negative_index (n : Z) (gpu : option Z)
    (self : Discriminator.t) (x y : Tensor) (B H W : Z) :
  Discriminator.__init__ n gpu = Ok self → shape_contracts →
  shape x = [B; 3; H; W] → shape y = shape x →
  0 ≤ B → 128 ≤ H → 128 ≤ W →
  (∀ l, Z.of_nat (length l) = B → Forall (λ v, - n ≤ v ≤ -1) l →
     ∃ score feats,
       Discriminator.forward self x y (TensorIndex l) = Ok (score, feats) ∧
       shape score = [B] ∧ unit_valued score) ∧
  (∀ l, Forall (λ v, - n ≤ v ≤ -1) l →
     ∃ c, select_columns (Discriminator.W self) (TensorIndex l) = Ok c ∧
          ∀ a (j : nat) v, l !! j = Some v →
            data c [a; Z.of_nat j] = data (Discriminator.W self) [a; n + v]) ∧
  (∀ v, - n ≤ v ≤ -1 →
     (∃ c, select_columns (Discriminator.W self) (IntIndex v) = Ok c ∧
           ∀ a, data c [a] = data (Discriminator.W self) [a; n + v]) ∧
     Discriminator.forward self x y (IntIndex v) = Raise RuntimeError).
Proof.
  intros Hinit HC Hx Hy HB HH HW.
  destruct (Discriminator_encode n gpu self x y B H W Hinit HC Hx Hy HB HH HW)
    as (feats & out & Hfeats & Hout & Hfwd).
  destruct (Discriminator_init_inv _ _ _ Hinit)
    as (_ & Hn & HWs & Hw0 & Hb & _).
  split; [|split].
  - intros l Hlen Hl.
    destruct (realism_score_tensor self x out n B [3; H; W] l
                HWs Hw0 Hb Hx HB Hout Hlen) as (score & Hscore & Hs & Hu).
    { eapply Forall_impl; [exact Hl|]. cbn. intros; lia. }
    exists score, feats. rewrite Hfwd, Hscore, bind_Ok. done.
  - intros l Hl.
    destruct (select_columns_tensor (Discriminator.W self) 512 n l HWs)
      as (c & Hc & _ & Hd).
    { eapply Forall_impl; [exact Hl|]. cbn. intros; lia. }
    exists c. split; [exact Hc|]. intros a j v Hj.
    rewrite Hd, Nat2Z.id. do 3 f_equal.
    rewrite (nth_lookup_Some _ _ _ (selected_column n v));
      [|by rewrite list_lookup_fmap, Hj].
    rewrite Forall_lookup in Hl. specialize (Hl _ _ Hj). cbn in Hl.
    unfold selected_column. destruct (Z.ltb_spec v 0); lia.
  - intros v Hv. split.
    + destruct (select_columns_int (Discriminator.W self) 512 n v HWs)
        as (c & Hc & _ & Hd); [lia|].
      exists c. split; [exact Hc|]. intros a. rewrite Hd.
      unfold selected_column. destruct (Z.ltb_spec v 0); [|lia].
      do 3 f_equal; lia.
    + apply (Discriminator_int_index_raises n gpu self x y B H W v
               Hinit HC Hx Hy HB HH HW). lia.
Qed.
End DiscriminatorClaims.

(** ** The Embedder *)


Section EmbedderClaims.
Context `{CF : Config} `{RT : Runtime}.

Lemma Embedder_layers_of_init (gpu : option Z) (self : Embedder.t) :
  Embedder.__init__ gpu = Ok self →
  is_layer (Embedder.conv1 self) "ResidualBlockDown" [3; 64] ∧
  is_layer (Embedder.conv2 self) "ResidualBlockDown" [64; 128] ∧
  is_layer (Embedder.conv3 self) "ResidualBlockDown" [128; 256] ∧
  is_layer (Embedder.att self) "SelfAttention" [256] ∧
  is_layer (Embedder.conv4 self) "ResidualBlockDown" [256; 512] ∧
  is_layer (Embedder.conv5 self) "ResidualBlockDown" [512; 512] ∧
  is_layer (Embedder.conv6 self) "ResidualBlockDown" [512; 512] ∧
  is_layer (Embedder.pooling self) "AdaptiveMaxPool2d" [1; 1].
Proof.
  intros Hinit.
  destruct (Embedder_init_inv _ _ Hinit) as (Hch & _).
  unfold Embedder.children, Embedder.layers in Hch.
  cbn [Embedder.conv1 Embedder.conv2 Embedder.conv3 Embedder.att
       Embedder.conv4 Embedder.conv5 Embedder.conv6 Embedder.pooling] in Hch.
  repeat (apply Forall2_cons_1 in Hch as [?Hm Hch]).
  repeat match goal with
         | H : Module_apply weights_init _ = Ok _ |- _ =>
             apply Module_apply_root in H as [? ?]
         end.
  unfold is_layer. repeat split; assumption.
Qed.

(** The encoder half of [forward]: one pooled map of 512 features per
    sample, whatever the configured embedding length. *)
Lemma Embedder_encode (gpu : option Z) (self : Embedder.t) (x : Tensor)
    (B H W : Z) :
  Embedder.__init__ gpu = Ok self → shape_contracts →
  shape x = [B; 3; H; W] → 0 ≤ B → 64 ≤ H → 64 ≤ W →
  ∃ p, shape p = [B; 512; 1; 1] ∧
       Embedder.forward self x
       = (v ← view p [-1; E_VECTOR_LENGTH]; Ok (relu v)).
Proof.
  intros Hinit HC Hx HB HH HW.
  destruct (Embedder_layers_of_init _ _ Hinit)
    as (L1 & L2 & L3 & La & L4 & L5 & L6 & Lp).
  destruct (Embedder_init_inv _ _ Hinit) as (_ & Hgpu & Hdev).
  set (h1 := H `div` 2). set (w1 := W `div` 2).
  set (h2 := h1 `div` 2). set (w2 := w1 `div` 2).
  set (h3 := h2 `div` 2). set (w3 := w2 `div` 2).
  set (h4 := h3 `div` 2). set (w4 := w3 `div` 2).
  set (h5 := h4 `div` 2). set (w5 := w4 `div` 2).
  set (h6 := h5 `div` 2). set (w6 := w5 `div` 2).
  assert (32 ≤ h1) by (apply half_ge; lia).
  assert (16 ≤ h2) by (apply half_ge; lia).
  assert (8 ≤ h3) by (apply half_ge; lia).
  assert (4 ≤ h4) by (apply half_ge; lia).
  assert (2 ≤ h5) by (apply half_ge; lia).
  assert (1 ≤ h6) by (apply half_ge; lia).
  assert (32 ≤ w1) by (apply half_ge; lia).
  assert (16 ≤ w2) by (apply half_ge; lia).
  assert (8 ≤ w3) by (apply half_ge; lia).
  assert (4 ≤ w4) by (apply half_ge; lia).
  assert (2 ≤ w5) by (apply half_ge; lia).
  assert (1 ≤ w6) by (apply half_ge; lia).
  destruct (down_contract HC _ _ _ B H W L1 HB ltac:(lia) ltac:(lia) x Hx)
    as (o1 & E1 & S1).
  destruct (down_contract HC _ _ _ B h1 w1 L2 HB ltac:(lia) ltac:(lia) o1 S1)
    as (o2 & E2 & S2).
  destruct (down_contract HC _ _ _ B h2 w2 L3 HB ltac:(lia) ltac:(lia) o2 S2)
    as (o3 & E3 & S3).
  destruct (attention_contract HC _ _ B h3 w3 La HB ltac:(lia) ltac:(lia)
              o3 S3) as (oa & Ea & Sa).
  destruct (down_contract HC _ _ _ B h3 w3 L4 HB ltac:(lia) ltac:(lia) oa Sa)
    as (o4 & E4 & S4).
  destruct (down_contract HC _ _ _ B h4 w4 L5 HB ltac:(lia) ltac:(lia) o4 S4)
    as (o5 & E5 & S5).
  destruct (down_contract HC _ _ _ B h5 w5 L6 HB ltac:(lia) ltac:(lia) o5 S5)
    as (o6 & E6 & S6).
  destruct (pooling_contract HC _ B 512 h6 w6 Lp HB ltac:(lia) ltac:(lia)
              ltac:(lia) o6 S6) as (p & Ep & Sp).
  exists p. split; [exact Sp|].
  unfold Embedder.forward.
  rewrite (assert_rank4_rgb x B H W Hx), bind_Ok.
  rewrite Hgpu, Hdev, bind_Ok.
  rewrite E1, bind_Ok, E2, bind_Ok, E3, bind_Ok, Ea, bind_Ok.
  rewrite E4, bind_Ok, E5, bind_Ok, E6, bind_Ok, Ep, bind_Ok.
  reflexivity.
Qed.


(** For any configured length that divides the number of pooled features,
    the rows of the output are [B * 512 / E_VECTOR_LENGTH]. *)
Lemma Embedder_forward_rows (gpu : option Z) (self : Embedder.t) (x : Tensor)
    (B H W : Z) :
  Embedder.__init__ gpu = Ok self → shape_contracts →
  shape x = [B; 3; H; W] → 0 ≤ B → 64 ≤ H → 64 ≤ W →
  0 < E_VECTOR_LENGTH → (B * 512) `mod` E_VECTOR_LENGTH = 0 →
  ∃ out, Embedder.forward self x = Ok out ∧
         shape out = [(B * 512) `div` E_VECTOR_LENGTH; E_VECTOR_LENGTH].
Proof.
  intros Hinit HC Hx HB HH HW HE Hdiv.
  destruct (Embedder_encode gpu self x B H W Hinit HC Hx HB HH HW)
    as (p & Sp & Hfwd).
  rewrite Hfwd. unfold view, numel. rewrite Sp. cbn [prod].
  replace (B * (512 * (1 * (1 * 1)))) with (B * 512) by lia.
  unfold infer_size. cbn [existsb].
  change (-1 <? -1) with false.
  replace (E_VECTOR_LENGTH <? -1) with false by (symmetry; apply Z.ltb_ge; lia).
  cbn [orb]. rewrite filter_cons_True by done.
  rewrite filter_cons_False by lia. rewrite filter_nil. cbn [length].
  rewrite (filter_cons_False (λ s, s ≠ -1)) by (intros Hne; by apply Hne).
  rewrite filter_cons_True by lia. rewrite filter_nil. cbn [prod].
  rewrite Z.mul_1_r, Hdiv.
  replace (0 <? E_VECTOR_LENGTH) with true by (symmetry; apply Z.ltb_lt; lia).
  cbn [andb Z.eqb]. rewrite !bind_Ok.
  eexists. split; [reflexivity|]. cbn [relu pointwise shape fmap list_fmap].
  change (-1 =? -1) with true. cbv iota.
  replace (E_VECTOR_LENGTH =? -1) with false by (symmetry; apply Z.eqb_neq; lia).
  reflexivity.
Qed.
End EmbedderClaims.

(** ** The reference layers keep the shape contracts *)

Lemma reference_contracts : @shape_contracts reference_runtime.
Proof.
  split.
  - intros m c_in c_out B H W [Hc Ha] HB HH HW x Hx.
    cbn [call reference_runtime]. unfold shape_call.
    rewrite Hc, Ha, Hx. cbn [String.eqb Ascii.eqb Bool.eqb].
    rewrite Z.eqb_refl.
    replace (2 <=? H) with true by (symmetry; apply Z.leb_le; lia).
    replace (2 <=? W) with true by (symmetry; apply Z.leb_le; lia).
    eexists. split; reflexivity.
  - intros m c B H W [Hc Ha] HB HH HW x Hx.
    cbn [call reference_runtime]. unfold shape_call.
    rewrite Hc, Ha, Hx. cbn [String.eqb Ascii.eqb Bool.eqb orb].
    rewrite Z.eqb_refl.
    replace (1 <=? H) with true by (symmetry; apply Z.leb_le; lia).
    replace (1 <=? W) with true by (symmetry; apply Z.leb_le; lia).
    eexists. split; reflexivity.
  - intros m c B H W [Hc Ha] HB HH HW x Hx.
    cbn [call reference_runtime]. unfold shape_call.
    rewrite Hc, Ha, Hx. cbn [String.eqb Ascii.eqb Bool.eqb orb].
    rewrite Z.eqb_refl.
    replace (2 <=? H) with true by (symmetry; apply Z.leb_le; lia).
    replace (2 <=? W) with true by (symmetry; apply Z.leb_le; lia).
    eexists. split; reflexivity.
  - intros m B C H W [Hc Ha] HB HCh HH HW x Hx.
    cbn [call reference_runtime]. unfold shape_call.
    rewrite Hc, Hx. cbn [String.eqb Ascii.eqb Bool.eqb orb].
    replace (1 <=? C) with true by (symmetry; apply Z.leb_le; lia).
    replace (1 <=? H) with true by (symmetry; apply Z.leb_le; lia).
    replace (1 <=? W) with true by (symmetry; apply Z.leb_le; lia).
    eexists. split; reflexivity.
Qed.

(** ** The claims on concrete inputs *)


(** The claim C5 as stated fails for the Python integer 3: the call raises. *)
Lemma Discriminator_integer_index_counterexample :
  ∃ self, @Discriminator.__init__ reference_runtime 10 None = Ok self ∧
    @Discriminator.forward reference_runtime self (zeros [1; 3; 256; 256])
      (zeros [1; 3; 256; 256])
      (IntIndex 3) = Raise RuntimeError.
Proof. eexists. split; [reflexivity | vm_compute; reflexivity]. Qed.

Lemma Discriminator_video_index_range_witness :
  ∃ self, @Discriminator.__init__ reference_runtime 10 None = Ok self ∧
    @Discriminator.forward reference_runtime self (zeros [2; 3; 256; 256])
      (zeros [2; 3; 256; 256])
      (IntIndex 10) = Raise IndexError ∧
    @Discriminator.forward reference_runtime self (zeros [2; 3; 256; 256])
      (zeros [2; 3; 256; 256])
      (TensorIndex [10; 0]) = Raise IndexError ∧
    ∃ score feats,
      @Discriminator.forward reference_runtime self (zeros [2; 3; 256; 256])
        (zeros [2; 3; 256; 256])
        (TensorIndex [0; 9]) = Ok (score, feats) ∧
      shape score = [2] ∧ unit_valued score.
Proof.
  destruct (@Discriminator.__init__ reference_runtime 10 None)
    as [self|] eqn:Hinit; [|by vm_compute in Hinit].
  exists self. split; [reflexivity|].
  destruct (Discriminator_video_index_range 10 None self
              (zeros [2; 3; 256; 256]) (zeros [2; 3; 256; 256]) 2 256 256
              Hinit reference_contracts)
    as (Hint & Hten & Hok & _); [reflexivity | reflexivity | lia | lia | lia |].
  split; [apply Hint; lia|].
  split; [apply Hten; constructor; lia|].
  apply Hok; [reflexivity|].
  repeat (constructor; [lia|]). constructor.
Defined.

(** The claim C10 as stated fails for the Python integer -1: the call raises
    (past the column selection). *)
Lemma Discriminator_negative_integer_counterexample :
  ∃ self, @Discriminator.__init__ reference_runtime 10 None = Ok self ∧
    @Discriminator.forward reference_runtime self (zeros [1; 3; 256; 256])
      (zeros [1; 3; 256; 256])
      (IntIndex (-1)) = Raise RuntimeError.
Proof. eexists. split; [reflexivity | vm_compute; reflexivity]. Qed.

Lemma Discriminator_negative_index_witness :
  ∃ self, @Discriminator.__init__ reference_runtime 10 None = Ok self ∧
    (∃ score feats,
       @Discriminator.forward reference_runtime self (zeros [2; 3; 256; 256])
         (zeros [2; 3; 256; 256])
         (TensorIndex [-1; -10]) = Ok (score, feats) ∧
       shape score = [2] ∧ unit_valued score) ∧
    (∃ c, select_columns (Discriminator.W self) (IntIndex (-1)) = Ok c ∧
          ∀ a, data c [a] = data (Discriminator.W self) [a; 10 + -1]).
Proof.
  destruct (@Discriminator.__init__ reference_runtime 10 None)
    as [self|] eqn:Hinit; [|by vm_compute in Hinit].
  exists self. split; [reflexivity|].
  destruct (Discriminator_negative_index 10 None self
              (zeros [2; 3; 256; 256]) (zeros [2; 3; 256; 256]) 2 256 256
              Hinit reference_contracts)
    as (Hok & _ & Hint); [reflexivity | reflexivity | lia | lia | lia |].
  split.
  - apply Hok; [reflexivity|]. repeat (constructor; [lia|]). constructor.
  - apply Hint. lia.
Defined.



(** Built with the sample blocks, the first convolution inside [conv1] of an
    Embedder carries one initialisation of its weight and none of its bias;
    no Generator is built. *)
Lemma weights_init_policy_applied_once_witness :
  ∃ self c1 conv,
    @Embedder.__init__ reference_runtime None = Ok self ∧
    Module_apply weights_init (@ResidualBlockDown reference_runtime 3 64)
      = Ok c1 ∧
    Embedder.conv1 self = c1 ∧
    children c1 !! 0%nat = Some conv ∧
    class_name conv = "Conv2d" ∧
    weight conv = Some [Normal 0.0 0.02] ∧ bias conv = Some [] ∧
    ¬ is_ok (@Generator.__init__ config_512 reference_runtime None).
Proof.
  destruct (@Embedder.__init__ reference_runtime None)
    as [self|] eqn:Hinit; [|by vm_compute in Hinit].
  destruct (@weights_init_policy_applied_once config_512 reference_runtime)
    as (_ & _ & _ & _ & Hemb & _ & Hgen & _).
  specialize (Hemb None self Hinit).
  apply Forall2_cons_1 in Hemb as [Hc1 _].
  cbn [Embedder.layers Embedder.conv1] in Hc1.
  assert (∃ conv, children (Embedder.conv1 self) !! 0%nat = Some conv ∧
            class_name conv = "Conv2d" ∧
            weight conv = Some [Normal 0.0 0.02] ∧ bias conv = Some [])
    as (conv & Hconv).
  { pose proof Hc1 as Hc. revert Hc.
    generalize (Embedder.conv1 self). intros c1 Hc.
    vm_compute in Hc. injection Hc as <-.
    eexists. repeat split; reflexivity. }
  exists self, (Embedder.conv1 self), conv.
  split; [reflexivity|]. split; [exact Hc1|]. split; [reflexivity|].
  destruct Hconv as (Hk & Hcls & Hw & Hb).
  split; [exact Hk|]. split; [exact Hcls|]. split; [exact Hw|].
  split; [exact Hb | apply Hgen].
Defined.

(** ** The Generator's forward pass, on a Generator that exists

      The constructor never returns (C1), so these facts are about the object
      its last part, [decoding_layers], would hand back. *)

Lemma ADAIN_LAYERS_valid : od_valid ADAIN_LAYERS ∧ widths_nonneg ADAIN_LAYERS.
Proof.
    split.
    - unfold od_valid. apply (bool_decide_unpack _). by vm_compute.
    - unfold widths_nonneg, ADAIN_LAYERS. repeat (constructor; [simpl; lia|]).
      constructor.
Qed.

Lemma size_lookup (t : Tensor) (k : nat) (n : Z) :
    shape t !! k = Some n → size t k = Ok n.
Proof. intros H. unfold size. by rewrite H. Qed.

Lemma unsqueeze_front (t : Tensor) (a b : Z) :
    shape t = [a; b] →
    ∃ t', unsqueeze t 0 = Ok t' ∧ shape t' = [1; a; b].
Proof.
    intros Hs. unfold unsqueeze, dim. rewrite Hs.
    eexists. split; reflexivity.
Qed.

Lemma unsqueeze_2_rank2 (t : Tensor) (a b : Z) :
    shape t = [a; b] →
    ∃ t', unsqueeze t 2 = Ok t' ∧ shape t' = [a; b; 1].
Proof.
    intros Hs. unfold unsqueeze, dim. rewrite Hs.
    eexists. split; reflexivity.
Qed.

Lemma unsqueeze_2_rank4 (t : Tensor) (a b c d : Z) :
    shape t = [a; b; c; d] →
    ∃ t', unsqueeze t 2 = Ok t' ∧ shape t' = [a; b] ++ [1; c; d].
Proof.
    intros Hs. unfold unsqueeze, dim. rewrite Hs.
    eexists. split; reflexivity.
Qed.

Lemma squeeze_last (t : Tensor) (a b : Z) :
    shape t = [a; b; 1] →
    ∃ t', squeeze t 2 = Ok t' ∧ shape t' = [a; b].
Proof.
    intros Hs. unfold squeeze, dim. rewrite Hs.
    change (wrap_dim (Z.of_nat (length [a; b; 1])) 2) with (Ok 2%nat).
    rewrite bind_Ok. rewrite bool_decide_eq_true_2 by done.
    eexists. split; reflexivity.
Qed.

Lemma expand_batch (t : Tensor) (a b B : Z) :
    shape t = [1; a; b] → 0 ≤ B →
    ∃ t', expand t [B; a; b] = Ok t' ∧ shape t' = [B; a; b].
Proof.
    intros Hs HB. unfold expand. rewrite Hs.
    rewrite bool_decide_eq_true_2 by done.
    cbn [zip zip_with forallb fst snd andb].
    replace (0 <=? B) with true by (symmetry; apply Z.leb_le; lia).
    rewrite !Z.eqb_refl, !orb_true_r. cbn [andb].
    eexists. split; [reflexivity|]. cbn [shape].
    replace (B =? -1) with false by (symmetry; apply Z.eqb_neq; lia).
    by destruct (a =? -1), (b =? -1).
Qed.

Lemma view_seed (t : Tensor) (B : Z) :
    shape t = [B; 512; 1; 1] ++ [16] → 1 ≤ B →
    ∃ t', view t [B; -1; 4; 4] = Ok t' ∧ shape t' = [B; 512; 4; 4].
Proof.
    intros Hs HB. unfold view, numel. rewrite Hs. cbn [app prod].
    assert (infer_size [B; -1; 4; 4] (B * (512 * (1 * (1 * (16 * 1)))))
            = Ok [B; 512; 4; 4]) as ->.
    { unfold infer_size. cbn [existsb].
      replace (B <? -1) with false by (symmetry; apply Z.ltb_ge; lia).
      change (-1 <? -1) with false. change (4 <? -1) with false. cbn [orb].
      rewrite (filter_cons_False (λ s, s = -1) B) by lia.
      change (filter (λ s, s = -1) [-1; 4; 4]) with [-1]. cbn [length].
      rewrite (filter_cons_True (λ s, s ≠ -1) B) by lia.
      change (filter (λ s, s ≠ -1) [-1; 4; 4]) with [4; 4]. cbn [prod].
      replace (B * (512 * (1 * (1 * (16 * 1))))) with (512 * (B * (4 * (4 * 1))))
        by lia.
      replace (0 <? B * (4 * (4 * 1))) with true
        by (symmetry; apply Z.ltb_lt; lia).
      rewrite Z.mod_mul, Z.div_mul by lia. cbn [andb fmap list_fmap].
      replace (B =? -1) with false by (symmetry; apply Z.eqb_neq; lia).
      reflexivity. }
    rewrite bind_Ok. eexists. split; reflexivity.
Qed.


Section GeneratorForward.
Context `{CF : Config} `{RT : Runtime}.

Lemma Generator_decoding_layers_fields P n proj sfc (gpu : option Z)
    (self : Generator.t) :
  Generator.decoding_layers P n proj sfc gpu = Ok self →
  Generator.PSI_PORTIONS self = P ∧ Generator.projection self = proj ∧
  Generator.gpu self = gpu ∧ ∀ B (b : B), to_gpu gpu b = Ok b.
Proof.
  unfold Generator.decoding_layers. intros H.
  apply bind_inv in H as (s0 & Happ & H).
  apply to_gpu_inv in H as [-> Hgpu].
  unfold Generator.apply in Happ.
  repeat (apply bind_inv in Happ as (? & _ & Happ)).
  injection Happ as <-. done.
Qed.

Lemma Generator_layers_of_init P n proj sfc (gpu : option Z)
    (self : Generator.t) :
  Generator.decoding_layers P n proj sfc gpu = Ok self →
  is_layer (Generator.fc self) "Linear" [1; 16] ∧
  is_layer (Generator.deconv6 self) "AdaptiveResidualBlockUp" [512; 512; 2] ∧
  is_layer (Generator.in6_d self) "InstanceNorm2d" [512] ∧
  is_layer (Generator.deconv5 self) "AdaptiveResidualBlockUp" [512; 512; 2] ∧
  is_layer (Generator.in5_d self) "InstanceNorm2d" [512] ∧
  is_layer (Generator.deconv4 self) "AdaptiveResidualBlockUp" [512; 256; 2] ∧
  is_layer (Generator.in4_d self) "InstanceNorm2d" [256] ∧
  is_layer (Generator.deconv3 self) "AdaptiveResidualBlockUp" [256; 128; 2] ∧
  is_layer (Generator.in3_d self) "InstanceNorm2d" [128] ∧
  is_layer (Generator.att2 self) "SelfAttention" [128] ∧
  is_layer (Generator.deconv2 self) "AdaptiveResidualBlockUp" [128; 64; 2] ∧
  is_layer (Generator.in2_d self) "InstanceNorm2d" [64] ∧
  is_layer (Generator.deconv1 self) "AdaptiveResidualBlockUp" [64; 3; 2] ∧
  is_layer (Generator.in1_d self) "InstanceNorm2d" [3].
Proof.
  intros Hinit.
  pose proof (Generator_decoding_layers_inv _ _ _ _ _ _ Hinit) as Hch.
  unfold Generator.children, Generator.layers in Hch.
  cbn [Generator.fc Generator.deconv6 Generator.in6_d Generator.deconv5
       Generator.in5_d Generator.deconv4 Generator.in4_d Generator.deconv3
       Generator.in3_d Generator.att2 Generator.deconv2 Generator.in2_d
       Generator.deconv1 Generator.in1_d] in Hch.
  repeat (apply Forall2_cons_1 in Hch as [?Hm Hch]).
  repeat match goal with
         | H : Module_apply weights_init _ = Ok _ |- _ =>
             apply Module_apply_root in H as [? ?]
         end.
  unfold is_layer. repeat split; assumption.
Qed.

(** One decoder stage doubles the spatial size and switches to the output
    width of its row in [ADAIN_LAYERS]. *)
Lemma Generator_stage_shape (self : Generator.t) (deconv norm : nnModule)
    (name : string) (c_in c_out : Z) (psi_hat out : Tensor) (B H W : Z) :
  decoder_contracts →
  define_psi_slices ADAIN_LAYERS = Ok (Generator.PSI_PORTIONS self, 6918) →
  od_get ADAIN_LAYERS name = Ok (c_in, c_out) →
  is_layer deconv "AdaptiveResidualBlockUp" [c_in; c_out; 2] →
  is_layer norm "InstanceNorm2d" [c_out] →
  shape psi_hat = [B; 6918] → shape out = [B; c_in; H; W] →
  0 ≤ B → 1 ≤ H → 1 ≤ W →
  ∃ out', Generator.stage self deconv norm name psi_hat out = Ok out' ∧
          shape out' = [B; c_out; 2 * H; 2 * W].
Proof.
  intros HD Hpsi Hname Hdec Hnorm Hp Hout HB HH HW.
  destruct ADAIN_LAYERS_valid as [Hv Hw].
  destruct (psi_table_segment ADAIN_LAYERS _ 6918 name c_in c_out
              Hv Hw Hpsi Hname)
    as (lo & hi & Hseg & Hlo & Hhi & Htot & Hc1 & Hc2).
  destruct (slice_psi_segment ADAIN_LAYERS _ psi_hat name lo hi c_in c_out B
              6918 Hseg Hname Hp Hlo Hhi Htot Hc1 Hc2)
    as (m1 & s1 & m2 & s2 & Hsl & S1 & S2 & S3 & S4 & _).
  destruct (adaptive_up_contract HD deconv c_in c_out 2 B H W out m1 s1 m2 s2
              Hdec HB HH HW Hout S1 S2 S3 S4) as (o & Ho & So).
  destruct (instance_norm_contract HD norm c_out B (2 * H) (2 * W) Hnorm HB
              ltac:(nia) o So) as (o' & Ho' & So').
  exists o'. split; [|exact So'].
  unfold Generator.stage. by rewrite Hsl, bind_Ok, Ho, bind_Ok.
Qed.

(** What claim C1 expects of [forward], on the object [decoding_layers]
    returns for the table's psi slices and a projection of [6918] rows: for a
    motion tensor of shape [[B; 512; 1; 1]] and [B] embeddings of the
    configured length, the output has shape [[B; 3; 256; 256]] and every
    element lies in [[0, 1]]. *)
Lemma Generator_forward_shape P proj sfc (gpu : option Z) (self : Generator.t)
    (y e : Tensor) (B : Z) :
  Generator.decoding_layers P 6918 proj sfc gpu = Ok self →
  define_psi_slices ADAIN_LAYERS = Ok (P, 6918) →
  shape proj = [6918; E_VECTOR_LENGTH] →
  shape_contracts → decoder_contracts →
  shape y = [B; 512; 1; 1] → shape e = [B; E_VECTOR_LENGTH] → 1 ≤ B →
  ∃ out, Generator.forward self y e None None = Ok out ∧
         shape out = [B; 3; 256; 256] ∧ unit_valued out.
Proof.
  intros Hinit Hpsi Hproj HC HD Hy He HB.
  destruct (Generator_decoding_layers_fields _ _ _ _ _ _ Hinit)
    as (HP & Hpr & Hgpu & Hdev).
  destruct (Generator_layers_of_init _ _ _ _ _ _ Hinit)
    as (Lfc & D6 & N6 & D5 & N5 & D4 & N4 & D3 & N3 & La & D2 & N2 & D1 & N1).
  rewrite <- HP in Hpsi. rewrite <- Hpr in Hproj.
  unfold Generator.forward.
  rewrite Hgpu, !Hdev, !bind_Ok. rewrite Hy, !bind_Ok.
  (* psi_hat *)
  destruct (unsqueeze_front _ _ _ Hproj) as (P0 & -> & SP0). rewrite bind_Ok.
  rewrite (size_lookup e 0 B) by (by rewrite He). rewrite bind_Ok.
  rewrite (size_lookup P0 1 6918) by (by rewrite SP0). rewrite bind_Ok.
  rewrite (size_lookup P0 2 E_VECTOR_LENGTH) by (by rewrite SP0).
  rewrite bind_Ok.
  destruct (expand_batch _ _ _ B SP0 ltac:(lia)) as (P1 & -> & SP1).
  rewrite bind_Ok.
  destruct (unsqueeze_2_rank2 _ _ _ He) as (e2 & -> & Se2). rewrite bind_Ok.
  destruct (bmm_shapes _ _ _ _ _ _ SP1 Se2) as (ps & -> & Sps).
  rewrite bind_Ok.
  destruct (squeeze_last _ _ _ Sps) as (psi_hat & -> & Hps). rewrite bind_Ok.
  (* the 4x4 seed *)
  destruct (unsqueeze_2_rank4 _ _ _ _ _ Hy) as (y2 & -> & Sy2).
  rewrite bind_Ok.
  destruct (linear_contract HD (Generator.fc self) 1 16 [B; 512; 1; 1] Lfc
              y2 Sy2) as (s0 & -> & Ss0).
  rewrite bind_Ok.
  destruct (view_seed _ _ Ss0 HB) as (seed & -> & Sseed). rewrite bind_Ok.
  (* the six stages *)
  destruct (Generator_stage_shape self _ _ "deconv6" 512 512 psi_hat seed
              B 4 4 HD Hpsi eq_refl D6 N6 Hps Sseed)
    as (o6 & -> & S6); [lia..|]. rewrite bind_Ok.
  destruct (Generator_stage_shape self _ _ "deconv5" 512 512 psi_hat o6
              B 8 8 HD Hpsi eq_refl D5 N5 Hps S6)
    as (o5 & -> & S5); [lia..|]. rewrite bind_Ok.
  destruct (Generator_stage_shape self _ _ "deconv4" 512 256 psi_hat o5
              B 16 16 HD Hpsi eq_refl D4 N4 Hps S5)
    as (o4 & -> & S4); [lia..|]. rewrite bind_Ok.
  destruct (Generator_stage_shape self _ _ "deconv3" 256 128 psi_hat o4
              B 32 32 HD Hpsi eq_refl D3 N3 Hps S4)
    as (o3 & -> & S3); [lia..|]. rewrite !bind_Ok.
  destruct (attention_contract HC _ 128 B 64 64 La ltac:(lia) ltac:(lia)
              ltac:(lia) o3 S3) as (oa & -> & Sa). rewrite bind_Ok.
  destruct (Generator_stage_shape self _ _ "deconv2" 128 64 psi_hat oa
              B 64 64 HD Hpsi eq_refl D2 N2 Hps Sa)
    as (o2 & -> & S2); [lia..|]. rewrite bind_Ok.
  destruct (Generator_stage_shape self _ _ "deconv1" 64 3 psi_hat o2
              B 128 128 HD Hpsi eq_refl D1 N1 Hps S2)
    as (o1 & -> & S1); [lia..|]. rewrite bind_Ok.
  exists (sigmoid o1). split; [reflexivity|].
  split; [exact S1 | apply sigmoid_unit_valued].
Qed.
End GeneratorForward.

Lemma reference_decoder_contracts : @decoder_contracts reference_runtime.
Proof.
    split.
    - intros m c_in c_out up B H W x mean1 std1 mean2 std2 [Hc Ha]
        HB HH HW Hx H1 H2 H3 H4.
      cbn [call_adaptive reference_runtime]. unfold shape_call_adaptive.
      rewrite Hc, Ha, Hx, H1, H2, H3, H4.
      cbn [String.eqb Ascii.eqb Bool.eqb]. rewrite Z.eqb_refl.
      rewrite bool_decide_eq_true_2 by done.
      eexists. split; reflexivity.
    - intros m c B H W [Hc Ha] HB HHW x Hx.
      cbn [call reference_runtime]. unfold shape_call.
      rewrite Hc, Ha, Hx. cbn [String.eqb Ascii.eqb Bool.eqb orb].
      rewrite Z.eqb_refl.
      replace (1 <? H * W) with true by (symmetry; apply Z.ltb_lt; lia).
      eexists. split; reflexivity.
    - intros m i o pre [Hc Ha] x Hx.
      cbn [call reference_runtime]. unfold shape_call.
      rewrite Hc, Ha, Hx. cbn [String.eqb Ascii.eqb Bool.eqb orb].
      rewrite rev_app_distr. cbn [rev app]. rewrite Z.eqb_refl.
      eexists. split; [reflexivity|]. cbn [zeros shape rev].
      by rewrite rev_involutive.
Qed.

(** The scenario of C1 on the object the constructor would have built: a
      batch of 2 embeddings and a zero motion tensor give a [2; 3; 256; 256]
      tensor with values in [[0, 1]]. *)
Example Generator_forward_scenario :
    ∃ P self out,
      define_psi_slices ADAIN_LAYERS = Ok (P, 6918) ∧
      @Generator.decoding_layers reference_runtime P 6918 (zeros [6918; 512])
        (zeros [512; 512]) None = Ok self ∧
      @Generator.forward reference_runtime self (zeros [2; 512; 1; 1])
        (zeros [2; 512]) None None = Ok out ∧
      shape out = [2; 3; 256; 256] ∧ unit_valued out.
Proof.
    destruct define_psi_slices_fixed as [P HP].
    destruct (@Generator.decoding_layers reference_runtime P 6918
                (zeros [6918; 512]) (zeros [512; 512]) None)
      as [self|] eqn:Hinit; [|by vm_compute in Hinit].
    destruct (@Generator_forward_shape config_512 reference_runtime P
                (zeros [6918; 512]) (zeros [512; 512]) None self
                (zeros [2; 512; 1; 1]) (zeros [2; 512]) 2 Hinit HP eq_refl
                reference_contracts reference_decoder_contracts eq_refl eq_refl
                ltac:(lia)) as (out & Hout & Hs & Hu).
    by exists P, self, out.
Qed.


(** * Further properties of the code *)

(** ** The psi table and its slices *)

(** X1.  The table [define_psi_slices] builds holds exactly the layer names
    of [ADAIN_LAYERS]-like table [d], and [slice_psi] on any other name
    raises [KeyError], whatever the psi tensor. *)
Theorem slice_psi_unknown_layer (d : OrderedDict) (out : gmap string (Z * Z))
    (total : Z) :
  od_valid d → define_psi_slices d = Ok (out, total) →
  (∀ L, is_Some (out !! L) ↔ L ∈ d.*1) ∧
  (∀ L psi, L ∉ d.*1 → slice_psi out d psi L = Raise KeyError).
Proof.
  intros Hnd Hrun.
  destruct (define_psi_slices_spec d Hnd) as (out' & Hrun' & Hin & Hout).
  rewrite Hrun in Hrun'. injection Hrun' as <- _.
  split.
  - intros L. split.
    + intros [r Hr]. destruct (decide (L ∈ d.*1)) as [|Hn]; [done|].
      rewrite (Hout _ Hn) in Hr. discriminate Hr.
    + intros HL. apply list_elem_of_fmap in HL as ([L' v] & -> & HL).
      apply list_elem_of_lookup in HL as [k Hk].
      eexists. by eapply Hin.
  - intros L psi HL. unfold slice_psi, dict_get. by rewrite (Hout _ HL).
Qed.

Lemma slice_psi_unknown_layer_witness :
  ∃ out, define_psi_slices ADAIN_LAYERS = Ok (out, 6918) ∧
    slice_psi out ADAIN_LAYERS (zeros [2; 6918]) "deconv7" = Raise KeyError ∧
    is_Some (out !! "deconv3").
Proof.
  destruct define_psi_slices_fixed as [out Hout]. exists out.
  split; [exact Hout|].
  destruct (slice_psi_unknown_layer ADAIN_LAYERS out 6918) as [Hkeys Hraise].
  - unfold od_valid. apply (bool_decide_unpack _). by vm_compute.
  - exact Hout.
  - split.
    + apply Hraise. apply (bool_decide_unpack _). by vm_compute.
    + apply Hkeys. apply (bool_decide_unpack _). by vm_compute.
Defined.

(** X2.  Nothing of the psi vector is left unused: every position below the
    table's total length is read by one of the four slices of some layer, at
    an offset inside that slice. *)
Theorem psi_every_position_sliced (d : OrderedDict) (out : gmap string (Z * Z))
    (total : Z) (psi : Tensor) (B p : Z) :
  od_valid d → widths_nonneg d →
  define_psi_slices d = Ok (out, total) →
  shape psi = [B; total] → 0 ≤ p < total →
  ∃ L len1 len2 mean1 std1 mean2 std2 j,
    od_get d L = Ok (len1, len2) ∧
    slice_psi out d psi L = Ok (mean1, std1, mean2, std2) ∧
    ((0 ≤ j < len1 ∧ ∀ i, data mean1 [i; j; 0] = data psi [i; p]) ∨
     (0 ≤ j < len1 ∧ ∀ i, data std1 [i; j; 0] = data psi [i; p]) ∨
     (0 ≤ j < len2 ∧ ∀ i, data mean2 [i; j; 0] = data psi [i; p]) ∨
     (0 ≤ j < len2 ∧ ∀ i, data std2 [i; j; 0] = data psi [i; p])).
Proof.
  intros Hnd Hw Hrun Hpsi Hp.
  destruct (define_psi_slices_spec d Hnd) as (out' & Hrun' & Hin & _).
  rewrite Hrun in Hrun'. injection Hrun' as <- ->.
  destruct (psi_offset_find d (length d) p Hp) as (k & _ & Hlen & Hk).
  destruct (lookup_lt_is_Some_2 d k Hlen) as [[L [len1 len2]] Hd].
  pose proof (od_get_lookup d k L (len1, len2) Hnd Hd) as HL.
  pose proof (Hin _ _ _ Hd) as Hout.
  pose proof (psi_offset_S _ _ _ _ _ Hd) as HS.
  pose proof (psi_offset_mono d 0 k Hw ltac:(lia)) as Hlo.
  pose proof (psi_offset_mono d (S k) (length d) Hw ltac:(lia)) as Hhi.
  assert (0 ≤ len1 ∧ 0 ≤ len2) as [H1 H2].
  { unfold widths_nonneg in Hw. rewrite Forall_lookup in Hw.
    exact (Hw _ _ Hd). }
  destruct (slice_psi_segment d out psi L (psi_offset d k) (psi_offset d (S k))
              len1 len2 B (psi_offset d (length d)) Hout HL Hpsi)
    as (m1 & s1 & m2 & s2 & Hs & _ & _ & _ & _ & D1 & D2 & D3 & D4);
    [lia..|].
  set (lo := psi_offset d k) in *.
  exists L, len1, len2, m1, s1, m2, s2.
  destruct (decide (p < lo + len1)) as [Ha|Ha];
    [|destruct (decide (p < lo + 2 * len1)) as [Hb|Hb];
      [|destruct (decide (p < lo + 2 * len1 + len2)) as [Hc|Hc]]].
  - exists (p - lo). split; [exact HL|]. split; [exact Hs|].
    left. split; [lia|]. intros i. rewrite D1. do 3 f_equal; lia.
  - exists (p - lo - len1). split; [exact HL|]. split; [exact Hs|].
    right; left. split; [lia|]. intros i. rewrite D2. do 3 f_equal; lia.
  - exists (p - lo - 2 * len1). split; [exact HL|]. split; [exact Hs|].
    right; right; left. split; [lia|]. intros i. rewrite D3.
    do 3 f_equal; lia.
  - exists (p - lo - 2 * len1 - len2). split; [exact HL|]. split; [exact Hs|].
    right; right; right. split; [lia|]. intros i. rewrite D4.
    do 3 f_equal; lia.
Qed.

(** Position 6917, the last one of the fixed table, is the last entry of the
    fourth slice of "deconv1". *)
Lemma psi_every_position_sliced_witness :
  ∃ out L len1 len2 mean1 std1 mean2 std2 j,
    define_psi_slices ADAIN_LAYERS = Ok (out, 6918) ∧
    od_get ADAIN_LAYERS L = Ok (len1, len2) ∧
    slice_psi out ADAIN_LAYERS (zeros [2; 6918]) L
      = Ok (mean1, std1, mean2, std2) ∧
    ((0 ≤ j < len1 ∧ ∀ i, data mean1 [i; j; 0] = data (zeros [2; 6918]) [i; 6917]) ∨
     (0 ≤ j < len1 ∧ ∀ i, data std1 [i; j; 0] = data (zeros [2; 6918]) [i; 6917]) ∨
     (0 ≤ j < len2 ∧ ∀ i, data mean2 [i; j; 0] = data (zeros [2; 6918]) [i; 6917]) ∨
     (0 ≤ j < len2 ∧ ∀ i, data std2 [i; j; 0] = data (zeros [2; 6918]) [i; 6917])).
Proof.
  destruct define_psi_slices_fixed as [out Hout]. exists out.
  destruct ADAIN_LAYERS_valid as [Hv Hw].
  destruct (psi_every_position_sliced ADAIN_LAYERS out 6918 (zeros [2; 6918])
              2 6917 Hv Hw Hout eq_refl ltac:(lia))
    as (L & len1 & len2 & m1 & s1 & m2 & s2 & j & HL & Hs & Hj).
  exists L, len1, len2, m1, s1, m2, s2, j. done.
Defined.

(** ** [weights_init] and [apply] *)

(** Whether [weights_init] returns depends on the class name and on which
    attributes the layer has, not on its sub-layers. *)
Lemma weights_init_ok_children (m : nnModule) (cs : list nnModule) :
  is_ok (weights_init (with_children m cs)) ↔ is_ok (weights_init m).
Proof.
  unfold weights_init, weight_init, bias_init, with_children, is_ok.
  destruct m as [cls args w b cs0].
  cbn [class_name ctor_args weight bias children].
  destruct (negb (find cls "Conv2d" =? -1)),
           (negb (find cls "Linear" =? -1)),
           (negb (find cls "InstanceNorm2d" =? -1)),
           w as [h|], b as [hb|]; cbn;
    split; intros [a Ha]; try discriminate Ha; eauto.
Qed.

Lemma applied_skeleton (m m' : nnModule) :
  applied weights_init m m' → skeleton m' = skeleton m.
Proof.
  revert m'. induction m as [cls args w b cs IH] using nnModule_ind.
  intros m' Hm. inversion Hm as [m0 cs' m1 Hcs Hfn]; subst.
  pose proof (weights_init_spec _ _ Hfn) as (Hc & Ha & Hch & Hw & Hb).
  destruct m' as [cls1 args1 w1 b1 cs1].
  cbn [class_name ctor_args weight bias children with_children] in *.
  subst cls1 args1 cs1 w1 b1. cbn [skeleton class_name ctor_args weight bias children].
  rewrite <- !option_fmap_compose. f_equal.
  clear Hfn Hm. revert cs' Hcs.
  induction IH as [|c cs2 Hc _ IHcs]; intros cs' Hcs.
  - by inversion Hcs.
  - inversion Hcs as [|? c' ? cs'' Hc' Hcs']; subst.
    cbn [fmap list_fmap]. f_equal; [by apply Hc | by apply IHcs].
Qed.

Lemma Module_apply_is_ok (m : nnModule) :
  is_ok (Module_apply weights_init m) ↔ initialisable m.
Proof.
  split.
  - intros [m' Hm]. apply Module_apply_applied, applied_modules in Hm.
    unfold initialisable. revert Hm. generalize (modules m') (modules m).
    intros l' l H. induction H as [|a a' l l' Ha _ IH]; constructor; [|exact IH].
    apply (weights_init_ok_children a (children a')). by exists a'.
  - unfold initialisable.
    induction m as [cls args w b cs IH] using nnModule_ind.
    cbn [modules children]. rewrite Forall_app, Forall_singleton.
    intros [Hcs Hm].
    cbn [Module_apply children].
    assert (∃ cs', (fix each (l : list nnModule) : result (list nnModule) :=
          match l with
          | [] => Ok []
          | c :: l' =>
              c' ← Module_apply weights_init c;
              l'' ← each l';
              Ok (c' :: l'')
          end) cs = Ok cs') as [cs' ->].
    { clear Hm. induction IH as [|c cs2 Hc _ IHcs].
      - by exists [].
      - cbn [flat_map] in Hcs. rewrite Forall_app in Hcs.
        destruct Hcs as [H1 H2].
        destruct (Hc H1) as [c' ->]. destruct (IHcs H2) as [cs' ->].
        by exists (c' :: cs'). }
    rewrite bind_Ok.
    by apply (weights_init_ok_children (mkModule cls args w b cs) cs').
Qed.

Lemma weights_init_raises (m : nnModule) (e : exn) :
  weights_init m = Raise e → e = AttributeError.
Proof.
  unfold weights_init, weight_init, bias_init.
  destruct m as [cls args w b cs].
  cbn [class_name ctor_args weight bias children].
  destruct (negb (find cls "Conv2d" =? -1)),
           (negb (find cls "Linear" =? -1)),
           (negb (find cls "InstanceNorm2d" =? -1)),
           w as [h|], b as [hb|]; cbn; intros He;
    try discriminate He; by injection He as <-.
Qed.

Lemma Module_apply_raises (m : nnModule) (e : exn) :
  Module_apply weights_init m = Raise e → e = AttributeError.
Proof.
  induction m as [cls args w b cs IH] using nnModule_ind.
  cbn [Module_apply children].
  generalize (mkModule cls args w b cs). intros m.
  induction IH as [|c cs2 Hc _ IHcs].
  - rewrite bind_Ok. apply weights_init_raises.
  - destruct (Module_apply weights_init c) as [c'|e'] eqn:Hc'.
    + rewrite bind_Ok.
      destruct ((fix each (l : list nnModule) : result (list nnModule) :=
          match l with
          | [] => Ok []
          | c :: l' =>
              c' ← Module_apply weights_init c;
              l'' ← each l';
              Ok (c' :: l'')
          end) cs2) as [cs'|e''] eqn:Hcs.
      * rewrite !bind_Ok. apply weights_init_raises.
      * rewrite bind_Raise in IHcs. rewrite !bind_Raise. exact IHcs.
    + rewrite !bind_Raise. intros [= <-]. by apply Hc.
Qed.

(** X3.  [weights_init] returns exactly when the layer has the attributes its
    class name makes it touch: a [weight] when the name contains "Conv2d",
    "Linear" or "InstanceNorm2d", and a [bias] for the last two.  When it does
    not return, the exception is [AttributeError]. *)
Theorem weights_init_outcome (m : nnModule) :
  let conv := negb (find (class_name m) "Conv2d" =? -1) in
  let lin := negb (find (class_name m) "Linear" =? -1) in
  let norm := negb (find (class_name m) "InstanceNorm2d" =? -1) in
  (is_ok (weights_init m) ↔
     (conv || lin || norm = true → is_Some (weight m)) ∧
     (lin || norm = true → is_Some (bias m))) ∧
  (¬ is_ok (weights_init m) → weights_init m = Raise AttributeError).
Proof.
  unfold weights_init, weight_init, bias_init, is_ok.
  destruct m as [cls args w b cs].
  cbn [class_name ctor_args weight bias children].
  destruct (negb (find cls "Conv2d" =? -1)),
           (negb (find cls "Linear" =? -1)),
           (negb (find cls "InstanceNorm2d" =? -1)),
           w as [h|], b as [hb|]; cbn;
    (split;
     [split;
      [intros [a Ha]; try discriminate Ha;
       split; intros Hx; try discriminate Hx; by eexists
      |intros [Hw Hb]; try (by eexists);
       try (by destruct (Hw eq_refl));
       by destruct (Hb eq_refl)]
     |intros Hn; try reflexivity; exfalso; apply Hn; by eexists]).
Qed.

(** X4.  [apply(weights_init)] changes nothing but the values of the
    parameters: the tree it returns has the same layers, with the same
    classes, constructor arguments, attributes and nesting. *)
Theorem apply_weights_init_keeps_structure (m m' : nnModule) :
  Module_apply weights_init m = Ok m' → skeleton m' = skeleton m.
Proof. intros Hm. by apply applied_skeleton, Module_apply_applied. Qed.

(** X5.  [apply(weights_init)] returns exactly when [weights_init] returns on
    every layer of the tree taken alone; one layer anywhere in the tree that
    lacks an attribute makes the whole call raise, and the exception is
    then [AttributeError]. *)
Theorem apply_weights_init_returns_iff (m : nnModule) :
  (is_ok (Module_apply weights_init m) ↔ initialisable m) ∧
  (∀ e, Module_apply weights_init m = Raise e → e = AttributeError).
Proof. split; [apply Module_apply_is_ok | apply Module_apply_raises]. Qed.

Lemma apply_weights_init_keeps_structure_witness :
  ∃ m', Module_apply weights_init (@ResidualBlockDown reference_runtime 3 64)
          = Ok m' ∧
        skeleton m' = skeleton (@ResidualBlockDown reference_runtime 3 64).
Proof.
  destruct (Module_apply weights_init (@ResidualBlockDown reference_runtime 3 64))
    as [m'|] eqn:Hm; [|by vm_compute in Hm].
  exists m'. split; [reflexivity|].
  by apply apply_weights_init_keeps_structure.
Defined.

(** ** The Motion Encoder on layers that check their channels *)

(** [x.view(-1, C, H, W)] has [C] for its second size whenever it returns. *)
Lemma view_keeps_channels (x x' : Tensor) (C H W : Z) :
  view x [-1; C; H; W] = Ok x' → nth 1 (shape x') 0 = C.
Proof.
  intros Hv. unfold view in Hv.
  apply bind_inv in Hv as (s & Hs & Hv). injection Hv as <-.
  cbn [shape]. unfold infer_size in Hs.
  destruct (existsb _ _); [discriminate Hs|].
  rewrite (filter_cons_True (λ s, s = -1) (-1)) in Hs by done.
  destruct (decide (C = -1)) as [->|HC].
  { rewrite (filter_cons_True (λ s, s = -1) (-1)) in Hs by done.
    cbn [length] in Hs. discriminate Hs. }
  rewrite (filter_cons_False (λ s, s = -1) C) in Hs by done.
  cbn [length] in Hs.
  destruct (length (filter (λ s, s = -1) [H; W])); [|discriminate Hs].
  destruct (_ && _); [|discriminate Hs].
  injection Hs as <-. cbn [fmap list_fmap nth].
  by rewrite (proj2 (Z.eqb_neq C (-1)) HC).
Qed.

Lemma reference_channel_checks : @channel_checks reference_runtime.
Proof.
  split.
  - intros m c_in c_out x [Hc Ha] Hx [r Hr].
    cbn [call reference_runtime] in Hr. unfold shape_call in Hr.
    rewrite Hc, Ha in Hr. cbn [String.eqb Ascii.eqb Bool.eqb] in Hr.
    destruct (shape x) as [|B [|C [|H [|W [|? ?]]]]]; try discriminate Hr.
    cbn [nth] in Hx.
    rewrite (proj2 (Z.eqb_neq C c_in) Hx) in Hr. discriminate Hr.
  - intros m c x [Hc Ha] Hx [r Hr].
    cbn [call reference_runtime] in Hr. unfold shape_call in Hr.
    rewrite Hc, Ha in Hr. cbn [String.eqb Ascii.eqb Bool.eqb] in Hr.
    destruct (shape x) as [|B [|C [|H [|W [|? ?]]]]]; try discriminate Hr.
    cbn [nth] in Hx.
    rewrite (proj2 (Z.eqb_neq C c) Hx) in Hr. discriminate Hr.
Qed.

(** X6.  With layers that check their channel count, [forward] of a Motion
    Encoder returns on no input at all: every stage is handed the flattened
    input, so a 3-channel input is refused by the first normalization (built
    for 128 channels) and any other input by the first convolution (built
    for 3).  An input that does not have five dimensions raises
    [ValueError] before any layer is called. *)
Theorem MotionEncoder_forward_never_returns `{RT : Runtime} (gpu : option Z)
    (self : MotionEncoder.t) (x : Tensor) :
  channel_checks → MotionEncoder.__init__ gpu = Ok self →
  ¬ is_ok (MotionEncoder.forward self x) ∧
  (dim x ≠ 5 → MotionEncoder.forward self x = Raise ValueError).
Proof.
  intros HC Hinit. injection Hinit as <-.
  unfold MotionEncoder.forward.
  cbn [MotionEncoder.conv1 MotionEncoder.in1_e].
  destruct (shape x) as [|B [|K [|C [|H [|W [|? ?]]]]]] eqn:Hs;
    try (split; [intros [r Hr]; discriminate Hr | reflexivity]).
  split; [|unfold dim; rewrite Hs; intros Hd; by destruct Hd].
  rewrite bind_Ok. intros [r Hr].
  apply bind_inv in Hr as (x' & Hv & Hr).
  apply view_keeps_channels in Hv.
  apply bind_inv in Hr as (o1 & H1 & Hr).
  apply bind_inv in Hr as (o2 & H2 & _).
  destruct (decide (C = 3)) as [->|HC3].
  - apply (norm_rejects HC (nn_InstanceNorm2d 128 true) 128 x').
    + by split.
    + rewrite Hv. lia.
    + by exists o2.
  - apply (down_rejects HC (ResidualBlockDown 3 128) 3 128 x').
    + by split.
    + by rewrite Hv.
    + by exists o1.
Qed.

Lemma MotionEncoder_forward_never_returns_witness :
  ∃ self, @MotionEncoder.__init__ reference_runtime None = Ok self ∧
    ¬ is_ok (@MotionEncoder.forward reference_runtime self
               (zeros [2; 4; 3; 64; 64])) ∧
    (dim (zeros [2; 4; 3; 64; 64]) ≠ 5 →
     @MotionEncoder.forward reference_runtime self (zeros [2; 4; 3; 64; 64])
       = Raise ValueError).
Proof.
  destruct (@MotionEncoder.__init__ reference_runtime None)
    as [self|] eqn:Hinit; [|discriminate Hinit].
  exists self. split; [reflexivity|].
  exact (@MotionEncoder_forward_never_returns reference_runtime None self
           (zeros [2; 4; 3; 64; 64]) reference_channel_checks Hinit).
Defined.

Section MotionEncoderDataflow.
Context `{RT : Runtime}.


End MotionEncoderDataflow.



(** ** When the constructors return *)

Lemma apply_self_weights_init `{RT : Runtime} (cls : string) :
  find cls "Conv2d" = -1 → find cls "Linear" = -1 →
  find cls "InstanceNorm2d" = -1 →
  apply_self weights_init cls = Ok tt.
Proof.
  intros Hc Hl Hn. unfold apply_self.
  by rewrite weights_init_untouched.
Qed.

Lemma to_gpu_is_ok `{RT : Runtime} {A} (gpu : option Z) (a : A) :
  is_ok (to_gpu gpu a) ↔ ∀ dev, gpu = Some dev → cuda_available dev = true.
Proof.
  unfold to_gpu, cuda, is_ok. destruct gpu as [dev|].
  - destruct (cuda_available dev) eqn:Hdev.
    + split; [intros _ ? [= <-]; exact Hdev | eauto].
    + split; [intros [? [=]] | intros H; specialize (H dev eq_refl); congruence].
  - split; [intros _ ? [=] | eauto].
Qed.

(** X7.  The constructor of [Embedder] returns exactly when every layer
    inside its seven blocks and its pooling layer has the attributes
    [weights_init] touches, and the device asked for, if any, is available.
    Otherwise it raises [AttributeError] (from [weights_init]) or
    [RuntimeError] (from [cuda]); an object it returns remembers the
    device. *)
Theorem Embedder_construction_returns_iff `{RT : Runtime} (gpu : option Z) :
  (is_ok (Embedder.__init__ gpu) ↔
     Forall initialisable (Embedder.children Embedder.layers) ∧
     (∀ dev, gpu = Some dev → cuda_available dev = true)) ∧
  (∀ e, Embedder.__init__ gpu = Raise e →
     e = AttributeError ∨ e = RuntimeError) ∧
  (∀ self, Embedder.__init__ gpu = Ok self → Embedder.gpu self = gpu).
Proof.
  split; [|split].
  - split.
    + intros [self Hinit].
      destruct (Embedder_init_inv _ _ Hinit) as (Hch & _ & Hgpu). split.
      * revert Hch. generalize (Embedder.children self).
        generalize (Embedder.children Embedder.layers).
        intros l l' H. induction H as [|a a' l l' Ha _ IH]; constructor;
          [|exact IH].
        apply Module_apply_is_ok. by exists a'.
      * apply (to_gpu_is_ok gpu tt). exists tt. apply Hgpu.
    + intros [Hch Hgpu]. unfold Embedder.children, Embedder.layers in Hch.
      cbn [Embedder.conv1 Embedder.conv2 Embedder.conv3 Embedder.att
           Embedder.conv4 Embedder.conv5 Embedder.conv6 Embedder.pooling]
        in Hch.
      repeat (apply Forall_cons_1 in Hch as [?Hm Hch]).
      repeat match goal with
             | H : initialisable _ |- _ =>
                 apply Module_apply_is_ok in H as [? H]
             end.
      unfold Embedder.__init__, Embedder.apply, Embedder.layers.
      cbn [Module___init__ Embedder.conv1 Embedder.conv2 Embedder.conv3
           Embedder.att Embedder.conv4 Embedder.conv5 Embedder.conv6
           Embedder.pooling Embedder.gpu].
      rewrite bind_Ok.
      repeat match goal with
             | H : Module_apply _ _ = Ok _ |- _ => rewrite ?H; clear H
             end.
      rewrite !bind_Ok.
      rewrite apply_self_weights_init by reflexivity. rewrite !bind_Ok.
      by apply to_gpu_is_ok.
  - intros e. unfold Embedder.__init__, Embedder.apply.
    cbn [Module___init__]. rewrite bind_Ok.
    repeat match goal with
           | |- context [Module_apply weights_init ?m] =>
               let H := fresh "H" in
               destruct (Module_apply weights_init m) eqn:H;
               [rewrite bind_Ok; clear H
               |rewrite !bind_Raise; intros [= <-]; left;
                exact (Module_apply_raises _ _ H)]
           end.
    rewrite apply_self_weights_init by reflexivity. rewrite !bind_Ok.
    unfold to_gpu, cuda. destruct gpu as [dev|]; [|discriminate].
    destruct (cuda_available dev); [discriminate|].
    intros [= <-]. by right.
  - intros self Hinit. by destruct (Embedder_init_inv _ _ Hinit) as (_ & ? & _).
Qed.

(** X8.  The constructor of [Discriminator] returns exactly when the number
    of training videos is not negative, every layer inside its blocks has
    the attributes [weights_init] touches, and the device asked for, if any,
    is available; a negative number of videos raises [RuntimeError] before
    anything is initialised.  The three parameters of an object it returns
    are the normal draws of mean 0 and deviation 0.02 with which they were
    created, [W] with one column per video: [apply(weights_init)] does not
    reach them. *)
Theorem Discriminator_construction_returns_iff `{RT : Runtime} (n : Z)
    (gpu : option Z) :
  let W0 := mkTensor [512; n] (normal_draw 0.0 0.02 [512; n]) in
  let w0 := mkTensor [512; 1] (normal_draw 0.0 0.02 [512; 1]) in
  let b0 := mkTensor [1] (normal_draw 0.0 0.02 [1]) in
  (is_ok (Discriminator.__init__ n gpu) ↔
     0 ≤ n ∧
     Forall initialisable
       (Discriminator.children (Discriminator.layers W0 w0 b0)) ∧
     (∀ dev, gpu = Some dev → cuda_available dev = true)) ∧
  (n < 0 → Discriminator.__init__ n gpu = Raise RuntimeError) ∧
  (∀ self, Discriminator.__init__ n gpu = Ok self →
     Discriminator.W self = W0 ∧ Discriminator.w_0 self = w0 ∧
     Discriminator.b self = b0 ∧ Discriminator.gpu self = gpu).
Proof.
  intros W0 w0 b0.
  assert (0 ≤ n →
          Discriminator.__init__ n gpu
          = (self ← Discriminator.apply weights_init
                       (Discriminator.layers W0 w0 b0);
             to_gpu gpu (Discriminator.set_gpu gpu self))) as Hunfold.
  { intros Hn. unfold Discriminator.__init__. cbn [Module___init__].
    rewrite bind_Ok. unfold torch_rand. cbn [forallb].
    replace (0 <=? n) with true by (symmetry; apply Z.leb_le; lia).
    change (0 <=? 512) with true. change (0 <=? 1) with true.
    cbn [andb nn_Parameter]. rewrite !bind_Ok. reflexivity. }
  assert (n < 0 → Discriminator.__init__ n gpu = Raise RuntimeError) as Hneg.
  { intros Hn. unfold Discriminator.__init__. cbn [Module___init__].
    rewrite bind_Ok. unfold torch_rand. cbn [forallb].
    replace (0 <=? n) with false by (symmetry; apply Z.leb_gt; lia).
    change (0 <=? 512) with true. cbn [andb]. by rewrite bind_Raise. }
  split; [|split; [exact Hneg|]].
  - split.
    + intros [self Hinit].
      destruct (Discriminator_init_inv _ _ _ Hinit) as (Hch & Hn & _).
      split; [exact Hn|].
      rewrite (Hunfold Hn) in Hinit.
      apply bind_inv in Hinit as (s0 & Happ & Hgpu).
      split.
      * apply Discriminator_apply_children in Happ as (Hch' & _).
        revert Hch'. generalize (Discriminator.children s0).
        generalize (Discriminator.children (Discriminator.layers W0 w0 b0)).
        intros l l' H. induction H as [|a a' l l' Ha _ IH]; constructor;
          [|exact IH].
        apply Module_apply_is_ok. by exists a'.
      * apply (to_gpu_is_ok gpu (Discriminator.set_gpu gpu s0)).
        by exists self.
    + intros (Hn & Hch & Hgpu). rewrite (Hunfold Hn).
      unfold Discriminator.children, Discriminator.layers in Hch.
      cbn [Discriminator.conv1 Discriminator.conv2 Discriminator.conv3
           Discriminator.att Discriminator.conv4 Discriminator.conv5
           Discriminator.conv6 Discriminator.res_block Discriminator.pooling]
        in Hch.
      repeat (apply Forall_cons_1 in Hch as [?Hm Hch]).
      repeat match goal with
             | H : initialisable _ |- _ =>
                 apply Module_apply_is_ok in H as [? H]
             end.
      unfold Discriminator.apply, Discriminator.layers.
      cbn [Discriminator.conv1 Discriminator.conv2 Discriminator.conv3
           Discriminator.att Discriminator.conv4 Discriminator.conv5
           Discriminator.conv6 Discriminator.res_block Discriminator.pooling
           Discriminator.W Discriminator.w_0 Discriminator.b
           Discriminator.gpu].
      repeat match goal with
             | H : Module_apply _ _ = Ok _ |- _ => rewrite ?H; clear H
             end.
      rewrite !bind_Ok.
      rewrite apply_self_weights_init by reflexivity. rewrite !bind_Ok.
      by apply to_gpu_is_ok.
  - intros self Hinit.
    destruct (Discriminator_init_inv _ _ _ Hinit)
      as (_ & Hn & _ & _ & _ & Hg & _).
    rewrite (Hunfold Hn) in Hinit.
    apply bind_inv in Hinit as (s0 & Happ & Hgpu).
    apply to_gpu_inv in Hgpu as [-> _].
    apply Discriminator_apply_children in Happ as (_ & HW & Hw0 & Hb).
    cbn [Discriminator.set_gpu Discriminator.W Discriminator.w_0
         Discriminator.b Discriminator.gpu].
    by rewrite HW, Hw0, Hb.
Qed.

(** ** The Discriminator: which indices it takes, and what it computes *)

Lemma transpose_12_full (t : Tensor) (a b c : Z) :
  shape t = [a; b; c] →
  ∃ t', transpose t 1 2 = Ok t' ∧ shape t' = [a; c; b] ∧
        ∀ i j k, data t' [i; j; k] = data t [i; k; j].
Proof.
  intros Hs. unfold transpose, dim. rewrite Hs.
  eexists. split; [reflexivity|]. split; reflexivity.
Qed.

Lemma transpose_01_rank3_full (t : Tensor) (a b c : Z) :
  shape t = [a; b; c] →
  ∃ t', transpose t 0 1 = Ok t' ∧ shape t' = [b; a; c] ∧
        ∀ i j k, data t' [i; j; k] = data t [j; i; k].
Proof.
  intros Hs. unfold transpose, dim. rewrite Hs.
  eexists. split; [reflexivity|]. split; reflexivity.
Qed.

Lemma add_full (x y : Tensor) (s : list Z) :
  broadcast_shapes (shape x) (shape y) = Ok s →
  ∃ t, add x y = Ok t ∧ shape t = s ∧
       ∀ idx, data t idx = (data x (bcast_index (shape x) idx) +
                            data y (bcast_index (shape y) idx))%R.
Proof.
  intros Hs. unfold add. rewrite Hs, bind_Ok.
  eexists. split; [reflexivity|]. split; reflexivity.
Qed.

Lemma bmm_full (x y : Tensor) (B n m p : Z) :
  shape x = [B; n; m] → shape y = [B; m; p] →
  ∃ t, bmm x y = Ok t ∧ shape t = [B; n; p] ∧
       ∀ i j k, data t [i; j; k]
                = Rsum ((λ l, data x [i; j; l] * data y [i; l; k])%R
                          <$> seqZ 0 m).
Proof.
  intros Hx Hy. unfold bmm. rewrite Hx, Hy, !Z.eqb_refl.
  eexists. split; [reflexivity|]. split; reflexivity.
Qed.

Lemma bmm_batch_mismatch (x y : Tensor) (B B' n m m' p : Z) :
  shape x = [B; n; m] → shape y = [B'; m'; p] → B ≠ B' →
  bmm x y = Raise RuntimeError.
Proof.
  intros Hx Hy HB. unfold bmm. rewrite Hx, Hy.
  by rewrite (proj2 (Z.eqb_neq B B') HB).
Qed.

Lemma reshape_scores_data (t t' : Tensor) (B : Z) :
  shape t = [B; 1; 1] → reshape t [B] = Ok t' →
  ∀ j, data t' [j] = data t [j; 0; 0].
Proof.
  intros Hs Hr j. unfold reshape, view in Hr.
  apply bind_inv in Hr as (s & Hi & Hr). injection Hr as <-.
  assert (s = [B]) as ->.
  { unfold infer_size in Hi. cbn [existsb orb] in Hi.
    destruct (B <? -1); [discriminate Hi|]. cbn [orb] in Hi.
    destruct (decide (B = -1)) as [->|HB].
    - unfold numel in Hi. rewrite Hs in Hi. vm_compute in Hi.
      by injection Hi as <-.
    - rewrite filter_cons_False, filter_nil in Hi by done.
      cbn [length] in Hi. destruct (_ =? _); [|discriminate Hi].
      by injection Hi as <-. }
  cbn [data]. rewrite Hs. cbn [ravel unravel prod].
  change (1 * (1 * 1)) with 1. change (1 * 1) with 1.
  rewrite Z.mul_1_r, Z.add_0_r, Z.div_1_r, Z.mod_1_r.
  reflexivity.
Qed.

Lemma view_pooled_data (t v : Tensor) (B : Z) :
  shape t = [B; 512; 1; 1] → view t [-1; 512; 1] = Ok v →
  ∀ j k, 0 ≤ k < 512 → data v [j; k; 0] = data t [j; k; 0; 0].
Proof.
  intros Hs Hv j k Hk. unfold view, numel in Hv. rewrite Hs in Hv.
  cbn [prod] in Hv. rewrite infer_size_pooled, bind_Ok in Hv.
  injection Hv as <-. cbn [data ravel unravel prod].
  change (512 * (1 * (1 * 1))) with 512. change (1 * (1 * 1)) with 1.
  change (512 * 1) with 512. change (1 * 1) with 1.
  replace (j * (512 * 1) + (k * 1 + (0 * 1 + 0))) with (k + j * 512) by lia.
  rewrite Z.div_add, Z.mod_add by lia.
  rewrite (Z.div_small k 512), (Z.mod_small k 512) by lia.
  rewrite Z.div_1_r, Z.mod_1_r. reflexivity.
Qed.

Section DiscriminatorScore.
Context `{RT : Runtime}.

(** An index tensor whose length is not the batch size gets through the
    column selection and stops at the batched product. *)
Lemma realism_score_length_mismatch (self : Discriminator.t) (x out : Tensor)
    (n B : Z) (l : list Z) :
  shape (Discriminator.W self) = [512; n] →
  shape (Discriminator.w_0 self) = [512; 1] →
  shape out = [B; 512; 1] →
  Forall (λ v, - n ≤ v < n) l → Z.of_nat (length l) ≠ B →
  Discriminator.realism_score self x out (TensorIndex l) = Raise RuntimeError.
Proof.
  intros HW Hw0 Hout Hl Hlen. unfold Discriminator.realism_score.
  destruct (transpose_12 _ _ _ _ Hout) as (_out & -> & Hs1). rewrite bind_Ok.
  destruct (select_columns_tensor _ _ _ _ HW Hl) as (c & -> & Hs2 & _).
  rewrite bind_Ok.
  destruct (unsqueeze_last_2 _ _ _ Hs2) as (c' & -> & Hs3 & _). rewrite bind_Ok.
  destruct (transpose_01_rank3 _ _ _ _ Hs3) as (_W_i & -> & Hs4).
  rewrite bind_Ok.
  destruct (add_shapes _W_i (Discriminator.w_0 self)
              [Z.of_nat (length l); 512; 1])
    as (w & -> & Hs5); [by rewrite Hs4, Hw0|]. rewrite bind_Ok.
  rewrite (bmm_batch_mismatch _ _ _ _ _ _ _ _ Hs1 Hs5); [reflexivity|].
  intros HB. by apply Hlen.
Qed.

(** The value of the score of sample [j]: the sigmoid of the inner product of
    its pooled features with the sum of the selected column of [W] and
    [w_0], plus [b]. *)
Lemma realism_score_value (self : Discriminator.t) (x out score : Tensor)
    (n B : Z) (rest l : list Z) :
  shape (Discriminator.W self) = [512; n] →
  shape (Discriminator.w_0 self) = [512; 1] →
  shape (Discriminator.b self) = [1] →
  shape x = B :: rest →
  shape out = [B; 512; 1] →
  Z.of_nat (length l) = B → Forall (λ v, - n ≤ v < n) l →
  Discriminator.realism_score self x out (TensorIndex l) = Ok score →
  ∀ j, 0 ≤ j < B →
    data score [j]
    = (/ (1 + exp (- (Rsum ((λ k : Z, data out [j; k; 0%Z] *
                                  (data (Discriminator.W self)
                                     [k; nth (Z.to_nat j)
                                           (selected_column n <$> l) 0%Z] +
                                   data (Discriminator.w_0 self) [k; 0%Z]))
                              <$> seqZ 0 512) +
                       data (Discriminator.b self) [0%Z]))))%R.
Proof.
  intros HW Hw0 Hb Hx Hout Hlen Hl Hscore j Hj.
  unfold Discriminator.realism_score in Hscore.
  destruct (transpose_12_full _ _ _ _ Hout) as (_out & E1 & Hs1 & D1).
  rewrite E1, bind_Ok in Hscore.
  destruct (select_columns_tensor _ _ _ _ HW Hl) as (c & E2 & Hs2 & D2).
  rewrite E2, bind_Ok in Hscore. rewrite Hlen in Hs2.
  destruct (unsqueeze_last_2 _ _ _ Hs2) as (c' & E3 & Hs3 & D3).
  rewrite E3, bind_Ok in Hscore.
  destruct (transpose_01_rank3_full _ _ _ _ Hs3) as (_W_i & E4 & Hs4 & D4).
  rewrite E4, bind_Ok in Hscore.
  destruct (add_full _W_i (Discriminator.w_0 self) [B; 512; 1])
    as (w & E5 & Hs5 & D5); [by rewrite Hs4, Hw0|].
  rewrite E5, bind_Ok in Hscore.
  destruct (bmm_full _ _ _ _ _ _ Hs1 Hs5) as (o & E6 & Hs6 & D6).
  rewrite E6, bind_Ok in Hscore.
  destruct (add_full o (Discriminator.b self) [B; 1; 1])
    as (o' & E7 & Hs7 & D7); [by rewrite Hs6, Hb|].
  rewrite E7, bind_Ok in Hscore.
  unfold size in Hscore. rewrite Hx in Hscore.
  cbn [lookup list_lookup] in Hscore. rewrite bind_Ok in Hscore.
  rewrite (reshape_scores_data (sigmoid o') score B Hs7 Hscore).
  cbn [sigmoid pointwise data]. do 4 f_equal.
  assert ((if B =? 1 then 0 else j) = j) as HBj.
  { destruct (Z.eqb_spec B 1); lia. }
  rewrite D7, Hs6, Hb. unfold bcast_index. cbn [length Nat.sub drop zip_with].
  change (1 =? 1) with true. cbv iota. rewrite HBj. f_equal.
  rewrite D6. f_equal. apply list_fmap_ext. intros _ k _.
  rewrite D1, D5, Hs4, Hw0. unfold bcast_index.
  cbn [length Nat.sub drop zip_with].
  change (1 =? 1) with true. change (512 =? 1) with false. cbv iota.
  rewrite HBj, D4, D3, D2. reflexivity.
Qed.
End DiscriminatorScore.

Section DiscriminatorMaps.
Context `{RT : Runtime}.

(** The encoder half of [forward], call by call: each block is applied to the
    output of the block before it, the first one to the concatenated pair. *)
Lemma Discriminator_encode_chain (n : Z) (gpu : option Z)
    (self : Discriminator.t) (x y : Tensor) (B H W : Z) :
  Discriminator.__init__ n gpu = Ok self → shape_contracts →
  shape x = [B; 3; H; W] → shape y = shape x →
  0 ≤ B → 128 ≤ H → 128 ≤ W →
  ∃ c o0 o1 o2 o3 o4 o5 o6 o7 p out,
    cat1 x y = Ok c ∧
    call (Discriminator.conv1 self) c = Ok o0 ∧
    call (Discriminator.conv2 self) o0 = Ok o1 ∧
    call (Discriminator.conv3 self) o1 = Ok o2 ∧
    call (Discriminator.att self) o2 = Ok o3 ∧
    call (Discriminator.conv4 self) o3 = Ok o4 ∧
    call (Discriminator.conv5 self) o4 = Ok o5 ∧
    call (Discriminator.conv6 self) o5 = Ok o6 ∧
    call (Discriminator.res_block self) o6 = Ok o7 ∧
    shape <$> [o0; o1; o2; o3; o4; o5; o6; o7]
    = [ [B; 64; H `div` 2; W `div` 2];
        [B; 128; H `div` 4; W `div` 4];
        [B; 256; H `div` 8; W `div` 8];
        [B; 256; H `div` 8; W `div` 8];
        [B; 512; H `div` 16; W `div` 16];
        [B; 512; H `div` 32; W `div` 32];
        [B; 512; H `div` 64; W `div` 64];
        [B; 512; H `div` 64; W `div` 64] ] ∧
    call (Discriminator.pooling self) o7 = Ok p ∧
    shape p = [B; 512; 1; 1] ∧
    view (relu p) [-1; 512; 1] = Ok out ∧
    shape out = [B; 512; 1] ∧
    ∀ i, Discriminator.forward self x y i
         = (score ← Discriminator.realism_score self x out i;
            Ok (score, [o0; o1; o2; o3; o4; o5; o6; o7])).
Proof.
  intros Hinit HC Hx Hy HB HH HW.
  destruct (Discriminator_layers_of_init _ _ _ Hinit)
    as (L1 & L2 & L3 & La & L4 & L5 & L6 & Lr & Lp).
  destruct (Discriminator_init_inv _ _ _ Hinit)
    as (_ & _ & _ & _ & _ & Hgpu & Hdev).
  destruct (cat1_same x y B 3 H W Hx ltac:(congruence)) as (c & Hc & Hcs).
  change (3 + 3) with 6 in Hcs.
  assert (∀ a, (a `div` 2) `div` 2 = a `div` 4) as D4
    by (intros a; rewrite Z.div_div by lia; reflexivity).
  assert (∀ a, (a `div` 4) `div` 2 = a `div` 8) as D8
    by (intros a; rewrite Z.div_div by lia; reflexivity).
  assert (∀ a, (a `div` 8) `div` 2 = a `div` 16) as D16
    by (intros a; rewrite Z.div_div by lia; reflexivity).
  assert (∀ a, (a `div` 16) `div` 2 = a `div` 32) as D32
    by (intros a; rewrite Z.div_div by lia; reflexivity).
  assert (∀ a, (a `div` 32) `div` 2 = a `div` 64) as D64
    by (intros a; rewrite Z.div_div by lia; reflexivity).
  assert (∀ k a, 0 < k → 2 * k ≤ a → 2 ≤ a `div` k) as Hdiv.
  { intros k a Hk Ha. apply Z.div_le_lower_bound; lia. }
  pose proof (Hdiv 2 H) as ?. pose proof (Hdiv 4 H) as ?.
  pose proof (Hdiv 8 H) as ?. pose proof (Hdiv 16 H) as ?.
  pose proof (Hdiv 32 H) as ?. pose proof (Hdiv 64 H) as ?.
  pose proof (Hdiv 2 W) as ?. pose proof (Hdiv 4 W) as ?.
  pose proof (Hdiv 8 W) as ?. pose proof (Hdiv 16 W) as ?.
  pose proof (Hdiv 32 W) as ?. pose proof (Hdiv 64 W) as ?.
  destruct (down_contract HC _ _ _ B H W L1 HB ltac:(lia) ltac:(lia) c Hcs)
    as (o0 & E0 & S0).
  destruct (down_contract HC _ _ _ B (H `div` 2) (W `div` 2) L2 HB
              ltac:(lia) ltac:(lia) o0 S0) as (o1 & E1 & S1).
  rewrite !D4 in S1.
  destruct (down_contract HC _ _ _ B (H `div` 4) (W `div` 4) L3 HB
              ltac:(lia) ltac:(lia) o1 S1) as (o2 & E2 & S2).
  rewrite !D8 in S2.
  destruct (attention_contract HC _ _ B (H `div` 8) (W `div` 8) La HB
              ltac:(lia) ltac:(lia) o2 S2) as (o3 & E3 & S3).
  destruct (down_contract HC _ _ _ B (H `div` 8) (W `div` 8) L4 HB
              ltac:(lia) ltac:(lia) o3 S3) as (o4 & E4 & S4).
  rewrite !D16 in S4.
  destruct (down_contract HC _ _ _ B (H `div` 16) (W `div` 16) L5 HB
              ltac:(lia) ltac:(lia) o4 S4) as (o5 & E5 & S5).
  rewrite !D32 in S5.
  destruct (down_contract HC _ _ _ B (H `div` 32) (W `div` 32) L6 HB
              ltac:(lia) ltac:(lia) o5 S5) as (o6 & E6 & S6).
  rewrite !D64 in S6.
  destruct (residual_contract HC _ _ B (H `div` 64) (W `div` 64) Lr HB
              ltac:(lia) ltac:(lia) o6 S6) as (o7 & E7 & S7).
  destruct (pooling_contract HC _ B 512 (H `div` 64) (W `div` 64) Lp HB
              ltac:(lia) ltac:(lia) ltac:(lia) o7 S7) as (p & Ep & Sp).
  destruct (view_pooled (relu p) B Sp) as (v & Ev & Sv).
  exists c, o0, o1, o2, o3, o4, o5, o6, o7, p, v.
  split; [exact Hc|]. split; [exact E0|]. split; [exact E1|].
  split; [exact E2|]. split; [exact E3|]. split; [exact E4|].
  split; [exact E5|]. split; [exact E6|]. split; [exact E7|].
  split; [cbn [fmap list_fmap]; by rewrite S0, S1, S2, S3, S4, S5, S6, S7|].
  split; [exact Ep|]. split; [exact Sp|]. split; [exact Ev|].
  split; [exact Sv|].
  intros i. unfold Discriminator.forward.
  rewrite (assert_rank4_rgb x B H W Hx), bind_Ok.
  rewrite Hy. rewrite bool_decide_eq_true_2 by done.
  cbn [assert]. rewrite bind_Ok.
  rewrite Hgpu, !Hdev, !bind_Ok.
  rewrite Hc, bind_Ok, E0, bind_Ok, E1, bind_Ok, E2, bind_Ok, E3, bind_Ok.
  rewrite E4, bind_Ok, E5, bind_Ok, E6, bind_Ok, E7, bind_Ok, Ep, bind_Ok.
  rewrite Ev, bind_Ok. reflexivity.
Qed.

(** The encoder half of [forward], stage by stage. *)
Lemma Discriminator_encode_stages (n : Z) (gpu : option Z)
    (self : Discriminator.t) (x y : Tensor) (B H W : Z) :
  Discriminator.__init__ n gpu = Ok self → shape_contracts →
  shape x = [B; 3; H; W] → shape y = shape x →
  0 ≤ B → 128 ≤ H → 128 ≤ W →
  ∃ o0 o1 o2 o3 o4 o5 o6 o7 p out,
    shape <$> [o0; o1; o2; o3; o4; o5; o6; o7]
    = [ [B; 64; H `div` 2; W `div` 2];
        [B; 128; H `div` 4; W `div` 4];
        [B; 256; H `div` 8; W `div` 8];
        [B; 256; H `div` 8; W `div` 8];
        [B; 512; H `div` 16; W `div` 16];
        [B; 512; H `div` 32; W `div` 32];
        [B; 512; H `div` 64; W `div` 64];
        [B; 512; H `div` 64; W `div` 64] ] ∧
    call (Discriminator.pooling self) o7 = Ok p ∧
    shape p = [B; 512; 1; 1] ∧
    view (relu p) [-1; 512; 1] = Ok out ∧
    shape out = [B; 512; 1] ∧
    ∀ i, Discriminator.forward self x y i
         = (score ← Discriminator.realism_score self x out i;
            Ok (score, [o0; o1; o2; o3; o4; o5; o6; o7])).
Proof.
  intros Hinit HC Hx Hy HB HH HW.
  destruct (Discriminator_encode_chain n gpu self x y B H W
              Hinit HC Hx Hy HB HH HW)
    as (c & o0 & o1 & o2 & o3 & o4 & o5 & o6 & o7 & p & out & _ & _ & _ & _
        & _ & _ & _ & _ & _ & Hrest).
  by exists o0, o1, o2, o3, o4, o5, o6, o7, p, out.
Qed.

(** Which index a well-formed call takes. *)
Lemma Discriminator_index_cases (n : Z) (gpu : option Z)
    (self : Discriminator.t) (x y : Tensor) (B H W : Z) (i : Index) :
  Discriminator.__init__ n gpu = Ok self → shape_contracts →
  shape x = [B; 3; H; W] → shape y = shape x →
  0 ≤ B → 128 ≤ H → 128 ≤ W →
  is_ok (Discriminator.forward self x y i) →
  ∃ l, i = TensorIndex l ∧ Z.of_nat (length l) = B ∧
       Forall (λ v, - n ≤ v < n) l.
Proof.
  intros Hinit HC Hx Hy HB HH HW [r Hr].
  destruct (Discriminator_encode n gpu self x y B H W Hinit HC Hx Hy HB HH HW)
    as (feats & out & _ & Hout & Hfwd).
  destruct (Discriminator_init_inv _ _ _ Hinit)
    as (_ & Hn & HWs & Hw0 & Hb & _).
  rewrite Hfwd in Hr. destruct i as [v|l].
  - destruct (decide (- n ≤ v < n)) as [Hv|Hv].
    + rewrite (realism_score_int self x out n B v HWs Hw0 Hout Hv) in Hr.
      discriminate Hr.
    + rewrite (realism_score_out_of_range self x out n B (IntIndex v)
                 HWs Hout Hv) in Hr. discriminate Hr.
  - destruct (decide (Forall (λ v, - n ≤ v < n) l)) as [Hl|Hl].
    + destruct (decide (Z.of_nat (length l) = B)) as [Hlen|Hlen].
      * by exists l.
      * rewrite (realism_score_length_mismatch self x out n B l
                   HWs Hw0 Hout Hl Hlen) in Hr. discriminate Hr.
    + apply not_Forall_Exists in Hl; [|intros v; apply _].
      rewrite (realism_score_out_of_range self x out n B (TensorIndex l)
                 HWs Hout Hl) in Hr. discriminate Hr.
Qed.

(** X9.  For a constructed Discriminator and a well-formed pair of images of
    batch size [B], [forward] returns exactly when the index is a tensor of
    [B] entries, each in [[-n, n)].  An index tensor of valid entries but of
    another length raises [RuntimeError] at the batched product. *)
Theorem Discriminator_index_accepted_iff (n : Z) (gpu : option Z)
    (self : Discriminator.t) (x y : Tensor) (B H W : Z) :
  Discriminator.__init__ n gpu = Ok self → shape_contracts →
  shape x = [B; 3; H; W] → shape y = shape x →
  0 ≤ B → 128 ≤ H → 128 ≤ W →
  (∀ i, is_ok (Discriminator.forward self x y i) ↔
        ∃ l, i = TensorIndex l ∧ Z.of_nat (length l) = B ∧
             Forall (λ v, - n ≤ v < n) l) ∧
  (∀ l, Forall (λ v, - n ≤ v < n) l → Z.of_nat (length l) ≠ B →
        Discriminator.forward self x y (TensorIndex l) = Raise RuntimeError).
Proof.
  intros Hinit HC Hx Hy HB HH HW.
  destruct (Discriminator_encode n gpu self x y B H W Hinit HC Hx Hy HB HH HW)
    as (feats & out & _ & Hout & Hfwd).
  destruct (Discriminator_init_inv _ _ _ Hinit)
    as (_ & Hn & HWs & Hw0 & Hb & _).
  split.
  - intros i. split.
    + by apply (Discriminator_index_cases n gpu self x y B H W i).
    + intros (l & -> & Hlen & Hl).
      destruct (realism_score_tensor self x out n B [3; H; W] l
                  HWs Hw0 Hb Hx HB Hout Hlen Hl) as (score & Hscore & _).
      exists (score, feats). by rewrite Hfwd, Hscore, bind_Ok.
  - intros l Hl Hlen. rewrite Hfwd.
    by rewrite (realism_score_length_mismatch self x out n B l
                  HWs Hw0 Hout Hl Hlen).
Qed.

(** X10.  The eight feature maps [forward] returns are the outputs of the
    six down blocks, of the attention block (after the third) and of the
    residual block, in the order of the calls: the first block is applied
    to the concatenated pair and each later one to the map before it.
    Their channel counts are 64, 128, 256, 256, 512, 512, 512, 512 and
    their sides the input's divided by 2, 4, 8, 8, 16, 32, 64, 64. *)
Theorem Discriminator_feature_shapes (n : Z) (gpu : option Z)
    (self : Discriminator.t) (x y : Tensor) (B H W : Z) (i : Index)
    (score : Tensor) (feats : list Tensor) :
  Discriminator.__init__ n gpu = Ok self → shape_contracts →
  shape x = [B; 3; H; W] → shape y = shape x →
  0 ≤ B → 128 ≤ H → 128 ≤ W →
  Discriminator.forward self x y i = Ok (score, feats) →
  ∃ c o0 o1 o2 o3 o4 o5 o6 o7,
    cat1 x y = Ok c ∧
    call (Discriminator.conv1 self) c = Ok o0 ∧
    call (Discriminator.conv2 self) o0 = Ok o1 ∧
    call (Discriminator.conv3 self) o1 = Ok o2 ∧
    call (Discriminator.att self) o2 = Ok o3 ∧
    call (Discriminator.conv4 self) o3 = Ok o4 ∧
    call (Discriminator.conv5 self) o4 = Ok o5 ∧
    call (Discriminator.conv6 self) o5 = Ok o6 ∧
    call (Discriminator.res_block self) o6 = Ok o7 ∧
    feats = [o0; o1; o2; o3; o4; o5; o6; o7] ∧
    shape <$> feats
    = [ [B; 64; H `div` 2; W `div` 2];
        [B; 128; H `div` 4; W `div` 4];
        [B; 256; H `div` 8; W `div` 8];
        [B; 256; H `div` 8; W `div` 8];
        [B; 512; H `div` 16; W `div` 16];
        [B; 512; H `div` 32; W `div` 32];
        [B; 512; H `div` 64; W `div` 64];
        [B; 512; H `div` 64; W `div` 64] ].
Proof.
  intros Hinit HC Hx Hy HB HH HW Hf.
  destruct (Discriminator_encode_chain n gpu self x y B H W
              Hinit HC Hx Hy HB HH HW)
    as (c & o0 & o1 & o2 & o3 & o4 & o5 & o6 & o7 & p & out & Hc & E0 & E1
        & E2 & E3 & E4 & E5 & E6 & E7 & Hsh & _ & _ & _ & _ & Hfwd).
  rewrite Hfwd in Hf. apply bind_inv in Hf as (s & _ & Hf).
  injection Hf as _ <-.
  exists c, o0, o1, o2, o3, o4, o5, o6, o7.
  split; [exact Hc|]. split; [exact E0|]. split; [exact E1|].
  split; [exact E2|]. split; [exact E3|]. split; [exact E4|].
  split; [exact E5|]. split; [exact E6|]. split; [exact E7|].
  split; [reflexivity | exact Hsh].
Qed.

(** X11.  The score [forward] returns for sample [j] is the sigmoid of
    [sum_k f_k * (W[k, c] + w_0[k, 0]) + b[0]], where [f] is the rectified
    pooled last feature map of the sample and [c] the column its index
    selects (counted from the end when negative). *)
Theorem Discriminator_score_formula (n : Z) (gpu : option Z)
    (self : Discriminator.t) (x y : Tensor) (B H W : Z) (l : list Z)
    (score : Tensor) (feats : list Tensor) :
  Discriminator.__init__ n gpu = Ok self → shape_contracts →
  shape x = [B; 3; H; W] → shape y = shape x →
  0 ≤ B → 128 ≤ H → 128 ≤ W →
  Discriminator.forward self x y (TensorIndex l) = Ok (score, feats) →
  ∃ f7 p, last feats = Some f7 ∧
    call (Discriminator.pooling self) f7 = Ok p ∧
    ∀ j, 0 ≤ j < B →
      data score [j]
      = (/ (1 + exp (- (Rsum ((λ k : Z,
                                 Rmax 0 (data p [j; k; 0%Z; 0%Z]) *
                                 (data (Discriminator.W self)
                                    [k; nth (Z.to_nat j)
                                          (selected_column n <$> l) 0%Z] +
                                  data (Discriminator.w_0 self) [k; 0%Z]))
                                <$> seqZ 0 512) +
                         data (Discriminator.b self) [0%Z]))))%R.
Proof.
  intros Hinit HC Hx Hy HB HH HW Hf.
  destruct (Discriminator_index_cases n gpu self x y B H W (TensorIndex l)
              Hinit HC Hx Hy HB HH HW) as (l' & [= <-] & Hlen & Hl);
    [by eexists|].
  destruct (Discriminator_encode_stages n gpu self x y B H W
              Hinit HC Hx Hy HB HH HW)
    as (o0 & o1 & o2 & o3 & o4 & o5 & o6 & o7 & p & out & _ & Ep & Sp & Ev
        & Sv & Hfwd).
  destruct (Discriminator_init_inv _ _ _ Hinit)
    as (_ & Hn & HWs & Hw0 & Hb & _).
  rewrite Hfwd in Hf. apply bind_inv in Hf as (s & Hs & Hf).
  injection Hf as -> <-.
  exists o7, p. split; [reflexivity|]. split; [exact Ep|].
  intros j Hj.
  rewrite (realism_score_value self x out score n B [3; H; W] l
             HWs Hw0 Hb Hx Sv Hlen Hl Hs j Hj).
  do 6 f_equal. apply list_fmap_ext. intros a k Hk.
  apply lookup_seqZ in Hk as [-> Hk].
  rewrite (view_pooled_data (relu p) out B Sp Ev j (0 + Z.of_nat a)) by lia.
  reflexivity.
Qed.
(** C4, as the code has it.  [forward] raises [AssertionError] whenever [x]
    is not of rank 4, or does not have 3 channels, or [y] has another shape
    than [x].  For a Discriminator that its constructor returned and two
    images of one shape [[B; 3; H; W]] (at least 128 pixels a side),
    [forward] returns when it is given an index tensor with one valid video
    index per sample.  What it returns is then a tensor of [B] scores, each
    in [[0, 1]], score [j] being the sigmoid of the inner product of the
    rectified pooled last feature map of sample [j] with the selected
    column of [W] plus [w_0], plus [b]; and a list of exactly eight feature
    maps, the outputs of [conv1], [conv2], [conv3], [att], [conv4], [conv5],
    [conv6] and [res_block] in the order of the calls, each applied to the
    map before it and the first to the concatenated pair.  Given a Python
    integer for index, [forward] returns for no well-formed pair. *)
Theorem Discriminator_forward_contract (n : Z) (gpu : option Z)
    (self : Discriminator.t) :
  Discriminator.__init__ n gpu = Ok self → shape_contracts →
  (∀ (any : Discriminator.t) x y i,
     dim x ≠ 4 ∨ nth 1 (shape x) 0 ≠ 3 ∨ shape x ≠ shape y →
     Discriminator.forward any x y i = Raise AssertionError) ∧
  (∀ x y B H W l,
     shape x = [B; 3; H; W] → shape y = shape x →
     128 ≤ H → 128 ≤ W →
     Z.of_nat (length l) = B → Forall (λ v, - n ≤ v < n) l →
     ∃ score c o0 o1 o2 o3 o4 o5 o6 o7 p,
       Discriminator.forward self x y (TensorIndex l)
       = Ok (score, [o0; o1; o2; o3; o4; o5; o6; o7]) ∧
       cat1 x y = Ok c ∧
       call (Discriminator.conv1 self) c = Ok o0 ∧
       call (Discriminator.conv2 self) o0 = Ok o1 ∧
       call (Discriminator.conv3 self) o1 = Ok o2 ∧
       call (Discriminator.att self) o2 = Ok o3 ∧
       call (Discriminator.conv4 self) o3 = Ok o4 ∧
       call (Discriminator.conv5 self) o4 = Ok o5 ∧
       call (Discriminator.conv6 self) o5 = Ok o6 ∧
       call (Discriminator.res_block self) o6 = Ok o7 ∧
       call (Discriminator.pooling self) o7 = Ok p ∧
       shape score = [B] ∧ unit_valued score ∧
       ∀ j, 0 ≤ j < B →
         data score [j]
         = (/ (1 + exp (- (Rsum ((λ k : Z,
                                    Rmax 0 (data p [j; k; 0%Z; 0%Z]) *
                                    (data (Discriminator.W self)
                                       [k; nth (Z.to_nat j)
                                             (selected_column n <$> l) 0%Z] +
                                     data (Discriminator.w_0 self) [k; 0%Z]))
                                   <$> seqZ 0 512) +
                            data (Discriminator.b self) [0%Z]))))%R) ∧
  (∀ x y B H W v,
     shape x = [B; 3; H; W] → shape y = shape x →
     0 ≤ B → 128 ≤ H → 128 ≤ W →
     ¬ is_ok (Discriminator.forward self x y (IntIndex v))).
Proof.
  intros Hinit HC. split; [exact Discriminator_rejects|]. split.
  - intros x y B H W l Hx Hy HH HW Hlen Hl.
    assert (0 ≤ B) as HB by lia.
    destruct (Discriminator_encode_chain n gpu self x y B H W
                Hinit HC Hx Hy HB HH HW)
      as (c & o0 & o1 & o2 & o3 & o4 & o5 & o6 & o7 & p & out & Hc & E0 & E1
          & E2 & E3 & E4 & E5 & E6 & E7 & _ & Ep & Sp & Ev & Sv & Hfwd).
    destruct (Discriminator_init_inv _ _ _ Hinit)
      as (_ & _ & HWs & Hw0 & Hb & _).
    destruct (realism_score_tensor self x out n B [3; H; W] l
                HWs Hw0 Hb Hx HB Sv Hlen Hl) as (score & Hscore & Hs & Hu).
    exists score, c, o0, o1, o2, o3, o4, o5, o6, o7, p.
    split; [by rewrite Hfwd, Hscore, bind_Ok|].
    split; [exact Hc|]. split; [exact E0|]. split; [exact E1|].
    split; [exact E2|]. split; [exact E3|]. split; [exact E4|].
    split; [exact E5|]. split; [exact E6|]. split; [exact E7|].
    split; [exact Ep|]. split; [exact Hs|]. split; [exact Hu|].
    intros j Hj.
    rewrite (realism_score_value self x out score n B [3; H; W] l
               HWs Hw0 Hb Hx Sv Hlen Hl Hscore j Hj).
    do 6 f_equal. apply list_fmap_ext. intros a k Hk.
    apply lookup_seqZ in Hk as [-> Hk].
    rewrite (view_pooled_data (relu p) out B Sp Ev j (0 + Z.of_nat a)) by lia.
    reflexivity.
  - intros x y B H W v Hx Hy HB HH HW Hok.
    destruct (Discriminator_index_cases n gpu self x y B H W (IntIndex v)
                Hinit HC Hx Hy HB HH HW Hok) as (l & Hl & _).
    discriminate Hl.
Qed.

End DiscriminatorMaps.

Lemma reference_discriminator_run :
  ∃ self score feats,
    @Discriminator.__init__ reference_runtime 10 None = Ok self ∧
    @Discriminator.forward reference_runtime self (zeros [2; 3; 256; 256])
      (zeros [2; 3; 256; 256]) (TensorIndex [0; -1]) = Ok (score, feats).
Proof.
  destruct (@Discriminator.__init__ reference_runtime 10 None)
    as [self|] eqn:Hinit; [|by vm_compute in Hinit].
  destruct (@Discriminator_encode reference_runtime 10 None self
              (zeros [2; 3; 256; 256]) (zeros [2; 3; 256; 256]) 2 256 256
              Hinit reference_contracts eq_refl eq_refl)
    as (feats & out & _ & Hout & Hfwd); [lia..|].
  destruct (Discriminator_init_inv _ _ _ Hinit)
    as (_ & Hn & HWs & Hw0 & Hb & _).
  destruct (realism_score_tensor self
              (zeros [2; 3; 256; 256]) out 10 2 [3; 256; 256] [0; -1]
              HWs Hw0 Hb eq_refl ltac:(lia) Hout eq_refl)
    as (score & Hscore & _).
  { repeat (constructor; [lia|]). constructor. }
  exists self, score, feats. split; [reflexivity|].
  by rewrite Hfwd, Hscore, bind_Ok.
Qed.

Lemma Discriminator_index_accepted_iff_witness :
  ∃ self, @Discriminator.__init__ reference_runtime 10 None = Ok self ∧
    is_ok (@Discriminator.forward reference_runtime self
             (zeros [2; 3; 256; 256]) (zeros [2; 3; 256; 256])
             (TensorIndex [0; -1])) ∧
    ¬ is_ok (@Discriminator.forward reference_runtime self
               (zeros [2; 3; 256; 256]) (zeros [2; 3; 256; 256])
               (IntIndex 0)) ∧
    @Discriminator.forward reference_runtime self
      (zeros [2; 3; 256; 256]) (zeros [2; 3; 256; 256])
      (TensorIndex [0; 1; 2]) = Raise RuntimeError.
Proof.
  destruct (@Discriminator.__init__ reference_runtime 10 None)
    as [self|] eqn:Hinit; [|by vm_compute in Hinit].
  exists self. split; [reflexivity|].
  destruct (@Discriminator_index_accepted_iff reference_runtime 10 None self
              (zeros [2; 3; 256; 256]) (zeros [2; 3; 256; 256]) 2 256 256
              Hinit reference_contracts eq_refl eq_refl)
    as (Hiff & Hmis); [lia..|].
  split; [|split].
  - apply Hiff. exists [0; -1]. split; [reflexivity|]. split; [reflexivity|].
    repeat (constructor; [lia|]). constructor.
  - intros Hok. apply Hiff in Hok as (l & Hl & _). discriminate Hl.
  - apply Hmis; [|cbn; lia]. repeat (constructor; [lia|]). constructor.
Defined.

Lemma Discriminator_feature_shapes_witness :
  ∃ self score feats c o0 o1 o2 o3 o4 o5 o6 o7,
    @Discriminator.__init__ reference_runtime 10 None = Ok self ∧
    @Discriminator.forward reference_runtime self (zeros [2; 3; 256; 256])
      (zeros [2; 3; 256; 256]) (TensorIndex [0; -1]) = Ok (score, feats) ∧
    cat1 (zeros [2; 3; 256; 256]) (zeros [2; 3; 256; 256]) = Ok c ∧
    @call reference_runtime (Discriminator.conv1 self) c = Ok o0 ∧
    @call reference_runtime (Discriminator.conv2 self) o0 = Ok o1 ∧
    @call reference_runtime (Discriminator.conv3 self) o1 = Ok o2 ∧
    @call reference_runtime (Discriminator.att self) o2 = Ok o3 ∧
    @call reference_runtime (Discriminator.conv4 self) o3 = Ok o4 ∧
    @call reference_runtime (Discriminator.conv5 self) o4 = Ok o5 ∧
    @call reference_runtime (Discriminator.conv6 self) o5 = Ok o6 ∧
    @call reference_runtime (Discriminator.res_block self) o6 = Ok o7 ∧
    feats = [o0; o1; o2; o3; o4; o5; o6; o7] ∧
    shape <$> feats
    = [ [2; 64; 128; 128]; [2; 128; 64; 64]; [2; 256; 32; 32];
        [2; 256; 32; 32]; [2; 512; 16; 16]; [2; 512; 8; 8];
        [2; 512; 4; 4]; [2; 512; 4; 4] ].
Proof.
  destruct reference_discriminator_run as (self & score & feats & Hinit & Hf).
  destruct (@Discriminator_feature_shapes reference_runtime 10 None self
              (zeros [2; 3; 256; 256]) (zeros [2; 3; 256; 256]) 2 256 256
              (TensorIndex [0; -1]) score feats Hinit reference_contracts
              eq_refl eq_refl ltac:(lia) ltac:(lia) ltac:(lia) Hf)
    as (c & o0 & o1 & o2 & o3 & o4 & o5 & o6 & o7 & Hrest).
  exists self, score, feats, c, o0, o1, o2, o3, o4, o5, o6, o7.
  split; [exact Hinit|]. split; [exact Hf | exact Hrest].
Defined.

Lemma Discriminator_score_formula_witness :
  ∃ self score feats f7 p,
    @Discriminator.__init__ reference_runtime 10 None = Ok self ∧
    @Discriminator.forward reference_runtime self (zeros [2; 3; 256; 256])
      (zeros [2; 3; 256; 256]) (TensorIndex [0; -1]) = Ok (score, feats) ∧
    last feats = Some f7 ∧
    @call reference_runtime (Discriminator.pooling self) f7 = Ok p ∧
    ∀ j, 0 ≤ j < 2 →
      data score [j]
      = (/ (1 + exp (- (Rsum ((λ k : Z,
                                 Rmax 0 (data p [j; k; 0%Z; 0%Z]) *
                                 (data (Discriminator.W self)
                                    [k; nth (Z.to_nat j)
                                          (selected_column 10 <$> [0; -1]%Z)
                                          0%Z] +
                                  data (Discriminator.w_0 self) [k; 0%Z]))
                                <$> seqZ 0 512) +
                         data (Discriminator.b self) [0%Z]))))%R.
Proof.
  destruct reference_discriminator_run as (self & score & feats & Hinit & Hf).
  destruct (@Discriminator_score_formula reference_runtime 10 None self
              (zeros [2; 3; 256; 256]) (zeros [2; 3; 256; 256]) 2 256 256
              [0; -1] score feats Hinit reference_contracts
              eq_refl eq_refl ltac:(lia) ltac:(lia) ltac:(lia) Hf)
    as (f7 & p & Hlast & Hp & Hval).
  by exists self, score, feats, f7, p.
Defined.

(** A Discriminator for 10 videos and two 256x256 images, videos 0 and 9:
    two scores and the eight maps of the eight blocks. *)
Lemma Discriminator_forward_contract_witness :
  ∃ self score c o0 o1 o2 o3 o4 o5 o6 o7 p,
    @Discriminator.__init__ reference_runtime 10 None = Ok self ∧
    @Discriminator.forward reference_runtime self (zeros [2; 3; 256; 256])
      (zeros [2; 3; 256; 256]) (TensorIndex [0; 9])
    = Ok (score, [o0; o1; o2; o3; o4; o5; o6; o7]) ∧
    cat1 (zeros [2; 3; 256; 256]) (zeros [2; 3; 256; 256]) = Ok c ∧
    @call reference_runtime (Discriminator.conv1 self) c = Ok o0 ∧
    @call reference_runtime (Discriminator.conv2 self) o0 = Ok o1 ∧
    @call reference_runtime (Discriminator.conv3 self) o1 = Ok o2 ∧
    @call reference_runtime (Discriminator.att self) o2 = Ok o3 ∧
    @call reference_runtime (Discriminator.conv4 self) o3 = Ok o4 ∧
    @call reference_runtime (Discriminator.conv5 self) o4 = Ok o5 ∧
    @call reference_runtime (Discriminator.conv6 self) o5 = Ok o6 ∧
    @call reference_runtime (Discriminator.res_block self) o6 = Ok o7 ∧
    @call reference_runtime (Discriminator.pooling self) o7 = Ok p ∧
    shape score = [2] ∧ unit_valued score ∧
    (∀ j, 0 ≤ j < 2 →
       data score [j]
       = (/ (1 + exp (- (Rsum ((λ k : Z,
                                  Rmax 0 (data p [j; k; 0%Z; 0%Z]) *
                                  (data (Discriminator.W self)
                                     [k; nth (Z.to_nat j)
                                           (selected_column 10 <$> [0; 9]%Z)
                                           0%Z] +
                                   data (Discriminator.w_0 self) [k; 0%Z]))
                                 <$> seqZ 0 512) +
                          data (Discriminator.b self) [0%Z]))))%R) ∧
    ¬ is_ok (@Discriminator.forward reference_runtime self
               (zeros [2; 3; 256; 256]) (zeros [2; 3; 256; 256])
               (IntIndex 0)).
Proof.
  destruct (@Discriminator.__init__ reference_runtime 10 None)
    as [self|] eqn:Hinit; [|by vm_compute in Hinit].
  destruct (@Discriminator_forward_contract reference_runtime 10 None self
              Hinit reference_contracts) as (_ & Hok & Hint).
  destruct (Hok (zeros [2; 3; 256; 256]) (zeros [2; 3; 256; 256])
              2 256 256 [0; 9])
    as (score & c & o0 & o1 & o2 & o3 & o4 & o5 & o6 & o7 & p & Hf & Hc & E0
        & E1 & E2 & E3 & E4 & E5 & E6 & E7 & Ep & Hs & Hu & Hval);
    [reflexivity | reflexivity | lia | lia | reflexivity | |].
  { repeat (constructor; [lia|]). constructor. }
  exists self, score, c, o0, o1, o2, o3, o4, o5, o6, o7, p.
  split; [reflexivity|]. split; [exact Hf|]. split; [exact Hc|].
  split; [exact E0|]. split; [exact E1|]. split; [exact E2|].
  split; [exact E3|]. split; [exact E4|]. split; [exact E5|].
  split; [exact E6|]. split; [exact E7|]. split; [exact Ep|].
  split; [exact Hs|]. split; [exact Hu|]. split; [exact Hval|].
  apply (Hint (zeros [2; 3; 256; 256]) (zeros [2; 3; 256; 256]) 2 256 256 0);
    [reflexivity | reflexivity | lia | lia | lia].
Defined.

(** A well-formed pair of two 256x256 images and the integer index 0 of a
    Discriminator for 10 videos: [forward] raises. *)
Lemma Discriminator_well_formed_pair_counterexample :
  ∃ self, @Discriminator.__init__ reference_runtime 10 None = Ok self ∧
    @Discriminator.forward reference_runtime self (zeros [2; 3; 256; 256])
      (zeros [2; 3; 256; 256]) (IntIndex 0) = Raise RuntimeError.
Proof. eexists. split; [reflexivity | vm_compute; reflexivity]. Qed.

(** ** The Embedder and the configured embedding length *)

Lemma infer_size_flat (E m : Z) :
  (0 < E ∧ m `mod` E = 0 → infer_size [-1; E] m = Ok [m `div` E; E]) ∧
  (¬ (0 < E ∧ m `mod` E = 0) → infer_size [-1; E] m = Raise RuntimeError).
Proof.
  unfold infer_size. cbn [existsb]. change (-1 <? -1) with false.
  cbn [orb]. destruct (Z.ltb_spec E (-1)) as [HE|HE].
  { split; [lia | reflexivity]. }
  rewrite filter_cons_True by done.
  destruct (decide (E = -1)) as [->|HE1].
  { split; [lia | reflexivity]. }
  rewrite filter_cons_False by done. rewrite filter_nil. cbn [length].
  rewrite (filter_cons_False (λ s, s ≠ -1)) by (intros Hne; by apply Hne).
  rewrite filter_cons_True by done. rewrite filter_nil. cbn [prod].
  rewrite Z.mul_1_r. cbn [fmap list_fmap].
  change (-1 =? -1) with true. cbv iota.
  rewrite (proj2 (Z.eqb_neq E (-1)) HE1).
  destruct (Z.ltb_spec 0 E) as [Hpos|Hpos]; cbn [andb];
    [|split; [lia | reflexivity]].
  destruct (Z.eqb_spec (m `mod` E) 0) as [Hm|Hm].
  - split; [reflexivity | intros Hn; exfalso; apply Hn; by split].
  - split; [intros [_ ?]; contradiction | reflexivity].
Qed.

Section EmbedderLength.
Context `{CF : Config} `{RT : Runtime}.

(** X12.  For a constructed Embedder and a batch of [B] 3-channel images,
    [forward] returns exactly when the configured embedding length is
    positive and divides [512 * B], the number of pooled features; the
    result then has [512 * B / E_VECTOR_LENGTH] rows.  For every other
    configured length it raises [RuntimeError], at the final [view]. *)
Theorem Embedder_forward_returns_iff (gpu : option Z) (self : Embedder.t)
    (x : Tensor) (B H W : Z) :
  Embedder.__init__ gpu = Ok self → shape_contracts →
  shape x = [B; 3; H; W] → 0 ≤ B → 64 ≤ H → 64 ≤ W →
  (is_ok (Embedder.forward self x) ↔
     0 < E_VECTOR_LENGTH ∧ (B * 512) `mod` E_VECTOR_LENGTH = 0) ∧
  (∀ out, Embedder.forward self x = Ok out →
     shape out = [(B * 512) `div` E_VECTOR_LENGTH; E_VECTOR_LENGTH]) ∧
  (¬ (0 < E_VECTOR_LENGTH ∧ (B * 512) `mod` E_VECTOR_LENGTH = 0) →
     Embedder.forward self x = Raise RuntimeError).
Proof.
  intros Hinit HC Hx HB HH HW.
  destruct (Embedder_encode gpu self x B H W Hinit HC Hx HB HH HW)
    as (p & Sp & Hfwd).
  rewrite Hfwd. unfold view, numel. rewrite Sp. cbn [prod].
  replace (B * (512 * (1 * (1 * 1)))) with (B * 512) by lia.
  destruct (infer_size_flat E_VECTOR_LENGTH (B * 512)) as [Hyes Hno].
  destruct (decide (0 < E_VECTOR_LENGTH ∧ (B * 512) `mod` E_VECTOR_LENGTH = 0))
    as [Hd|Hd].
  - rewrite (Hyes Hd), !bind_Ok. split; [|split].
    + split; [done | by eexists].
    + by intros out [= <-].
    + intros Hn. contradiction.
  - rewrite (Hno Hd), !bind_Raise. split; [|split].
    + split; [intros [? [=]] | intros; contradiction].
    + intros out [=].
    + reflexivity.
Qed.
End EmbedderLength.

Lemma Embedder_forward_returns_iff_witness :
  ∃ self, @Embedder.__init__ reference_runtime None = Ok self ∧
    is_ok (@Embedder.forward config_256 reference_runtime self
             (zeros [3; 3; 64; 64])) ∧
    (∀ out, @Embedder.forward config_256 reference_runtime self
              (zeros [3; 3; 64; 64]) = Ok out → shape out = [6; 256]).
Proof.
  destruct (@Embedder.__init__ reference_runtime None)
    as [self|] eqn:Hinit; [|by vm_compute in Hinit].
  exists self. split; [reflexivity|].
  destruct (@Embedder_forward_returns_iff config_256 reference_runtime None
              self (zeros [3; 3; 64; 64]) 3 64 64 Hinit reference_contracts
              eq_refl) as (Hiff & Hsh & _); [lia..|].
  split; [apply Hiff; by split | exact Hsh].
Defined.

(** ** Slicing a psi vector of another length *)






(** ** The decoder with a dynamic feature map *)

Lemma broadcast_rev_same (s : list Z) : broadcast_rev s s = Ok s.
Proof.
  induction s as [|a s IH]; [reflexivity|].
  cbn [broadcast_rev]. by rewrite IH, bind_Ok, Z.eqb_refl.
Qed.

Lemma iadd_same_shape (x y : Tensor) :
  shape y = shape x → ∃ r, iadd x y = Ok r ∧ shape r = shape x.
Proof.
  intros Hy. unfold iadd, add, broadcast_shapes.
  rewrite Hy, broadcast_rev_same, !bind_Ok, rev_involutive.
  cbn [shape]. rewrite bool_decide_eq_true_2 by done.
  eexists. split; reflexivity.
Qed.

Section GeneratorDynamic.
Context `{CF : Config} `{RT : Runtime}.

(** X14.  [forward] of a Generator whose layers are those the constructor
    lists, on a seed [y] of shape [[B; 512; 1; 1]] and [B] embeddings:
    without [s], and with no dynamic map or one of shape
    [[B; 128; 64; 64]] (added after the fourth stage), it returns an image
    batch of shape [[B; 3; 256; 256]] with every value in [[0, 1]]; with
    any [s] it raises [TypeError], [static_fc] being a parameter and not a
    layer. *)
Theorem Generator_forward_contract P proj sfc (gpu : option Z)
    (self : Generator.t) (y e : Tensor) (B : Z) :
  Generator.decoding_layers P 6918 proj sfc gpu = Ok self →
  define_psi_slices ADAIN_LAYERS = Ok (P, 6918) →
  shape proj = [6918; E_VECTOR_LENGTH] →
  shape_contracts → decoder_contracts →
  shape y = [B; 512; 1; 1] → shape e = [B; E_VECTOR_LENGTH] → 1 ≤ B →
  (∀ d, (∀ t, d = Some t → shape t = [B; 128; 64; 64]) →
     ∃ out, Generator.forward self y e None d = Ok out ∧
            shape out = [B; 3; 256; 256] ∧ unit_valued out) ∧
  (∀ s d, Generator.forward self y e (Some s) d = Raise TypeError).
Proof.
  intros Hinit Hpsi Hproj HC HD Hy He HB.
  destruct (Generator_decoding_layers_fields _ _ _ _ _ _ Hinit)
    as (HP & Hpr & Hgpu & Hdev).
  destruct (Generator_layers_of_init _ _ _ _ _ _ Hinit)
    as (Lfc & D6 & N6 & D5 & N5 & D4 & N4 & D3 & N3 & La & D2 & N2 & D1 & N1).
  rewrite <- HP in Hpsi. rewrite <- Hpr in Hproj.
  split; [|intros s d; unfold Generator.forward;
           by rewrite Hgpu, !Hdev, !bind_Ok, Hy, !bind_Ok].
  intros d Hd. unfold Generator.forward.
  rewrite Hgpu, !Hdev, !bind_Ok. rewrite Hy, !bind_Ok.
  (* psi_hat *)
  destruct (unsqueeze_front _ _ _ Hproj) as (P0 & -> & SP0). rewrite bind_Ok.
  rewrite (size_lookup e 0 B) by (by rewrite He). rewrite bind_Ok.
  rewrite (size_lookup P0 1 6918) by (by rewrite SP0). rewrite bind_Ok.
  rewrite (size_lookup P0 2 E_VECTOR_LENGTH) by (by rewrite SP0).
  rewrite bind_Ok.
  destruct (expand_batch _ _ _ B SP0 ltac:(lia)) as (P1 & -> & SP1).
  rewrite bind_Ok.
  destruct (unsqueeze_2_rank2 _ _ _ He) as (e2 & -> & Se2). rewrite bind_Ok.
  destruct (bmm_shapes _ _ _ _ _ _ SP1 Se2) as (ps & -> & Sps).
  rewrite bind_Ok.
  destruct (squeeze_last _ _ _ Sps) as (psi_hat & -> & Hps). rewrite bind_Ok.
  (* the 4x4 seed *)
  destruct (unsqueeze_2_rank4 _ _ _ _ _ Hy) as (y2 & -> & Sy2).
  rewrite bind_Ok.
  destruct (linear_contract HD (Generator.fc self) 1 16 [B; 512; 1; 1] Lfc
              y2 Sy2) as (s0 & -> & Ss0).
  rewrite bind_Ok.
  destruct (view_seed _ _ Ss0 HB) as (seed & -> & Sseed). rewrite bind_Ok.
  (* the first four stages *)
  destruct (Generator_stage_shape self _ _ "deconv6" 512 512 psi_hat seed
              B 4 4 HD Hpsi eq_refl D6 N6 Hps Sseed)
    as (o6 & -> & S6); [lia..|]. rewrite bind_Ok.
  destruct (Generator_stage_shape self _ _ "deconv5" 512 512 psi_hat o6
              B 8 8 HD Hpsi eq_refl D5 N5 Hps S6)
    as (o5 & -> & S5); [lia..|]. rewrite bind_Ok.
  destruct (Generator_stage_shape self _ _ "deconv4" 512 256 psi_hat o5
              B 16 16 HD Hpsi eq_refl D4 N4 Hps S5)
    as (o4 & -> & S4); [lia..|]. rewrite bind_Ok.
  destruct (Generator_stage_shape self _ _ "deconv3" 256 128 psi_hat o4
              B 32 32 HD Hpsi eq_refl D3 N3 Hps S4)
    as (o3 & -> & S3); [lia..|]. rewrite bind_Ok.
  (* the dynamic map *)
  assert (∃ o3', match d with
                 | Some d => iadd o3 d
                 | None => Ok o3
                 end = Ok o3' ∧ shape o3' = [B; 128; 2 * 32; 2 * 32])
    as (o3' & -> & S3').
  { destruct d as [t|]; [|by exists o3].
    destruct (iadd_same_shape o3 t) as (r & Hr & Sr).
    - rewrite (Hd t eq_refl), S3. reflexivity.
    - exists r. split; [exact Hr|]. by rewrite Sr. }
  rewrite bind_Ok.
  (* attention and the last two stages *)
  destruct (attention_contract HC _ 128 B 64 64 La ltac:(lia) ltac:(lia)
              ltac:(lia) o3' S3') as (oa & -> & Sa). rewrite bind_Ok.
  destruct (Generator_stage_shape self _ _ "deconv2" 128 64 psi_hat oa
              B 64 64 HD Hpsi eq_refl D2 N2 Hps Sa)
    as (o2 & -> & S2); [lia..|]. rewrite bind_Ok.
  destruct (Generator_stage_shape self _ _ "deconv1" 64 3 psi_hat o2
              B 128 128 HD Hpsi eq_refl D1 N1 Hps S2)
    as (o1 & -> & S1); [lia..|]. rewrite bind_Ok.
  exists (sigmoid o1). split; [reflexivity|].
  split; [exact S1 | apply sigmoid_unit_valued].
Qed.
End GeneratorDynamic.

Lemma Generator_forward_contract_witness :
  ∃ P self out,
    define_psi_slices ADAIN_LAYERS = Ok (P, 6918) ∧
    @Generator.decoding_layers reference_runtime P 6918 (zeros [6918; 512])
      (zeros [512; 512]) None = Ok self ∧
    @Generator.forward reference_runtime self (zeros [2; 512; 1; 1])
      (zeros [2; 512]) None (Some (zeros [2; 128; 64; 64])) = Ok out ∧
    shape out = [2; 3; 256; 256] ∧ unit_valued out ∧
    @Generator.forward reference_runtime self (zeros [2; 512; 1; 1])
      (zeros [2; 512]) (Some (zeros [2; 512])) None = Raise TypeError.
Proof.
  destruct define_psi_slices_fixed as [P HP].
  destruct (@Generator.decoding_layers reference_runtime P 6918
              (zeros [6918; 512]) (zeros [512; 512]) None)
    as [self|] eqn:Hinit; [|by vm_compute in Hinit].
  destruct (@Generator_forward_contract config_512 reference_runtime P
              (zeros [6918; 512]) (zeros [512; 512]) None self
              (zeros [2; 512; 1; 1]) (zeros [2; 512]) 2 Hinit HP eq_refl
              reference_contracts reference_decoder_contracts eq_refl eq_refl
              ltac:(lia)) as (Hok & Hs).
  destruct (Hok (Some (zeros [2; 128; 64; 64]))) as (out & Hout & Hsh & Hu).
  { by intros t [= <-]. }
  exists P, self, out.
  split; [exact HP|]. split; [exact Hinit|]. split; [exact Hout|].
  split; [exact Hsh|]. split; [exact Hu | apply Hs].
Defined.

(** ** The Dynamic Adder *)

Section DynamicAdderForward.
Context `{RT : Runtime}.

(** X15.  [forward] of a Dynamic Adder whose [fc] is the [Linear(1, 16)] the
    constructor lists: an input that does not have two dimensions raises
    [ValueError]; a batch of [B > 0] codes of any length but 1 raises
    [RuntimeError] at the [view]; for codes of length 1 the linear layer's
    16 values per sample are viewed as one [[B; 4; 4]] tensor, of three
    dimensions, and the rest of [forward] is the up blocks and normalizations
    run on that tensor. *)
Theorem DynamicAdder_forward_input (self : DynamicAdder.t) (x : Tensor) :
  decoder_contracts →
  is_layer (DynamicAdder.fc self) "Linear" [1; 16] →
  (dim x ≠ 2 → DynamicAdder.forward self x = Raise ValueError) ∧
  (∀ B n, shape x = [B; n] → 0 < B → n ≠ 1 →
     DynamicAdder.forward self x = Raise RuntimeError) ∧
  (∀ B, shape x = [B; 1] → 0 ≤ B →
     ∃ seed, shape seed = [B; 4; 4] ∧
       DynamicAdder.forward self x
       = (out ← call (DynamicAdder.deconv2 self) seed;
          out ← call (DynamicAdder.in2_d self) out;
          out ← call (DynamicAdder.deconv1 self) out;
          call (DynamicAdder.in1_d self) out)).
Proof.
  intros HD Lfc. split; [|split].
  - intros Hdim. unfold DynamicAdder.forward. unfold dim in Hdim.
    destruct (shape x) as [|B [|n [|? ?]]]; try reflexivity.
    by destruct Hdim.
  - intros B n Hx HB Hn. unfold DynamicAdder.forward. rewrite Hx, bind_Ok.
    destruct (unsqueeze_2_rank2 _ _ _ Hx) as (u & -> & Su). rewrite bind_Ok.
    destruct (linear_contract HD (DynamicAdder.fc self) 1 16 [B; n] Lfc u Su)
      as (o & -> & So). rewrite bind_Ok.
    unfold view, numel. rewrite So. cbn [app prod].
    unfold infer_size. cbn [existsb].
    replace (B <? -1) with false by (symmetry; apply Z.ltb_ge; lia).
    change (4 <? -1) with false. cbn [orb].
    rewrite (filter_cons_False (λ s, s = -1) B) by lia.
    change (filter (λ s, s = -1) [4; 4]) with (@nil Z). cbn [length prod].
    replace (B * (4 * (4 * 1)) =? B * (n * (16 * 1))) with false
      by (symmetry; apply Z.eqb_neq; nia).
    reflexivity.
  - intros B Hx HB. unfold DynamicAdder.forward. rewrite Hx, bind_Ok.
    destruct (unsqueeze_2_rank2 _ _ _ Hx) as (u & -> & Su). rewrite bind_Ok.
    destruct (linear_contract HD (DynamicAdder.fc self) 1 16 [B; 1] Lfc u Su)
      as (o & -> & So). rewrite bind_Ok.
    unfold view, numel. rewrite So. cbn [app prod].
    unfold infer_size. cbn [existsb].
    replace (B <? -1) with false by (symmetry; apply Z.ltb_ge; lia).
    change (4 <? -1) with false. cbn [orb].
    rewrite (filter_cons_False (λ s, s = -1) B) by lia.
    change (filter (λ s, s = -1) [4; 4]) with (@nil Z). cbn [length prod].
    replace (B * (4 * (4 * 1)) =? B * (1 * (16 * 1))) with true
      by (symmetry; apply Z.eqb_eq; lia).
    rewrite !bind_Ok. eexists. split; [|reflexivity]. reflexivity.
Qed.
End DynamicAdderForward.

Lemma DynamicAdder_forward_input_witness :
  @DynamicAdder.forward reference_runtime sample_adder (zeros [2; 3])
    = Raise RuntimeError ∧
  ∃ seed, shape seed = [2; 4; 4] ∧
    @DynamicAdder.forward reference_runtime sample_adder (zeros [2; 1])
    = (out ← @call reference_runtime (DynamicAdder.deconv2 sample_adder) seed;
       out ← @call reference_runtime (DynamicAdder.in2_d sample_adder) out;
       out ← @call reference_runtime (DynamicAdder.deconv1 sample_adder) out;
       @call reference_runtime (DynamicAdder.in1_d sample_adder) out).
Proof.
  destruct (@DynamicAdder_forward_input reference_runtime sample_adder
              (zeros [2; 3]) reference_decoder_contracts)
    as (_ & Hbad & _); [by split|].
  destruct (@DynamicAdder_forward_input reference_runtime sample_adder
              (zeros [2; 1]) reference_decoder_contracts)
    as (_ & _ & Hgood); [by split|].
  split.
  - apply (Hbad 2 3); [reflexivity | lia | lia].
  - apply (Hgood 2); [reflexivity | lia].
Defined.
